(** * hupper.reloader: the supervisor loop, its worker and its change signal

    A shallow embedding of [src/hupper/reloader.py].

    - [FileMonitorProxy] (the change signal) is a record with the event flag
      and the set of changed paths; its methods are pure functions that also
      return the lines they print.
    - [get_reloader] / [is_active] read the module-level [_reloader_proxy].
    - [Worker] and [Reloader] run in a small monad over a [World]: the
      supervisor's objects, the clock, what has been done so far (the
      [trace]) and a [script] of what the rest of the world does while the
      supervisor's main thread sits in a blocking call.  The blocking
      calls are [Process.start()], [Queue.get(timeout)],
      [Event.wait(timeout)], [Process.join()] and [time.sleep()]; a call
      with a timeout lasts no longer than the timeout.
    - The exceptions are [KeyboardInterrupt], which any blocking call may
      raise, [OSError] from [os.dup] and [os.close], [SystemExit] from
      [sys.exit], and those of attribute access on [None]. *)

From stdpp Require Import gmap strings list pretty sorting.
From Stdlib Require Import QArith Qcanon.

Open Scope Z_scope.

#[local] Set Warnings "-clear-no-such-hyp".

(** ** Printing *)

(** [out]: both [FileMonitorProxy.out] and [Reloader.out] print only when
    [verbose > 0].  The result is the list of printed lines. *)
Definition out (verbose : Z) (msg : string) : list string :=
  if decide (verbose > 0) then [msg] else [].

(** ** FileMonitorProxy *)

(** The wrapped monitor (an [IFileMonitor] built by [monitor_factory]) is
    kept as the list of paths handed to [add_path] and a running flag. *)
Record FileMonitorProxy := mkFileMonitorProxy {
  monitor_paths : list string;
  monitor_running : bool;
  verbose : Z;
  change_event : bool;
  changed_paths : gset string;
}.

(** [FileMonitorProxy.__init__] *)
Definition FileMonitorProxy_init (verbose : Z) : FileMonitorProxy :=
  {| monitor_paths := []; monitor_running := false; verbose := verbose;
     change_event := false; changed_paths := ∅ |}.

(** Python compares [str] by code points, left to right. *)
Definition str_le (a b : string) : Prop := String.leb a b = true.

#[global] Instance str_le_dec : RelDecision str_le.
Proof. intros a b. unfold str_le. apply _. Defined.

(** [sorted(paths)] *)
Definition sorted (paths : list string) : list string :=
  merge_sort str_le paths.

Definition changed_line (path : string) : string :=
  path +:+ " changed; reloading ...".

(** One turn of the [for] loop of [file_changed]; the accumulator is the
    object and the lines printed so far. *)
Definition file_changed_step
    (st : FileMonitorProxy * list string) (path : string)
  : FileMonitorProxy * list string :=
  let '(m, printed) := st in
  if decide (path ∈ changed_paths m) then st
  else
    ({| monitor_paths := monitor_paths m;
        monitor_running := monitor_running m;
        verbose := verbose m;
        change_event := true;
        changed_paths := changed_paths m ∪ {[ path ]} |},
     printed ++ out (verbose m) (changed_line path)).

(** [FileMonitorProxy.file_changed], run under [self.lock]. *)
Definition file_changed (paths : list string) (m : FileMonitorProxy)
  : FileMonitorProxy * list string :=
  foldl file_changed_step (m, []) (sorted paths).

(** [FileMonitorProxy.is_changed] *)
Definition is_changed (m : FileMonitorProxy) : bool := change_event m.

(** [FileMonitorProxy.clear_changes], run under [self.lock]. *)
Definition clear_changes (m : FileMonitorProxy) : FileMonitorProxy :=
  {| monitor_paths := monitor_paths m;
     monitor_running := monitor_running m;
     verbose := verbose m;
     change_event := false;
     changed_paths := ∅ |}.

(** [FileMonitorProxy.add_path] *)
Definition add_path (path : string) (m : FileMonitorProxy) : FileMonitorProxy :=
  {| monitor_paths := monitor_paths m ++ [path];
     monitor_running := monitor_running m;
     verbose := verbose m;
     change_event := change_event m;
     changed_paths := changed_paths m |}.

(** [FileMonitorProxy.start] and [FileMonitorProxy.stop] *)
Definition monitor_set_running (b : bool) (m : FileMonitorProxy)
  : FileMonitorProxy :=
  {| monitor_paths := monitor_paths m;
     monitor_running := b;
     verbose := verbose m;
     change_event := change_event m;
     changed_paths := changed_paths m |}.

(** The two calls that take [self.lock]. *)
Inductive MonitorCall :=
| CallFileChanged (paths : list string)
| CallClearChanges.

Definition monitor_call (c : MonitorCall) (m : FileMonitorProxy)
  : FileMonitorProxy :=
  match c with
  | CallFileChanged paths => (file_changed paths m).1
  | CallClearChanges => clear_changes m
  end.

Definition monitor_calls (cs : list MonitorCall) (m : FileMonitorProxy)
  : FileMonitorProxy :=
  foldl (λ m c, monitor_call c m) m cs.

(** Batches delivered one after the other, with the lines they print. *)
Definition deliver_batches (batches : list (list string))
    (m : FileMonitorProxy) : FileMonitorProxy * list string :=
  foldl (λ st paths,
           let r := file_changed paths st.1 in (r.1, st.2 ++ r.2))
        (m, []) batches.

(** ** The worker-side proxy and the module-level [_reloader_proxy] *)

Inductive Exn :=
| KeyboardInterrupt
| SystemExit (code : Z)
| RuntimeError (msg : string)
| AttributeError
| TypeError
| EOFError
| OSError.

Inductive Result (A : Type) :=
| Ok (a : A)
| Err (e : Exn).
Arguments Ok {A} a.
Arguments Err {A} e.

(** [ReloaderProxy]: the queue and the pipe end it was built with. *)
Record ReloaderProxy := mkReloaderProxy {
  proxy_files_queue : nat;
  proxy_pipe : nat;
}.

(** [get_reloader]; the argument is the value of [_reloader_proxy]. *)
Definition get_reloader (_reloader_proxy : option ReloaderProxy)
  : Result ReloaderProxy :=
  match _reloader_proxy with
  | None => Err (RuntimeError "process is not controlled by hupper")
  | Some p => Ok p
  end.

(** [is_active] *)
Definition is_active (_reloader_proxy : option ReloaderProxy) : Result bool :=
  match get_reloader _reloader_proxy with
  | Err (RuntimeError _) => Ok false
  | Err e => Err e
  | Ok _ => Ok true
  end.

(** ** The supervisor's world *)

(** The child process of [multiprocessing.Process], as the supervisor
    sees it. *)
Inductive ProcState :=
| Running
| Exited (code : Z).

Record Process := mkProcess {
  proc_pid : Z;
  proc_state : ProcState;
}.

(** The supervisor's end of the [multiprocessing.Pipe]: the bytes waiting
    to be read and whether the other end has been closed. *)
Record Connection := mkConnection {
  conn_pending : nat;
  conn_eof : bool;
}.

(** [Worker].  [process] and [stdin_fd] do not exist before [start()];
    they are [None] until then.  The child's end [_c2p] is closed and
    deleted by [start()] and is not kept. *)
Record Worker := mkWorker {
  worker_path : string;
  files_queue : list string;
  pipe : option Connection;
  terminated : bool;
  pid : option Z;
  exitcode : option Z;
  stdin_fd : option Z;
  process : option Process;
}.

(** What other threads and processes do while the main thread of the
    supervisor is inside a blocking call. *)
Inductive Async :=
| FileChanged (paths : list string)   (* the monitor calls [file_changed] *)
| WorkerExits (code : Z)              (* the child process ends *)
| WorkerTriggerReload                 (* the child calls [trigger_reload()] *)
| WorkerWatchFile (path : string)     (* the child puts a path on the queue *)
| Sighup.                             (* SIGHUP reaches the supervisor *)

(** One blocking call: the events during it, in order, how long it lasts
    when no timeout ends it sooner, and whether it is cut short by
    Ctrl-C. *)
Record Tick := mkTick {
  tick_events : list Async;
  tick_elapsed : Qc;
  tick_interrupt : bool;
}.

(** What the supervisor has done, oldest first. *)
Inductive Action :=
| Print (line : string)
| Spawn (pid : Z)
| SendFd (fd pid : Z)
| Terminate (pid : Z)
| Joined (pid code : Z)
| ClearChanges
| WaitForChange
| QueueGet
| Sleep (seconds : Qc).

Record World := mkWorld {
  (* the Reloader object *)
  reloader_worker_path : string;
  reload_interval : Qc;
  reloader_verbose : Z;
  monitor : option FileMonitorProxy;
  worker : option Worker;
  group : list (option Z);
  (* the supervisor process *)
  has_sighup : bool;
  sighup_handler : bool;
  open_fds : gset Z;
  next_pid : Z;
  clock : Qc;
  trace : list Action;
  script : list Tick;
}.

Definition set_monitor (m : option FileMonitorProxy) (w : World) : World :=
  mkWorld (reloader_worker_path w) (reload_interval w) (reloader_verbose w)
    m (worker w) (group w) (has_sighup w) (sighup_handler w) (open_fds w)
    (next_pid w) (clock w) (trace w) (script w).

Definition set_worker (k : option Worker) (w : World) : World :=
  mkWorld (reloader_worker_path w) (reload_interval w) (reloader_verbose w)
    (monitor w) k (group w) (has_sighup w) (sighup_handler w) (open_fds w)
    (next_pid w) (clock w) (trace w) (script w).

Definition set_group (g : list (option Z)) (w : World) : World :=
  mkWorld (reloader_worker_path w) (reload_interval w) (reloader_verbose w)
    (monitor w) (worker w) g (has_sighup w) (sighup_handler w) (open_fds w)
    (next_pid w) (clock w) (trace w) (script w).

Definition set_sighup_handler (b : bool) (w : World) : World :=
  mkWorld (reloader_worker_path w) (reload_interval w) (reloader_verbose w)
    (monitor w) (worker w) (group w) (has_sighup w) b (open_fds w)
    (next_pid w) (clock w) (trace w) (script w).

Definition set_open_fds (s : gset Z) (w : World) : World :=
  mkWorld (reloader_worker_path w) (reload_interval w) (reloader_verbose w)
    (monitor w) (worker w) (group w) (has_sighup w) (sighup_handler w) s
    (next_pid w) (clock w) (trace w) (script w).

Definition set_next_pid (p : Z) (w : World) : World :=
  mkWorld (reloader_worker_path w) (reload_interval w) (reloader_verbose w)
    (monitor w) (worker w) (group w) (has_sighup w) (sighup_handler w)
    (open_fds w) p (clock w) (trace w) (script w).

Definition set_clock (t : Qc) (w : World) : World :=
  mkWorld (reloader_worker_path w) (reload_interval w) (reloader_verbose w)
    (monitor w) (worker w) (group w) (has_sighup w) (sighup_handler w)
    (open_fds w) (next_pid w) t (trace w) (script w).

Definition set_trace (tr : list Action) (w : World) : World :=
  mkWorld (reloader_worker_path w) (reload_interval w) (reloader_verbose w)
    (monitor w) (worker w) (group w) (has_sighup w) (sighup_handler w)
    (open_fds w) (next_pid w) (clock w) tr (script w).

Definition set_script (s : list Tick) (w : World) : World :=
  mkWorld (reloader_worker_path w) (reload_interval w) (reloader_verbose w)
    (monitor w) (worker w) (group w) (has_sighup w) (sighup_handler w)
    (open_fds w) (next_pid w) (clock w) (trace w) s.

(** ** The monad of the supervisor's main thread *)

Inductive Outcome (A : Type) :=
| Ret (a : A) (w : World)       (* returned [a] *)
| Raise (e : Exn) (w : World)   (* an exception is on its way up *)
| Blocked (w : World)           (* in a blocking call, and the script is over *)
| OutOfFuel.                    (* a loop of the model ran out of fuel *)
Arguments Ret {A} a w.
Arguments Raise {A} e w.
Arguments Blocked {A} w.
Arguments OutOfFuel {A}.

Definition M (A : Type) : Type := World → Outcome A.

Definition ret {A} (a : A) : M A := λ w, Ret a w.

Definition bind {A B} (c : M A) (k : A → M B) : M B := λ w,
  match c w with
  | Ret a w' => k a w'
  | Raise e w' => Raise e w'
  | Blocked w' => Blocked w'
  | OutOfFuel => OutOfFuel
  end.

Declare Scope py_scope.
Delimit Scope py_scope with py.
Notation "'let*' x ':=' c 'in' k" := (bind c (λ x, k))
  (at level 10, x name, c at level 99, k at level 200) : py_scope.
Notation "c >> k" := (bind c (λ _, k))
  (at level 100, k at level 200, right associativity) : py_scope.
Open Scope py_scope.

Definition raise {A} (e : Exn) : M A := λ w, Raise e w.
Definition gets {A} (f : World → A) : M A := λ w, Ret (f w) w.
Definition modify (f : World → World) : M unit := λ w, Ret tt (f w).
Definition out_of_fuel {A} : M A := λ _, OutOfFuel.

(** [try: body finally: fin] *)
Definition try_finally {A} (body : M A) (fin : M unit) : M A := λ w,
  match body w with
  | Ret a w1 =>
      match fin w1 with
      | Ret _ w2 => Ret a w2
      | Raise e w2 => Raise e w2
      | Blocked w2 => Blocked w2
      | OutOfFuel => OutOfFuel
      end
  | Raise e w1 =>
      match fin w1 with
      | Ret _ w2 => Raise e w2
      | Raise e' w2 => Raise e' w2
      | Blocked w2 => Blocked w2
      | OutOfFuel => OutOfFuel
      end
  | Blocked w1 => Blocked w1
  | OutOfFuel => OutOfFuel
  end.

(** [try: body except <handled>: handler] *)
Definition try_except {A} (handled : Exn → bool) (body : M A)
    (handler : M A) : M A := λ w,
  match body w with
  | Raise e w1 => if handled e then handler w1 else Raise e w1
  | o => o
  end.

Definition is_KeyboardInterrupt (e : Exn) : bool :=
  match e with KeyboardInterrupt => true | _ => false end.

(** A bare [except:] *)
Definition any_exception (e : Exn) : bool := true.

(** Run a loop of the model with one unit of fuel more than there are
    ticks left in the script. *)
Definition with_fuel {A} (loop : nat → M A) : M A := λ w,
  loop (S (length (script w))) w.

Definition emit (a : Action) : M unit :=
  modify (λ w, set_trace (trace w ++ [a]) w).

Definition print_lines (lines : list string) : M unit :=
  modify (λ w, set_trace (trace w ++ (Print <$> lines)) w).

(** Attribute access on [self.monitor] and [self.worker]: on [None] it
    raises [AttributeError]. *)
Definition the_monitor : M FileMonitorProxy := λ w,
  match monitor w with
  | Some m => Ret m w
  | None => Raise AttributeError w
  end.

Definition the_worker : M Worker := λ w,
  match worker w with
  | Some k => Ret k w
  | None => Raise AttributeError w
  end.

Definition the_process : M Process :=
  let* k := the_worker in
  match process k with
  | Some p => ret p
  | None => raise AttributeError
  end.

Definition update_monitor (f : FileMonitorProxy → FileMonitorProxy) : M unit :=
  let* m := the_monitor in modify (set_monitor (Some (f m))).

Definition update_worker (f : Worker → Worker) : M unit :=
  let* k := the_worker in modify (set_worker (Some (f k))).

(** ** Blocking calls and what happens during them *)

Definition set_files_queue (q : list string) (k : Worker) : Worker :=
  mkWorker (worker_path k) q (pipe k) (terminated k) (pid k) (exitcode k)
    (stdin_fd k) (process k).

Definition set_pipe (c : option Connection) (k : Worker) : Worker :=
  mkWorker (worker_path k) (files_queue k) c (terminated k) (pid k)
    (exitcode k) (stdin_fd k) (process k).

Definition set_terminated (b : bool) (k : Worker) : Worker :=
  mkWorker (worker_path k) (files_queue k) (pipe k) b (pid k) (exitcode k)
    (stdin_fd k) (process k).

Definition set_pid (p : option Z) (k : Worker) : Worker :=
  mkWorker (worker_path k) (files_queue k) (pipe k) (terminated k) p
    (exitcode k) (stdin_fd k) (process k).

Definition set_exitcode (c : option Z) (k : Worker) : Worker :=
  mkWorker (worker_path k) (files_queue k) (pipe k) (terminated k) (pid k) c
    (stdin_fd k) (process k).

Definition set_stdin_fd (fd : option Z) (k : Worker) : Worker :=
  mkWorker (worker_path k) (files_queue k) (pipe k) (terminated k) (pid k)
    (exitcode k) fd (process k).

Definition set_process (p : option Process) (k : Worker) : Worker :=
  mkWorker (worker_path k) (files_queue k) (pipe k) (terminated k) (pid k)
    (exitcode k) (stdin_fd k) p.

(** [Reloader.out] *)
Definition Reloader_out (msg : string) : M unit :=
  let* v := gets reloader_verbose in print_lines (out v msg).

(** [Worker.terminate] *)
Definition Worker_terminate : M unit :=
  update_worker (set_terminated true) >>
  let* p := the_process in
  emit (Terminate (proc_pid p)).

(** [Reloader._signal_sighup] *)
Definition _signal_sighup : M unit :=
  let* k := gets worker in
  match k with
  | Some _ =>
      Reloader_out "Received SIGHUP, triggering a reload." >>
      Worker_terminate
  | None => ret tt
  end.

(** Something the child does: it can only do it while it runs. *)
Definition child_does (f : Worker → Worker) : M unit := λ w,
  match worker w with
  | Some k =>
      match process k with
      | Some (mkProcess _ Running) => Ret tt (set_worker (Some (f k)) w)
      | _ => Ret tt w
      end
  | None => Ret tt w
  end.

(** The child ends: the process has an exit code and the child's end of
    the pipe is closed, so the supervisor's end sees end-of-stream. *)
Definition child_exits (code : Z) (k : Worker) : Worker :=
  set_pipe
    (match pipe k with
     | Some c => Some (mkConnection (conn_pending c) true)
     | None => None
     end)
    (set_process
       (match process k with
        | Some p => Some (mkProcess (proc_pid p) (Exited code))
        | None => None
        end) k).

(** [ReloaderProxy.trigger_reload]: [self.pipe.send_bytes(b'1')] *)
Definition child_triggers_reload (k : Worker) : Worker :=
  set_pipe
    (match pipe k with
     | Some c => Some (mkConnection (S (conn_pending c)) (conn_eof c))
     | None => None
     end) k.

(** [files_queue.put(path)], from [watch_files] or [WatchSysModules] *)
Definition child_watches (path : string) (k : Worker) : Worker :=
  set_files_queue (files_queue k ++ [path]) k.

Definition deliver (e : Async) : M unit :=
  match e with
  | FileChanged paths => λ w,
      match monitor w with
      | Some m =>
          let r := file_changed paths m in
          print_lines r.2 (set_monitor (Some r.1) w)
      | None => Ret tt w
      end
  | WorkerExits code => child_does (child_exits code)
  | WorkerTriggerReload => child_does child_triggers_reload
  | WorkerWatchFile path => child_does (child_watches path)
  | Sighup =>
      let* installed := gets sighup_handler in
      if installed : bool then _signal_sighup else ret tt
  end.

Fixpoint deliver_all (es : list Async) : M unit :=
  match es with
  | [] => ret tt
  | e :: es' => deliver e >> deliver_all es'
  end.

(** How long a blocking call lasts: as long as the tick says, but, with a
    timeout, no longer than the timeout; a negative timeout counts as 0. *)
Definition call_time (timeout : option Qc) (t : Tick) : Qc :=
  match timeout with
  | Some d =>
      let d := if bool_decide (0 ≤ d)%Qc then d else 0%Qc in
      if bool_decide (tick_elapsed t ≤ d)%Qc then tick_elapsed t else d
  | None => tick_elapsed t
  end.

(** The main thread is inside a blocking call, with or without a timeout,
    for one tick of the script. *)
Definition block_for (timeout : option Qc) : M unit := λ w,
  match script w with
  | [] => Blocked w
  | t :: rest =>
      (deliver_all (tick_events t) >>
       if tick_interrupt t then raise KeyboardInterrupt else ret tt)
        (set_clock (clock w + call_time timeout t)%Qc (set_script rest w))
  end.

(** A blocking call without a timeout. *)
Definition block : M unit := block_for None.

(** [time.time()] and [time.sleep(seconds)] *)
Definition time_time : M Qc := gets clock.

Definition time_sleep (seconds : Qc) : M unit :=
  emit (Sleep seconds) >> block.

(** [sys.exit(code)] *)
Definition sys_exit {A} (code : Z) : M A := raise (SystemExit code).

(** [os.dup(fd)]: the lowest descriptor that is not open; [OSError] when
    [fd] is not an open descriptor. *)
Definition lowest_free (s : gset Z) : Z :=
  default (Z.of_nat (size s))
    (List.find (λ n, bool_decide (n ∉ s)) (seqZ 0 (Z.of_nat (S (size s))))).

Definition os_dup (fd : Z) : M Z :=
  let* fds := gets open_fds in
  if decide (fd ∈ fds) then
    let fd' := lowest_free fds in
    modify (set_open_fds (fds ∪ {[ fd' ]})) >> ret fd'
  else raise OSError.

(** [os.close(fd)] *)
Definition os_close (fd : Z) : M unit :=
  let* fds := gets open_fds in
  if decide (fd ∈ fds) then modify (set_open_fds (fds ∖ {[ fd ]}))
  else raise OSError.

(** ** Worker *)

(** [Worker.__init__] *)
Definition Worker_init (worker_path : string) : Worker :=
  {| worker_path := worker_path;
     files_queue := [];
     pipe := Some (mkConnection 0 false);
     terminated := false;
     pid := None;
     exitcode := None;
     stdin_fd := None;
     process := None |}.

(** Modelled from the spec: [send_fd] of [hupper.ipc] is not under src/;
    it transmits the descriptor to the process [pid] over the pipe, once. *)
Definition send_fd (fd : option Z) (pid : option Z) : M unit :=
  match fd, pid with
  | Some fd, Some pid => emit (SendFd fd pid)
  | _, _ => raise TypeError
  end.

(** [multiprocessing.Process(...)] and [self.process.start()]: the child
    gets the next process id and runs from then on.  The call lasts one
    tick, so the child, the monitor and signals may act before [start()]
    has returned: before the first [pipe.poll(0)] of the loop. *)
Definition Process_start : M unit :=
  let* p := gets next_pid in
  modify (set_next_pid (p + 1)) >>
  update_worker (set_process (Some (mkProcess p Running))) >>
  emit (Spawn p) >>
  block.

(** [Worker.start]; [sys.stdin.fileno()] is descriptor 0. *)
Definition Worker_start : M unit :=
  let* fd := os_dup 0 in
  update_worker (set_stdin_fd (Some fd)) >>
  Process_start >>
  let* pr := the_process in
  update_worker (set_pid (Some (proc_pid pr))) >>
  let* k := the_worker in
  send_fd (stdin_fd k) (pid k).

(** [Worker.is_alive] *)
Definition Worker_is_alive : M bool :=
  let* k := the_worker in
  match process k with
  | Some p =>
      match proc_state p with
      | Running => ret true
      | Exited _ => ret false
      end
  | None => ret false
  end.

Definition timed_out (timeout : option Qc) : bool :=
  match timeout with
  | Some t => bool_decide (t ≤ 0)%Qc
  | None => false
  end.

Definition remaining (timeout : option Qc) (spent : Qc) : option Qc :=
  match timeout with
  | Some t => Some (t - spent)%Qc
  | None => None
  end.

(** [multiprocessing.Process.join(timeout)]: wait until the child has
    ended, or, with a timeout, until the timeout has passed. *)
Fixpoint Process_join_loop (fuel : nat) (timeout : option Qc) : M unit :=
  match fuel with
  | O => out_of_fuel
  | S n =>
      let* p := the_process in
      match proc_state p with
      | Exited _ => ret tt
      | Running =>
          if timed_out timeout then ret tt
          else
            let* t0 := time_time in
            block >>
            let* t1 := time_time in
            Process_join_loop n (remaining timeout (t1 - t0)%Qc)
      end
  end.

Definition Process_join (timeout : option Qc) : M unit :=
  with_fuel (λ fuel, Process_join_loop fuel timeout).

(** [Worker.join]: [self.process.join()] is called without the timeout. *)
Definition Worker_join (timeout : option Qc) : M unit :=
  Process_join None >>
  let* p := the_process in
  match proc_state p with
  | Running => ret tt   (* the join timed out *)
  | Exited code =>
      update_worker (set_exitcode (Some code)) >>
      emit (Joined (proc_pid p) code) >>
      let* k := the_worker in
      match stdin_fd k with
      | Some fd =>
          try_finally
            (try_except any_exception (os_close fd) (ret tt))
            (update_worker (set_stdin_fd None))
      | None => ret tt
      end >>
      let* k := the_worker in
      match pipe k with
      | Some _ => update_worker (set_pipe None)
      | None => ret tt
      end
  end.

(** ** Reloader *)

(** [self.monitor.clear_changes()] *)
Definition monitor_clear_changes : M unit :=
  update_monitor clear_changes >> emit ClearChanges.

(** [self.monitor.wait_for_change(timeout)]: [Event.wait] returns at once
    when the flag is set and otherwise waits, at most for the timeout. *)
Definition monitor_wait_for_change (timeout : Qc) : M bool :=
  emit WaitForChange >>
  let* m := the_monitor in
  if change_event m then ret true
  else
    block_for (Some timeout) >>
    let* m := the_monitor in
    ret (change_event m).

(** [self.worker.pipe.poll(0)]: true when a byte or the end of the stream
    can be read. *)
Definition pipe_poll : M bool :=
  let* k := the_worker in
  match pipe k with
  | Some c => ret (bool_decide (0 < conn_pending c)%nat || conn_eof c)
  | None => raise AttributeError
  end.

Definition is_EOFError (e : Exn) : bool :=
  match e with EOFError => true | _ => false end.

(** [self.worker.files_queue.get(timeout=...)]: [None] stands for
    [queue.Empty].  The call lasts one tick, and no longer than the
    timeout. *)
Definition files_queue_get (timeout : Qc) : M (option string) :=
  emit QueueGet >>
  block_for (Some timeout) >>
  let* k := the_worker in
  match files_queue k with
  | [] => ret None
  | path :: q => update_worker (set_files_queue q) >> ret (Some path)
  end.

(** The [while] loop of [_run_worker]. *)
Fixpoint monitor_loop (fuel : nat) : M unit :=
  match fuel with
  | O => out_of_fuel
  | S n =>
      let* m := the_monitor in
      if is_changed m then ret tt
      else
        let* alive := Worker_is_alive in
        if negb alive then ret tt
        else
          let* data := try_except is_EOFError pipe_poll (ret false) in
          if data : bool then ret tt   (* break *)
          else
            let* interval := gets reload_interval in
            let* got := files_queue_get interval in
            match got with
            | Some path => update_monitor (add_path path)
            | None => ret tt
            end >>
            monitor_loop n
  end.

Definition str_of_pid (p : option Z) : string :=
  match p with
  | Some z => pretty z
  | None => "None"
  end.

(** The [finally] block of [_run_worker]. *)
Definition reap_worker : M unit :=
  let* alive := Worker_is_alive in
  if alive : bool then
    let* k := the_worker in
    Reloader_out ("Killing server with PID " +:+ str_of_pid (pid k) +:+ ".") >>
    Worker_terminate >>
    Worker_join None
  else
    Worker_join None >>
    let* k := the_worker in
    match exitcode k with
    | Some code =>
        Reloader_out ("Server with PID " +:+ str_of_pid (pid k)
                      +:+ " exited with code " +:+ pretty code +:+ ".")
    | None => raise TypeError
    end.

(** [Reloader._run_worker] *)
Definition _run_worker : M bool :=
  let* path := gets reloader_worker_path in
  modify (set_worker (Some (Worker_init path))) >>
  Worker_start >>
  try_finally
    (let* k := the_worker in
     modify (λ w, set_group (group w ++ [pid k]) w) >>
     Reloader_out ("Starting monitor for PID " +:+ str_of_pid (pid k) +:+ ".") >>
     monitor_clear_changes >>
     with_fuel monitor_loop)
    reap_worker >>
  monitor_clear_changes >>
  let* k := the_worker in
  let force_exit := terminated k in
  modify (set_worker None) >>
  ret force_exit.

(** The [while] loop of [_wait_for_changes]. *)
Fixpoint wait_loop (fuel : nat) : M unit :=
  match fuel with
  | O => out_of_fuel
  | S n =>
      let* interval := gets reload_interval in
      let* changed := monitor_wait_for_change interval in
      if changed : bool then ret tt else wait_loop n
  end.

(** [Reloader._wait_for_changes] *)
Definition _wait_for_changes : M unit :=
  Reloader_out "Waiting for changes before reloading." >>
  with_fuel wait_loop >>
  monitor_clear_changes.

(** [Reloader._start_monitor] *)
Definition _start_monitor : M unit :=
  let* v := gets reloader_verbose in
  modify (set_monitor (Some (FileMonitorProxy_init v))) >>
  update_monitor (monitor_set_running true).

(** [Reloader._stop_monitor] *)
Definition _stop_monitor : M unit :=
  let* m := gets monitor in
  match m with
  | Some _ =>
      update_monitor (monitor_set_running false) >>
      modify (set_monitor None)
  | None => ret tt
  end.

(** [Reloader._capture_signals] and [Reloader._restore_signals] *)
Definition _capture_signals : M unit :=
  let* has := gets has_sighup in
  if has : bool then modify (set_sighup_handler true) else ret tt.

Definition _restore_signals : M unit :=
  let* has := gets has_sighup in
  if has : bool then modify (set_sighup_handler false) else ret tt.

(** One turn of the [while True] loop of [run]. *)
Definition run_cycle : M unit :=
  let* start := time_time in
  let* forced := _run_worker in
  (if negb forced then _wait_for_changes else ret tt) >>
  let* interval := gets reload_interval in
  let* now := time_time in
  let debounce := (interval - (now - start))%Qc in
  if bool_decide (0 < debounce)%Qc then time_sleep debounce else ret tt.

Fixpoint run_loop (fuel : nat) : M unit :=
  match fuel with
  | O => out_of_fuel
  | S n => run_cycle >> run_loop n
  end.

(** [Reloader.run] *)
Definition run : M unit :=
  _capture_signals >>
  _start_monitor >>
  try_finally
    (try_except is_KeyboardInterrupt (with_fuel run_loop) (ret tt))
    (_stop_monitor >> _restore_signals) >>
  sys_exit 1.

(** [Reloader.run_once] *)
Definition run_once : M unit :=
  _capture_signals >>
  _start_monitor >>
  try_finally
    (try_except is_KeyboardInterrupt
       (let* _ := _run_worker in ret tt)
       (ret tt))
    (_stop_monitor >> _restore_signals).

(** [Reloader.__init__], in a supervisor process with the given
    descriptors open, clock and script. *)
Definition Reloader_init (worker_path : string) (reload_interval : Qc)
    (verbose : Z) (sighup : bool) (fds : gset Z) (first_pid : Z) (now : Qc)
    (script : list Tick) : World :=
  {| reloader_worker_path := worker_path;
     reload_interval := reload_interval;
     reloader_verbose := verbose;
     monitor := None;
     worker := None;
     group := [];
     has_sighup := sighup;
     sighup_handler := false;
     open_fds := fds;
     next_pid := first_pid;
     clock := now;
     trace := [];
     script := script |}.

(** ** Reading outcomes and traces *)

Definition outcome_world {A} (o : Outcome A) : option World :=
  match o with
  | Ret _ w | Raise _ w | Blocked w => Some w
  | OutOfFuel => None
  end.

Definition outcome_value {A} (o : Outcome A) : option A :=
  match o with
  | Ret a _ => Some a
  | _ => None
  end.

(** The actions that start a worker, record its end, or clear the change
    signal. *)
Definition is_lifecycle (a : Action) : bool :=
  match a with
  | Spawn _ | Joined _ _ | ClearChanges => true
  | _ => false
  end.

Definition lifecycle (tr : list Action) : list Action :=
  List.filter is_lifecycle tr.

(** How often a line was printed. *)
Definition occurrences (line : string) (printed : list string) : nat :=
  length (filter (λ l, l = line) printed).

(** The invariant of the change signal. *)
Definition flag_matches_paths (m : FileMonitorProxy) : Prop :=
  change_event m = true ↔ changed_paths m ≠ ∅.

(** ** Specifications of computations *)

(** [sat o Q E B]: the outcome [o] is a return satisfying [Q], an exception
    satisfying [E], or a blocked state satisfying [B]; it is never
    [OutOfFuel]. *)
Definition sat {A} (o : Outcome A) (Q : A → World → Prop)
    (E : Exn → World → Prop) (B : World → Prop) : Prop :=
  match o with
  | Ret a w => Q a w
  | Raise e w => E e w
  | Blocked w => B w
  | OutOfFuel => False
  end.

Definition is_print (a : Action) : Prop := ∃ line, a = Print line.

(** What may be done between the start of the worker [p] and the moment
    it is joined: printing, polling the queue, and [terminate()]. *)
Definition quiet (p : Z) (a : Action) : Prop :=
  is_print a ∨ a = QueueGet ∨ a = Terminate p.

(** The [Worker] object refers to the process [p]. *)
Definition attached (p : Z) (k : Worker) : Prop :=
  ∃ st, process k = Some (mkProcess p st).

Definition worker_alive (k : Worker) : Prop :=
  ∃ p, process k = Some (mkProcess p Running).

(** How the [Worker] object may change while the main thread is in a
    blocking call, given the actions [tr] taken meanwhile. *)
Record worker_evolves (p : Z) (tr : list Action) (k k' : Worker) : Prop := {
  we_path : worker_path k' = worker_path k;
  we_pid : pid k' = pid k;
  we_stdin : stdin_fd k' = stdin_fd k;
  we_exitcode : exitcode k' = exitcode k;
  we_pipe : is_Some (pipe k') ↔ is_Some (pipe k);
  we_attached : attached p k';
  we_exited : ∀ c, process k = Some (mkProcess p (Exited c)) →
                   process k' = Some (mkProcess p (Exited c));
  we_terminated : terminated k' = true ↔
                  terminated k = true ∨ Terminate p ∈ tr;
}.

(** How the world may change between two points of the main thread at
    which the worker is the same: [tr] is what was done meanwhile. *)
Record during (p : Z) (tr : list Action) (w w' : World) : Prop := {
  d_trace : trace w' = trace w ++ tr;
  d_quiet : Forall (quiet p) tr;
  d_path : reloader_worker_path w' = reloader_worker_path w;
  d_interval : reload_interval w' = reload_interval w;
  d_verbose : reloader_verbose w' = reloader_verbose w;
  d_has_sighup : has_sighup w' = has_sighup w;
  d_handler : sighup_handler w' = sighup_handler w;
  d_next_pid : next_pid w' = next_pid w;
  d_fds : open_fds w' = open_fds w;
  d_script : (length (script w') ≤ length (script w))%nat;
  d_monitor : is_Some (monitor w') ↔ is_Some (monitor w);
  d_no_worker : worker w = None → worker w' = None;
  d_worker : ∀ k, worker w = Some k → attached p k →
             ∃ k', worker w' = Some k' ∧ worker_evolves p tr k k';
}.

(** The worker slot is empty or holds a worker attached to [p]. *)
Definition slot_ok (p : Z) (w : World) : Prop :=
  ∀ k, worker w = Some k → attached p k.

(** The fields of the [Reloader] object that no method assigns, and the
    signal handler. *)
Record same_config (w w' : World) : Prop := {
  c_path : reloader_worker_path w' = reloader_worker_path w;
  c_interval : reload_interval w' = reload_interval w;
  c_verbose : reloader_verbose w' = reloader_verbose w;
  c_has_sighup : has_sighup w' = has_sighup w;
  c_handler : sighup_handler w' = sighup_handler w;
}.

(** The state of a [Worker] whose process [p] has been joined with exit
    code [c]. *)
Record released (p c : Z) (k : Worker) : Prop := {
  rl_stdin : stdin_fd k = None;
  rl_pipe : pipe k = None;
  rl_exitcode : exitcode k = Some c;
  rl_process : process k = Some (mkProcess p (Exited c));
}.

(** The descriptor a [Worker] holds, as a set. *)
Definition held_fd (k : Worker) : gset Z :=
  match stdin_fd k with
  | Some fd => {[ fd ]}
  | None => ∅
  end.

(** What [Worker.join] does to the world when it returns: [tr] is what
    was done while waiting, and [c] the exit code. *)
Record joined (p c : Z) (tr : list Action) (w w' : World) : Prop := {
  j_trace : trace w' = trace w ++ tr ++ [Joined p c];
  j_quiet : Forall (quiet p) tr;
  j_config : same_config w w';
  j_next_pid : next_pid w' = next_pid w;
  j_fds : ∀ k, worker w = Some k → open_fds w' = open_fds w ∖ held_fd k;
  j_script : (length (script w') ≤ length (script w))%nat;
  j_monitor : is_Some (monitor w') ↔ is_Some (monitor w);
  j_worker : ∀ k, worker w = Some k → attached p k →
    ∃ k', worker w' = Some k' ∧ released p c k' ∧ pid k' = pid k ∧
          (terminated k' = true ↔ terminated k = true ∨ Terminate p ∈ tr);
}.

(** Nothing asks the loop of [_run_worker] to end: no change is flagged,
    the child runs, and nothing can be read from the pipe. *)
Definition loop_continues (w : World) : Prop :=
  ∃ m k p,
    monitor w = Some m ∧ change_event m = false ∧
    worker w = Some k ∧ process k = Some (mkProcess p Running) ∧
    pipe k = Some (mkConnection 0 false).

(** The actions of one complete cycle of [_run_worker] for the worker [p]
    that ended with exit code [c]: the start and what happens during it,
    [clear_changes()], the polling and the signals, the join,
    [clear_changes()]. *)
Definition cycle_trace (p c : Z) (tr : list Action) : Prop :=
  ∃ fd tr0 l1 tr1 l2,
    tr = Spawn p :: tr0 ++ SendFd fd p :: (Print <$> l1) ++
         ClearChanges :: tr1 ++
         Joined p c :: (Print <$> l2) ++ [ClearChanges] ∧
    Forall (quiet p) tr0 ∧ Forall (quiet p) tr1.

(** The actions of a cycle that was cut short, by [KeyboardInterrupt] or
    by the end of the script: the worker [p] was started, and then the
    change signal was cleared at most once and the worker joined at most
    once, in this order. *)
Definition cycle_cut (p : Z) (tr : list Action) : Prop :=
  lifecycle tr = [Spawn p] ∨
  lifecycle tr = [Spawn p; ClearChanges] ∨
  ∃ c, lifecycle tr = [Spawn p; ClearChanges; Joined p c].

(** The first worker started in [tr] is [p]. *)
Definition started (p : Z) (tr : list Action) : Prop :=
  ∃ tr', lifecycle tr = Spawn p :: tr'.

(** What a call of [_run_worker] that returns [force] has done: [p] is the
    process id of the worker it started. *)
Record cycle_done (p : Z) (force : bool) (w w' : World) : Prop := {
  cy_trace : ∃ tr c, trace w' = trace w ++ tr ∧ cycle_trace p c tr ∧
                     (force = true ↔ Terminate p ∈ tr);
  cy_config : same_config w w';
  cy_monitor : is_Some (monitor w');
  cy_worker : worker w' = None;
  cy_script : (length (script w') < length (script w))%nat;
  cy_next_pid : next_pid w' = next_pid w + 1;
  cy_fds : open_fds w' = open_fds w;
  cy_sent : ∃ fd tr, trace w' = trace w ++ tr ∧ SendFd fd p ∈ tr ∧
                     (fd ∉ open_fds w);
}.

(** ** Concrete worlds *)

Definition example_tick (events : list Async) : Tick :=
  mkTick events (Q2Qc (1 # 5)) false.

Definition example_interrupt : Tick :=
  mkTick [] (Q2Qc (1 # 5)) true.

(** A new [Reloader] for ["app.main"], with [reload_interval=1] and
    [verbose=1], in a process with descriptors 0, 1 and 2 open. *)
Definition example_reloader (script : list Tick) : World :=
  Reloader_init "app.main" 1%Qc 1 true {[0; 1; 2]} 100 0%Qc script.

Definition world_after {A} (c : M A) (w : World) : World :=
  default w (outcome_world (c w)).

(** The same in a process whose standard input, descriptor 0, is
    closed. *)
Definition example_closed_stdin (script : list Tick) : World :=
  Reloader_init "app.main" 1%Qc 1 true {[1; 2]} 100 0%Qc script.

(** The same after [_capture_signals()] and [_start_monitor()]. *)
Definition example_monitoring (script : list Tick) : World :=
  world_after (_capture_signals >> _start_monitor) (example_reloader script).

(** The same with a started worker; nothing happens while it is being
    started. *)
Definition example_started (script : list Tick) : World :=
  world_after
    (modify (set_worker (Some (Worker_init "app.main"))) >> Worker_start)
    (example_monitoring (example_tick [] :: script)).

(** What may be done while no worker is being started or joined and the
    change signal is not cleared: [tr] has no [Spawn], no [Joined] and no
    [ClearChanges]. *)
Record idle (tr : list Action) (w w' : World) : Prop := {
  i_trace : trace w' = trace w ++ tr;
  i_actions : Forall (λ a, is_lifecycle a = false) tr;
  i_config : same_config w w';
  i_next_pid : next_pid w' = next_pid w;
  i_fds : open_fds w' = open_fds w;
  i_script : (length (script w') ≤ length (script w))%nat;
  i_monitor : is_Some (monitor w') ↔ is_Some (monitor w);
  i_worker : worker w = None → worker w' = None;
}.

(** What is done while the supervisor waits for a change or sleeps, with
    the worker [p] gone: printing, [wait_for_change] and [time.sleep];
    [quiet p] is what a blocking call may add. *)
Definition resting (p : Z) (a : Action) : Prop :=
  quiet p a ∨ a = WaitForChange ∨ ∃ d, a = Sleep d.

(** The actions of one turn of the loop of [run] for the worker [p]: the
    cycle and, exactly when [terminate()] was not called on the worker,
    the wait for changes with its [clear_changes()]. *)
Definition turn_trace (p c : Z) (tr : list Action) : Prop :=
  (Terminate p ∈ tr ∧
   lifecycle tr = [Spawn p; ClearChanges; Joined p c; ClearChanges] ∧
   WaitForChange ∉ tr) ∨
  ((Terminate p ∉ tr) ∧
   lifecycle tr = [Spawn p; ClearChanges; Joined p c; ClearChanges;
                   ClearChanges] ∧
   WaitForChange ∈ tr).

(** What one turn of the loop of [run] has done. *)
Record turn_done (w w' : World) : Prop := {
  t_trace : ∃ tr c,
    trace w' = trace w ++ tr ∧ turn_trace (next_pid w) c tr;
  t_config : same_config w w';
  t_monitor : is_Some (monitor w');
  t_worker : worker w' = None;
  t_script : (length (script w') < length (script w))%nat;
  t_next_pid : next_pid w' = next_pid w + 1;
  t_fds : open_fds w' = open_fds w;
}.

(** How often [clear_changes()] was called. *)
Definition is_clear (a : Action) : bool :=
  match a with ClearChanges => true | _ => false end.

Definition clear_calls (tr : list Action) : nat :=
  length (List.filter is_clear tr).

(** "Either a recorded exit code or the terminated flag, never both", for
    a call of [_run_worker] that starts with an empty trace. *)
Definition exit_code_xor_terminated (o : Outcome bool) : Prop :=
  match o with
  | Ret force w' =>
      ((∃ p c, Joined p c ∈ trace w') ∨ force = true) ∧
      ¬ ((∃ p c, Joined p c ∈ trace w') ∧ force = true)
  | _ => True
  end.

(** "[run] ends with exit status 1 whenever its loop ends, and does not
    return": what this says of the outcome of [run]. *)
Definition exits_with_status_1 (o : Outcome unit) : Prop :=
  match o with
  | Raise e _ => e = SystemExit 1
  | Blocked _ => True
  | Ret _ _ | OutOfFuel => False
  end.

(** "[clear_changes()] is called exactly once", for a call of
    [_run_worker] that starts with an empty trace. *)
Definition clears_once (o : Outcome bool) : Prop :=
  match o with
  | Ret _ w' => clear_calls (trace w') = 1%nat
  | _ => True
  end.

(** In each of these scripts the first tick is the start of the worker,
    the others the blocking calls that follow. *)

(** A change is reported while the worker runs; the worker ends once it
    has been sent the termination signal. *)
Definition script_change : list Tick :=
  [example_tick []; example_tick [FileChanged ["a.py"]];
   example_tick [WorkerExits (-15)]].

(** The worker ends by itself with exit code 3. *)
Definition script_exit : list Tick :=
  [example_tick []; example_tick [WorkerExits 3]].

(** The worker asks for a reload during the first poll of the queue and
    ends when it is terminated. *)
Definition script_reload : list Tick :=
  [example_tick []; example_tick [WorkerTriggerReload];
   example_tick [WorkerExits (-15)]; example_tick []].

(** The worker asks for a reload while it is being started, before the
    first [pipe.poll(0)]. *)
Definition script_reload_early : list Tick :=
  [example_tick [WorkerTriggerReload]; example_tick [WorkerExits (-15)];
   example_tick []].

(** The worker ends; a change comes during the second wait; the next
    worker is interrupted by Ctrl-C and ends. *)
Definition script_session : list Tick :=
  [example_tick []; example_tick [WorkerExits 3]; example_tick [];
   example_tick [FileChanged ["a.py"]]; example_tick []; example_tick [];
   example_interrupt; example_tick [WorkerExits 0]].

(** The worker ends by itself while it is being started and a change
    comes while the supervisor waits: two ticks of 1/5 s, so the cycle
    takes 2/5 s. *)
Definition script_wait : list Tick :=
  [example_tick [WorkerExits 3]; example_tick [FileChanged ["a.py"]];
   example_tick []].

(** ** What a computation may add to the trace *)

(** Every action [c] adds to the trace satisfies [Q], however [c] ends. *)
Definition only (Q : Action → Prop) {A} (c : M A) : Prop :=
  ∀ w w', outcome_world (c w) = Some w' →
          ∃ tr, trace w' = trace w ++ tr ∧ Forall Q tr.

Definition is_poll (a : Action) : bool :=
  match a with QueueGet => true | _ => false end.

(** How often the queue of paths was polled. *)
Definition polls (tr : list Action) : nat :=
  length (List.filter is_poll tr).

(** Printing and [terminate()]: what the monitor's thread, the signal
    handler and the [finally] block do. *)
Definition unpolled (a : Action) : Prop :=
  match a with
  | Print _ | Terminate _ | Joined _ _ => True
  | _ => False
  end.

#[global] Instance Async_eq_dec : EqDecision Async.
Proof. solve_decision. Defined.

(** A tick during which the child only reports paths to watch. *)
Definition quiet_tick (t : Tick) : Prop :=
  tick_interrupt t = false ∧
  Forall (λ e, ∃ path, e = WorkerWatchFile path) (tick_events t).

(** A tick during which the child calls [trigger_reload()] and does not
    end; anything else may happen as well, except Ctrl-C. *)
Definition reload_tick (t : Tick) : Prop :=
  tick_interrupt t = false ∧
  WorkerTriggerReload ∈ tick_events t ∧
  ∀ code, WorkerExits code ∉ tick_events t.

(** The child [p] runs and at least [n] bytes wait in the pipe. *)
Definition running (p : Z) (n : nat) (w : World) : Prop :=
  ∃ k c, worker w = Some k ∧ process k = Some (mkProcess p Running) ∧
         pipe k = Some c ∧ (n ≤ conn_pending c)%nat.

(** The state in which the loop of [_run_worker] goes on polling. *)
Definition polling (p : Z) (w : World) : Prop :=
  ∃ m k, monitor w = Some m ∧ change_event m = false ∧
         worker w = Some k ∧ process k = Some (mkProcess p Running) ∧
         pipe k = Some (mkConnection 0 false).

(** The child [p] has just been started: it runs and has written nothing
    to the pipe. *)
Definition fresh (p : Z) (w : World) : Prop :=
  ∃ k, worker w = Some k ∧ process k = Some (mkProcess p Running) ∧
       pipe k = Some (mkConnection 0 false).

(** The time that polls of the queue take, one poll for each tick, with
    the timeout [interval]. *)
Definition polls_time (interval : Qc) (ticks : list Tick) : Qc :=
  foldr (λ t acc, (call_time (Some interval) t + acc)%Qc) 0%Qc ticks.

(** The rest of [_run_worker] from its [while] loop on. *)
Definition cycle_tail : M bool :=
  try_finally (with_fuel monitor_loop) reap_worker >>
  monitor_clear_changes >>
  let* k := the_worker in
  let force_exit := terminated k in
  modify (set_worker None) >>
  ret force_exit.

(** "After a reload asked for by the worker the terminated flag is
    false", for a call of [_run_worker]. *)
Definition reload_leaves_terminated_false (o : Outcome bool) : Prop :=
  match o with
  | Ret force _ => force = false
  | _ => True
  end.

(** ** What a computation keeps *)





(** ** The worker's side: the paths of the imported modules *)








(** ** start_reloader *)




(** * Properties *)

(** ** The change signal *)

Section change_signal.
Implicit Types (m : FileMonitorProxy) (paths : list string).

Lemma sorted_elem_of paths p : p ∈ sorted paths ↔ p ∈ paths.
Proof. unfold sorted. by rewrite merge_sort_Permutation. Qed.

Lemma file_changed_step_flag st p :
  flag_matches_paths st.1 → flag_matches_paths (file_changed_step st p).1.
Proof.
  destruct st as [m pr]; simpl. case_decide; simpl; [done|].
  intros _. unfold flag_matches_paths; simpl. split; [|done].
  intros _. set_solver.
Qed.

Lemma fold_step_flag l st :
  flag_matches_paths st.1 →
  flag_matches_paths (foldl file_changed_step st l).1.
Proof.
  revert st. induction l as [|p l IH]; intros st Hst; simpl; [done|].
  apply IH. by apply file_changed_step_flag.
Qed.

Lemma fold_step_flag_mono l st :
  change_event st.1 = true →
  change_event (foldl file_changed_step st l).1 = true.
Proof.
  revert st. induction l as [|p l IH]; intros st Hst; simpl; [done|].
  apply IH. destruct st as [m pr]; simpl in *. by case_decide.
Qed.

Lemma fold_step_sets_flag l st p :
  p ∈ l → p ∉ changed_paths st.1 →
  change_event (foldl file_changed_step st l).1 = true.
Proof.
  revert st. induction l as [|a l IH]; intros st Hin Hnew.
  { by apply elem_of_nil in Hin. }
  simpl. destruct st as [m pr]; simpl in *.
  case_decide as Ha.
  - apply IH; [|done]. apply elem_of_cons in Hin as [->|]; done.
  - by apply fold_step_flag_mono.
Qed.

(** What one batch adds: the new paths, each once, in the order they are
    printed. *)
Lemma fold_step_effect l st :
  ∃ new,
    NoDup new ∧
    (∀ p, p ∈ new ↔ p ∈ l ∧ p ∉ changed_paths st.1) ∧
    changed_paths (foldl file_changed_step st l).1
      = changed_paths st.1 ∪ list_to_set new ∧
    verbose (foldl file_changed_step st l).1 = verbose st.1 ∧
    (foldl file_changed_step st l).2
      = st.2 ++ (new ≫= λ p, out (verbose st.1) (changed_line p)).
Proof.
  revert st. induction l as [|a l IH]; intros [m pr]; simpl.
  { exists []. split_and!; [constructor| |simpl; by rewrite (right_id_L ∅ (∪))|done|].
    - intros p. rewrite !elem_of_nil. tauto.
    - by rewrite app_nil_r. }
  case_decide as Ha.
  - destruct (IH (m, pr)) as (new & Hnd & Hin & Hcp & Hv & Hpr).
    exists new. split_and!; try done.
    intros p. rewrite Hin, elem_of_cons. simpl. split; [tauto|].
    intros [[->|?] ?]; done.
  - match goal with |- context [foldl file_changed_step ?s l] =>
      destruct (IH s) as (new & Hnd & Hin & Hcp & Hv & Hpr) end.
    cbn [fst snd changed_paths verbose] in Hin, Hcp, Hv, Hpr.
    exists (a :: new). split_and!.
    + constructor; [|done]. rewrite Hin. intros [_ H]. apply H. apply elem_of_union_r. by apply elem_of_singleton.
    + intros p. rewrite !elem_of_cons, Hin, elem_of_union, elem_of_singleton.
      destruct (decide (p = a)) as [->|]; tauto.
    + rewrite Hcp. rewrite list_to_set_cons. by rewrite (assoc_L (∪)). 
    + done.
    + rewrite Hpr. simpl. by rewrite <-app_assoc.
Qed.

Lemma file_changed_effect paths m :
  ∃ new,
    NoDup new ∧
    (∀ p, p ∈ new ↔ p ∈ paths ∧ p ∉ changed_paths m) ∧
    changed_paths (file_changed paths m).1
      = changed_paths m ∪ list_to_set new ∧
    verbose (file_changed paths m).1 = verbose m ∧
    (file_changed paths m).2
      = new ≫= λ p, out (verbose m) (changed_line p).
Proof.
  destruct (fold_step_effect (sorted paths) (m, [])) as
    (new & Hnd & Hin & Hcp & Hv & Hpr).
  exists new. split_and!; try done.
  intros p. rewrite Hin. simpl. by rewrite sorted_elem_of.
Qed.

Lemma deliver_batches_effect batches m :
  ∃ new,
    NoDup new ∧
    (∀ p, p ∈ new ↔ p ∈ concat batches ∧ p ∉ changed_paths m) ∧
    changed_paths (deliver_batches batches m).1
      = changed_paths m ∪ list_to_set new ∧
    (deliver_batches batches m).2
      = new ≫= λ p, out (verbose m) (changed_line p).
Proof.
  unfold deliver_batches.
  enough (∀ st, ∃ new,
    NoDup new ∧
    (∀ p, p ∈ new ↔ p ∈ concat batches ∧ p ∉ changed_paths st.1) ∧
    changed_paths (foldl (λ st paths,
         let r := file_changed paths st.1 in (r.1, st.2 ++ r.2))
      st batches).1 = changed_paths st.1 ∪ list_to_set new ∧
    verbose (foldl (λ st paths,
         let r := file_changed paths st.1 in (r.1, st.2 ++ r.2))
      st batches).1 = verbose st.1 ∧
    (foldl (λ st paths,
         let r := file_changed paths st.1 in (r.1, st.2 ++ r.2))
      st batches).2
      = st.2 ++ (new ≫= λ p, out (verbose st.1) (changed_line p))) as H.
  { destruct (H (m, [])) as (new & ? & ? & ? & ? & ?). by exists new. }
  induction batches as [|b bs IH]; intros [m0 pr]; simpl.
  { exists []. split_and!; [constructor|set_solver|set_solver|done|].
    by rewrite app_nil_r. }
  destruct (file_changed_effect b m0) as (n1 & Hnd1 & Hin1 & Hcp1 & Hv1 & Hpr1).
  match goal with |- context [foldl _ (?m1, ?pr1) bs] =>
    destruct (IH (m1, pr1)) as (n2 & Hnd2 & Hin2 & Hcp2 & Hv2 & Hpr2) end.
  simpl in *. exists (n1 ++ n2). split_and!.
  - apply NoDup_app. split_and!; [done| |done].
    intros p Hp1 Hp2. apply Hin2 in Hp2 as [_ Hp2]. apply Hp2.
    rewrite Hcp1. set_solver.
  - intros p. rewrite elem_of_app, Hin1, Hin2, elem_of_app, Hcp1.
    rewrite elem_of_union, elem_of_list_to_set, Hin1.
    destruct (decide (p ∈ changed_paths m0)), (decide (p ∈ b)); tauto.
  - rewrite Hcp2, Hcp1. set_solver.
  - by rewrite Hv2.
  - rewrite Hpr2, Hpr1, Hv1, bind_app. by rewrite <-app_assoc.
Qed.

Lemma str_length_app (s t : string) :
  String.length (s +:+ t) = (String.length s + String.length t)%nat.
Proof. induction s as [|a s IH]; simpl; [done|]. by rewrite IH. Qed.

Lemma changed_line_inj : Inj (=) (=) changed_line.
Proof.
  unfold changed_line. intros p. induction p as [|a p IH]; intros [|b q] H.
  - done.
  - apply (f_equal String.length) in H. simpl in H.
    rewrite str_length_app in H. simpl in H. lia.
  - apply (f_equal String.length) in H. simpl in H.
    rewrite str_length_app in H. simpl in H. lia.
  - simpl in H. injection H as -> H. f_equal. by apply IH.
Qed.

Lemma occurrences_absent new v p :
  p ∉ new →
  occurrences (changed_line p) (new ≫= λ q, out v (changed_line q)) = 0%nat.
Proof.
  unfold occurrences. induction new as [|a new IH]; intros Hp; [done|].
  apply not_elem_of_cons in Hp as [Hne Hp].
  cbn [mbind list_bind]. rewrite filter_app, length_app, (IH Hp).
  unfold out. case_decide; [|done].
  rewrite filter_cons, decide_False; [done|].
  intros Heq. by apply changed_line_inj in Heq.
Qed.

Lemma occurrences_once new v p :
  NoDup new →
  (occurrences (changed_line p) (new ≫= λ q, out v (changed_line q)) ≤ 1)%nat.
Proof.
  induction 1 as [|a new Ha Hnd IH]; [unfold occurrences; simpl; lia|].
  destruct (decide (p = a)) as [->|Hne].
  - pose proof (occurrences_absent new v a Ha) as H0.
    unfold occurrences in *. cbn [mbind list_bind].
    rewrite filter_app, length_app, H0.
    unfold out. case_decide; simpl; [|lia].
    rewrite filter_cons. case_decide; simpl; lia.
  - unfold occurrences in *. cbn [mbind list_bind].
    rewrite filter_app, length_app.
    unfold out at 1. case_decide; simpl; [|lia].
    rewrite filter_cons, decide_False; [simpl; lia|].
    intros Heq. apply changed_line_inj in Heq. congruence.
Qed.

(** C1: starting from a fresh [FileMonitorProxy], after any sequence of
    [file_changed] callbacks and [clear_changes] calls the event flag is
    set if and only if [changed_paths] is not empty; whatever the state,
    [clear_changes] leaves the flag unset and the set empty; and a batch
    with a path that is not yet in the set leaves the flag set. *)
Theorem change_flag_iff_changed_paths :
  (∀ v calls,
     flag_matches_paths (monitor_calls calls (FileMonitorProxy_init v))) ∧
  (∀ m,
     change_event (clear_changes m) = false ∧
     changed_paths (clear_changes m) = ∅) ∧
  (∀ m paths p,
     p ∈ paths → p ∉ changed_paths m →
     is_changed (file_changed paths m).1 = true).
Proof.
  split_and!.
  - intros v calls. unfold monitor_calls.
    assert (flag_matches_paths (FileMonitorProxy_init v)) as H0.
    { unfold flag_matches_paths; simpl. split; done. }
    revert H0. generalize (FileMonitorProxy_init v).
    induction calls as [|c calls IH]; intros m Hm; simpl; [done|].
    apply IH. destruct c as [paths|]; simpl.
    + by apply (fold_step_flag (sorted paths) (m, [])).
    + unfold flag_matches_paths; simpl. split; done.
  - done.
  - intros m paths p Hin Hnew. unfold is_changed, file_changed.
    apply (fold_step_sets_flag (sorted paths) (m, []) p); [|done].
    by apply sorted_elem_of.
Qed.

(** C6: between two [clear_changes] calls, however often a path is
    delivered, in one batch or in several, its "changed; reloading" line
    is printed at most once and [changed_paths] holds it once: the set is
    the set of the delivered paths, and its size is the number of distinct
    delivered paths. *)
Theorem duplicate_path_logged_once m batches p :
  let r := deliver_batches batches (clear_changes m) in
  (occurrences (changed_line p) r.2 ≤ 1)%nat ∧
  changed_paths r.1 = list_to_set (concat batches) ∧
  size (changed_paths r.1) = length (remove_dups (concat batches)).
Proof.
  simpl.
  destruct (deliver_batches_effect batches (clear_changes m))
    as (new & Hnd & Hin & Hcp & Hpr).
  assert (changed_paths (deliver_batches batches (clear_changes m)).1
          = list_to_set (concat batches)) as Hset.
  { rewrite Hcp. simpl. apply set_eq. intros x.
    rewrite elem_of_union, !elem_of_list_to_set, Hin. simpl. set_solver. }
  split_and!.
  - rewrite Hpr. by apply occurrences_once.
  - done.
  - rewrite Hset.
    rewrite <-(size_list_to_set (C:=gset string) (remove_dups (concat batches)))
      by apply NoDup_remove_dups.
    f_equal. apply set_eq. intros x.
    by rewrite !elem_of_list_to_set, elem_of_remove_dups.
Qed.
End change_signal.

(** ** The module-level proxy *)

(** C8: [get_reloader] returns the installed proxy when there is one and
    raises [RuntimeError] when there is none; [is_active] never raises and
    returns [True] exactly when a proxy is installed. *)
Theorem get_reloader_is_active (g : option ReloaderProxy) :
  (∀ p, g = Some p → get_reloader g = Ok p) ∧
  (g = None →
   get_reloader g = Err (RuntimeError "process is not controlled by hupper")) ∧
  is_active g = Ok (bool_decide (is_Some g)).
Proof.
  split_and!.
  - by intros p ->.
  - by intros ->.
  - by destruct g.
Qed.

Lemma change_flag_iff_changed_paths_witness :
  "a.py" ∈ ["b.py"; "a.py"] ∧
  ("a.py" ∉ changed_paths (FileMonitorProxy_init 1)) ∧
  is_changed (file_changed ["b.py"; "a.py"] (FileMonitorProxy_init 1)).1 = true.
Proof.
  assert ("a.py" ∈ ["b.py"; "a.py"]) as Hin by (right; left).
  assert ("a.py" ∉ changed_paths (FileMonitorProxy_init 1)) as Hnew
    by (simpl; apply not_elem_of_empty).
  split_and!; [exact Hin|exact Hnew|].
  exact (proj2 (proj2 change_flag_iff_changed_paths) _ _ _ Hin Hnew).
Defined.

Lemma get_reloader_is_active_witness :
  get_reloader (Some (mkReloaderProxy 0 0)) = Ok (mkReloaderProxy 0 0) ∧
  get_reloader None
    = Err (RuntimeError "process is not controlled by hupper").
Proof.
  split.
  - exact (proj1 (get_reloader_is_active (Some (mkReloaderProxy 0 0)))
             _ eq_refl).
  - exact (proj1 (proj2 (get_reloader_is_active None)) eq_refl).
Defined.

(** ** The monad *)

Section monad.
Context {A B : Type}.

Lemma bind_Ret (c : M A) (k : A → M B) w a w1 :
  c w = Ret a w1 → bind c k w = k a w1.
Proof. unfold bind. by intros ->. Qed.

Lemma sat_bind (c : M A) (k : A → M B) w Q1 E1 B1 Q E Bl :
  sat (c w) Q1 E1 B1 →
  (∀ a w1, Q1 a w1 → sat (k a w1) Q E Bl) →
  (∀ e w1, E1 e w1 → E e w1) →
  (∀ w1, B1 w1 → Bl w1) →
  sat (bind c k w) Q E Bl.
Proof.
  unfold bind. destruct (c w); simpl; eauto. 
Qed.

Lemma sat_mono (o : Outcome A) Q1 E1 B1 (Q : A → World → Prop) E Bl :
  sat o Q1 E1 B1 →
  (∀ a w1, Q1 a w1 → Q a w1) →
  (∀ e w1, E1 e w1 → E e w1) →
  (∀ w1, B1 w1 → Bl w1) →
  sat o Q E Bl.
Proof. destruct o; simpl; eauto. Qed.
End monad.

(** ** Asynchronous events *)

Section async.
Implicit Types (w : World) (k : Worker) (p : Z) (tr : list Action).

Lemma worker_evolves_refl p k : attached p k → worker_evolves p [] k k.
Proof.
  intros Hat. split; try done.
  split; [by left|]. intros [?|H]; [done|]. by apply elem_of_nil in H.
Qed.

Lemma worker_evolves_trans p tr1 tr2 k k1 k2 :
  worker_evolves p tr1 k k1 → worker_evolves p tr2 k1 k2 →
  worker_evolves p (tr1 ++ tr2) k k2.
Proof.
  intros [] []. split; try congruence; try tauto.
  - auto.
  - rewrite elem_of_app. tauto.
Qed.

Lemma during_refl p w : during p [] w w.
Proof.
  split; try done.
  - by rewrite app_nil_r.
  - intros k Hk Hat. exists k. split; [done|]. by apply worker_evolves_refl.
Qed.

Lemma during_trans p tr1 tr2 w w1 w2 :
  during p tr1 w w1 → during p tr2 w1 w2 → during p (tr1 ++ tr2) w w2.
Proof.
  intros [] []. split; try congruence; try tauto.
  - rewrite d_trace1, d_trace0. by rewrite app_assoc.
  - by apply Forall_app.
  - lia.
  - intros k Hk Hat.
    destruct (d_worker0 k Hk Hat) as (k1 & Hk1 & He1).
    destruct (d_worker1 k1 Hk1 (we_attached _ _ _ _ He1)) as (k2 & Hk2 & He2).
    exists k2. split; [done|]. by eapply worker_evolves_trans.
Qed.

Lemma slot_ok_during p tr w w' : slot_ok p w → during p tr w w' → slot_ok p w'.
Proof.
  intros Hs Hd k' Hk'. destruct (worker w) as [k|] eqn:Hk.
  - destruct (d_worker _ _ _ _ Hd k Hk (Hs k Hk)) as (k1 & Hk1 & He).
    rewrite Hk1 in Hk'. injection Hk' as <-. by destruct He.
  - by rewrite (d_no_worker _ _ _ _ Hd Hk) in Hk'.
Qed.
End async.

Section deliver.
Implicit Types (w : World) (k : Worker) (p : Z) (tr : list Action)
  (lines : list string).

Lemma child_does_spec p f w :
  slot_ok p w →
  (∀ k, process k = Some (mkProcess p Running) →
        worker_evolves p [] k (f k)) →
  ∃ w', child_does f w = Ret tt w' ∧ during p [] w w' ∧
        script w' = script w ∧ clock w' = clock w.
Proof.
  intros Hs Hf. unfold child_does.
  destruct (worker w) as [k|] eqn:Hk;
    [|by exists w; split_and!; [|apply during_refl| |]].
  destruct (Hs k Hk) as [st Hp]. rewrite Hp.
  destruct st as [|c];
    [|by exists w; split_and!; [|apply during_refl| |]].
  eexists. split_and!; [done| |done|done].
  split; simpl; try done.
  - by rewrite app_nil_r.
  - by rewrite Hk.
  - intros k0 Hk0 _. rewrite Hk in Hk0. injection Hk0 as <-.
    exists (f k). split; [done|]. by apply Hf.
Qed.

Lemma no_terminate_nil p (b : bool) :
  b = true ↔ b = true ∨ Terminate p ∈ @nil Action.
Proof. rewrite elem_of_nil. tauto. Qed.

Lemma child_exits_evolves p code k :
  process k = Some (mkProcess p Running) →
  worker_evolves p [] k (child_exits code k).
Proof.
  intros Hp. unfold child_exits. split; simpl; try done.
  - destruct (pipe k); split; intros [? ?]; by eexists.
  - rewrite Hp. by eexists.
  - intros c. by rewrite Hp.
  - apply no_terminate_nil.
Qed.

Lemma child_triggers_reload_evolves p k :
  process k = Some (mkProcess p Running) →
  worker_evolves p [] k (child_triggers_reload k).
Proof.
  intros Hp. unfold child_triggers_reload. split; simpl; try done.
  - destruct (pipe k); split; intros [? ?]; by eexists.
  - by eexists.
  - apply no_terminate_nil.
Qed.

Lemma child_watches_evolves p path k :
  process k = Some (mkProcess p Running) →
  worker_evolves p [] k (child_watches path k).
Proof.
  intros Hp. unfold child_watches. split; simpl; try done.
  - by eexists.
  - apply no_terminate_nil.
Qed.

Lemma Forall_quiet_print p lines : Forall (quiet p) (Print <$> lines).
Proof.
  apply Forall_fmap, Forall_forall. intros l _. left. by exists l.
Qed.

Lemma not_terminate_print p lines : Terminate p ∉ Print <$> lines.
Proof. intros H. apply list_elem_of_fmap in H as (? & ? & _). done. Qed.

(** Printing changes the trace only. *)
Lemma print_lines_during p lines w :
  slot_ok p w →
  during p (Print <$> lines) w
    (set_trace (trace w ++ (Print <$> lines)) w).
Proof.
  intros Hs. split; simpl; try done.
  - apply Forall_quiet_print.
  - intros k Hk Hat. exists k. split; [done|].
    split; try done. split; [by left|].
    intros [?|H]; [done|]. by apply not_terminate_print in H.
Qed.

Lemma Worker_terminate_spec p w k :
  worker w = Some k → attached p k →
  ∃ w', Worker_terminate w = Ret tt w' ∧ during p [Terminate p] w w' ∧
        script w' = script w ∧ monitor w' = monitor w ∧
        clock w' = clock w ∧
        ∃ k', worker w' = Some k' ∧ terminated k' = true ∧
              pipe k' = pipe k ∧ process k' = process k.
Proof.
  intros Hk [st Hp].
  unfold Worker_terminate, update_worker, the_process, the_worker, bind,
    modify, emit, ret.
  rewrite Hk. simpl. rewrite Hp. simpl.
  eexists. split_and!; try done.
  - split; simpl; try done.
    + constructor; [by right; right|constructor].
    + by rewrite Hk.
    + intros k0 Hk0 _. rewrite Hk in Hk0. injection Hk0 as <-.
      eexists. split; [done|]. split; simpl; try done.
      * by exists st.
      * split; [|done]. intros _. right. by left.
  - eexists. by split_and!.
Qed.

Lemma deliver_spec p e w :
  slot_ok p w →
  ∃ tr w', deliver e w = Ret tt w' ∧ during p tr w w' ∧
           script w' = script w ∧ clock w' = clock w.
Proof.
  intros Hs. destruct e as [paths|code| |path|]; simpl.
  - destruct (monitor w) as [m|] eqn:Hm.
    + eexists _, _. split; [done|]. split_and!; [|done|done].
      split; simpl; try done.
      * apply Forall_quiet_print.
      * intros k Hk Hat. exists k. split; [done|].
        split; try done. split; [by left|].
        intros [?|H]; [done|]. by apply not_terminate_print in H.
    + exists [], w. split_and!; try done. apply during_refl.
  - destruct (child_does_spec p (child_exits code) w Hs)
      as (w' & -> & ? & ? & ?); [by intros; apply child_exits_evolves|].
    exists [], w'. by split_and!.
  - destruct (child_does_spec p child_triggers_reload w Hs)
      as (w' & -> & ? & ? & ?); [by intros; apply child_triggers_reload_evolves|].
    exists [], w'. by split_and!.
  - destruct (child_does_spec p (child_watches path) w Hs)
      as (w' & -> & ? & ? & ?); [by intros; apply child_watches_evolves|].
    exists [], w'. by split_and!.
  - unfold bind, gets. destruct (sighup_handler w);
      [|by exists [], w; split_and!; [|apply during_refl| |]].
    unfold _signal_sighup, bind, gets.
    destruct (worker w) as [k|] eqn:Hk;
      [|by exists [], w; split_and!; [|apply during_refl| |]].
    unfold Reloader_out, bind, gets, print_lines, modify.
    set (lines := out _ _).
    pose proof (print_lines_during p lines w Hs) as Hd1.
    set (w1 := set_trace _ w) in *.
    destruct (Worker_terminate_spec p w1 k) as (w2 & -> & Hd2 & ? & ? & ? & _);
      [done|by apply Hs|].
    eexists _, w2. split; [done|]. split_and!; [|done|done].
    by eapply during_trans.
Qed.

Lemma deliver_all_spec p es w :
  slot_ok p w →
  ∃ tr w', deliver_all es w = Ret tt w' ∧ during p tr w w' ∧
           script w' = script w ∧ clock w' = clock w.
Proof.
  revert w. induction es as [|e es IH]; intros w Hs; simpl.
  { exists [], w. split_and!; try done. apply during_refl. }
  destruct (deliver_spec p e w Hs) as (tr1 & w1 & He & Hd1 & Hs1 & Hc1).
  destruct (IH w1) as (tr2 & w2 & Hes & Hd2 & Hs2 & Hc2);
    [by eapply slot_ok_during|].
  exists (tr1 ++ tr2), w2. rewrite (bind_Ret _ _ _ _ _ He).
  split_and!; [done| |congruence|congruence].
  by eapply during_trans.
Qed.

(** A blocking call: either the script is over, or one tick passes. *)
Lemma block_for_spec timeout p w :
  slot_ok p w →
  sat (block_for timeout w)
    (λ _ w', ∃ tr, during p tr w w' ∧
                   (length (script w') < length (script w))%nat)
    (λ e w', e = KeyboardInterrupt ∧ ∃ tr, during p tr w w' ∧
                   (length (script w') < length (script w))%nat)
    (λ w', w' = w ∧ script w = []).
Proof.
  intros Hs. unfold block_for. destruct (script w) as [|t rest] eqn:Hsc.
  { done. }
  set (w0 := set_clock _ _).
  assert (during p [] w w0) as Hd0.
  { split; simpl; try done.
    - by rewrite app_nil_r.
    - rewrite Hsc. simpl. lia.
    - intros k Hk Hat. exists k. split; [done|].
      by apply worker_evolves_refl. }
  destruct (deliver_all_spec p (tick_events t) w0) as
    (tr & w1 & He & Hd1 & Hs1 & Hc1); [by eapply slot_ok_during|].
  rewrite (bind_Ret _ _ _ _ _ He).
  assert (during p tr w w1) as Hd by apply (during_trans _ _ _ _ _ _ Hd0 Hd1).
  assert (length (script w1) < length (script w))%nat as Hlt.
  { rewrite Hs1, Hsc. simpl. lia. }
  destruct (tick_interrupt t); unfold raise, ret; simpl.
  - split; [done|]. exists tr. split; [done|]. rewrite Hs1. simpl. lia.
  - exists tr. split; [done|]. rewrite Hs1. simpl. lia.
Qed.

Lemma block_spec p w :
  slot_ok p w →
  sat (block w)
    (λ _ w', ∃ tr, during p tr w w' ∧
                   (length (script w') < length (script w))%nat)
    (λ e w', e = KeyboardInterrupt ∧ ∃ tr, during p tr w w' ∧
                   (length (script w') < length (script w))%nat)
    (λ w', w' = w ∧ script w = []).
Proof. apply block_for_spec. Qed.
End deliver.

Section join.
Implicit Types (w : World) (k : Worker) (p : Z) (tr : list Action).

Lemma during_same_config p tr w w' : during p tr w w' → same_config w w'.
Proof. intros []. by split. Qed.

Lemma same_config_trans w w1 w2 :
  same_config w w1 → same_config w1 w2 → same_config w w2.
Proof. intros [] []. split; congruence. Qed.

Lemma the_worker_eq w k : worker w = Some k → the_worker w = Ret k w.
Proof. unfold the_worker. by intros ->. Qed.

Lemma the_process_eq w k pr :
  worker w = Some k → process k = Some pr → the_process w = Ret pr w.
Proof.
  intros Hk Hp. unfold the_process.
  rewrite (bind_Ret _ _ _ _ _ (the_worker_eq _ _ Hk)). by rewrite Hp.
Qed.

Lemma update_worker_eq f w k :
  worker w = Some k →
  update_worker f w = Ret tt (set_worker (Some (f k)) w).
Proof.
  intros Hk. unfold update_worker.
  by rewrite (bind_Ret _ _ _ _ _ (the_worker_eq _ _ Hk)).
Qed.

(** [self.process.join()] without a timeout returns only once the child
    has ended. *)
Lemma Process_join_loop_spec p n w :
  slot_ok p w → is_Some (worker w) →
  (length (script w) < n)%nat →
  sat (Process_join_loop n None w)
    (λ _ w', ∃ tr, during p tr w w' ∧
       ∃ k' c, worker w' = Some k' ∧
               process k' = Some (mkProcess p (Exited c)))
    (λ e w', e = KeyboardInterrupt ∧ ∃ tr, during p tr w w')
    (λ w', script w' = [] ∧ ∃ tr, during p tr w w').
Proof.
  revert w. induction n as [|n IH]; intros w Hs [k Hk] Hlen; [lia|].
  destruct (Hs k Hk) as [st Hp]. simpl.
  rewrite (bind_Ret _ _ _ _ _ (the_process_eq _ _ _ Hk Hp)). simpl.
  destruct st as [|c].
  - unfold time_time at 1. unfold gets at 1. unfold bind at 1.
    eapply sat_bind; [apply (block_spec p); done|..].
    + intros _ w1 (tr1 & Hd1 & Hlt1). unfold time_time, gets, bind at 1.
      destruct (d_worker _ _ _ _ Hd1 k Hk) as (k1 & Hk1 & _); [by eexists|].
      eapply sat_mono; [apply IH|..].
      * by eapply slot_ok_during.
      * by eexists.
      * lia.
      * intros _ w2 (tr2 & Hd2 & Hex). exists (tr1 ++ tr2).
        split; [by eapply during_trans|done].
      * intros e w2 (-> & tr2 & Hd2). split; [done|].
        exists (tr1 ++ tr2). by eapply during_trans.
      * intros w2 (Hnil & tr2 & Hd2). split; [done|].
        exists (tr1 ++ tr2). by eapply during_trans.
    + intros e w1 (-> & tr1 & Hd1 & _). split; [done|]. by exists tr1.
    + intros w1 [-> Hnil]. split; [done|]. exists []. apply during_refl.
  - unfold ret. simpl. exists []. split; [apply during_refl|].
    by exists k, c.
Qed.

(** Closing the duplicated descriptor: whether or not [os.close] fails,
    [stdin_fd] ends up [None]. *)
Lemma release_stdin_spec fd w k :
  worker w = Some k →
  ∃ w', try_finally (try_except any_exception (os_close fd) (ret tt))
          (update_worker (set_stdin_fd None)) w = Ret tt w' ∧
        worker w' = Some (set_stdin_fd None k) ∧
        trace w' = trace w ∧ same_config w w' ∧
        next_pid w' = next_pid w ∧ script w' = script w ∧
        monitor w' = monitor w ∧
        open_fds w' = open_fds w ∖ {[ fd ]}.
Proof.
  intros Hk.
  unfold try_finally, try_except, os_close, bind, gets, modify, raise,
    any_exception, ret.
  destruct (decide (fd ∈ open_fds w)); simpl;
    rewrite (update_worker_eq _ _ k) by done;
    eexists; (split; [done|]); split_and!; try done; simpl.
  set_solver.
Qed.

(** [Worker.join] on a started worker. *)
Lemma Worker_join_spec p timeout w :
  slot_ok p w → is_Some (worker w) →
  sat (Worker_join timeout w)
    (λ _ w', ∃ tr c, joined p c tr w w')
    (λ e w', e = KeyboardInterrupt ∧ ∃ tr, during p tr w w')
    (λ w', script w' = [] ∧ ∃ tr, during p tr w w').
Proof.
  intros Hs Hw. unfold Worker_join, Process_join, with_fuel.
  eapply sat_bind; [apply (Process_join_loop_spec p); [done|done|lia]|..];
    [|done|done].
  intros _ w1 (tr & Hd & k1 & c & Hk1 & Hp1).
  destruct Hw as [k Hk].
  destruct (d_worker _ _ _ _ Hd k Hk (Hs k Hk)) as (k1' & Hk1' & He).
  rewrite Hk1 in Hk1'. injection Hk1' as <-.
  rewrite (bind_Ret _ _ _ _ _ (the_process_eq _ _ _ Hk1 Hp1)). simpl.
  rewrite (bind_Ret _ _ _ _ _ (update_worker_eq _ _ _ Hk1)).
  unfold emit, modify, bind at 1. unfold the_worker at 1, bind at 1. simpl.
  assert (∀ w2 k2,
    worker w2 = Some k2 →
    k2 = set_stdin_fd None (set_exitcode (Some c) k1) ∨
    (k2 = set_exitcode (Some c) k1 ∧ stdin_fd k1 = None) →
    trace w2 = trace w1 ++ [Joined p c] →
    same_config w1 w2 → next_pid w2 = next_pid w1 →
    script w2 = script w1 → monitor w2 = monitor w1 →
    open_fds w2 = open_fds w1 ∖ held_fd k1 →
    sat ((let* k := the_worker in
          match pipe k with
          | Some _ => update_worker (set_pipe None)
          | None => ret ()
          end) w2)
      (λ _ w', ∃ tr c, joined p c tr w w')
      (λ e w', e = KeyboardInterrupt ∧ ∃ tr, during p tr w w')
      (λ w', script w' = [] ∧ ∃ tr, during p tr w w')) as Hfin.
  { intros w2 k2 Hk2 Hshape Htr Hcfg Hnp Hsc Hmon Hfds.
    rewrite (bind_Ret _ _ _ _ _ (the_worker_eq _ _ Hk2)).
    assert (∀ k3, k3 = k2 ∨ (k3 = set_pipe None k2) → pipe k3 = None →
                  ∀ w3, worker w3 = Some k3 → trace w3 = trace w2 →
                  same_config w2 w3 → next_pid w3 = next_pid w2 →
                  script w3 = script w2 → monitor w3 = monitor w2 →
                  open_fds w3 = open_fds w2 →
                  ∃ tr c, joined p c tr w w3) as Hend.
    { intros k3 Hk3 Hpipe w3 Hw3 Htr3 Hcfg3 Hnp3 Hsc3 Hmon3 Hfds3.
      exists tr, c. destruct Hd, He. split.
      - rewrite Htr3, Htr, d_trace0. by rewrite <-app_assoc.
      - done.
      - apply (same_config_trans _ w1); [by split|].
        by apply (same_config_trans _ w2).
      - congruence.
      - intros k0 Hk0. rewrite Hk in Hk0. injection Hk0 as <-.
        rewrite Hfds3, Hfds, d_fds0. unfold held_fd. by rewrite we_stdin0.
      - rewrite Hsc3, Hsc. done.
      - rewrite Hmon3, Hmon. done.
      - intros k0 Hk0 _. rewrite Hk in Hk0. injection Hk0 as <-.
        exists k3. split; [done|].
        destruct Hk3 as [->| ->], Hshape as [->|[-> Hnone]]; simpl in *;
          (split; [split; done|done]). }
    destruct (pipe k2) eqn:Hpipe.
    - rewrite (update_worker_eq _ _ _ Hk2). simpl.
      eapply (Hend (set_pipe None k2)); try done; by right.
    - unfold ret. simpl. eapply (Hend k2); try done; by left. }
  destruct (stdin_fd k1) as [fd|] eqn:Hfd.
  - match goal with |- context [try_finally ?b ?f] =>
      destruct (release_stdin_spec fd
        (set_trace (trace w1 ++ [Joined p c])
           (set_worker (Some (set_exitcode (Some c) k1)) w1))
        (set_exitcode (Some c) k1) eq_refl)
        as (w2 & Hrel & Hk2 & Htr2 & Hcfg2 & Hnp2 & Hsc2 & Hmon2 & Hfds2) end.
    rewrite (bind_Ret _ _ _ _ _ Hrel).
    eapply Hfin;
      [exact Hk2|by left|done|by destruct Hcfg2; split|done|done|done|].
    rewrite Hfds2. unfold held_fd. by rewrite Hfd.
  - unfold ret, bind at 1.
    eapply Hfin; simpl; try done; [right; by split|].
    unfold held_fd. rewrite Hfd. set_solver.
Qed.
End join.

Section monitor_loop.
Implicit Types (w : World) (k : Worker) (p : Z) (tr : list Action).

Lemma the_monitor_eq w m : monitor w = Some m → the_monitor w = Ret m w.
Proof. unfold the_monitor. by intros ->. Qed.

Lemma update_monitor_eq f w m :
  monitor w = Some m →
  update_monitor f w = Ret tt (set_monitor (Some (f m)) w).
Proof.
  intros Hm. unfold update_monitor.
  by rewrite (bind_Ret _ _ _ _ _ (the_monitor_eq _ _ Hm)).
Qed.

Lemma during_set_worker p w k k' :
  worker w = Some k → worker_evolves p [] k k' →
  during p [] w (set_worker (Some k') w).
Proof.
  intros Hk He. split; simpl; try done.
  - by rewrite app_nil_r.
  - by rewrite Hk.
  - intros k0 Hk0 _. rewrite Hk in Hk0. injection Hk0 as <-. by exists k'.
Qed.

Lemma during_set_monitor p w m :
  is_Some (monitor w) → during p [] w (set_monitor (Some m) w).
Proof.
  intros Hm. split; simpl; try done.
  - by rewrite app_nil_r.
  - intros k Hk Hat. exists k. split; [done|]. by apply worker_evolves_refl.
Qed.

Lemma set_files_queue_evolves p q k :
  attached p k → worker_evolves p [] k (set_files_queue q k).
Proof.
  intros Hat. split; simpl; try done. apply no_terminate_nil.
Qed.

Lemma Worker_is_alive_eq w k pr :
  worker w = Some k → process k = Some pr →
  Worker_is_alive w
  = Ret (match proc_state pr with Running => true | Exited _ => false end) w.
Proof.
  intros Hk Hp. unfold Worker_is_alive.
  rewrite (bind_Ret _ _ _ _ _ (the_worker_eq _ _ Hk)), Hp.
  by destruct (proc_state pr).
Qed.

Lemma pipe_poll_eq w k c :
  worker w = Some k → pipe k = Some c →
  try_except is_EOFError pipe_poll (ret false) w
  = Ret (bool_decide (0 < conn_pending c)%nat || conn_eof c) w.
Proof.
  intros Hk Hc. unfold try_except, pipe_poll.
  by rewrite (bind_Ret _ _ _ _ _ (the_worker_eq _ _ Hk)), Hc.
Qed.

(** [files_queue.get(timeout=...)] *)
Lemma files_queue_get_spec p timeout w :
  slot_ok p w → is_Some (worker w) →
  sat (files_queue_get timeout w)
    (λ _ w', ∃ tr, during p tr w w' ∧
                   (length (script w') < length (script w))%nat)
    (λ e w', e = KeyboardInterrupt ∧ ∃ tr, during p tr w w')
    (λ w', script w' = [] ∧ ∃ tr, during p tr w w').
Proof.
  intros Hs [k Hk]. unfold files_queue_get, emit, modify, bind at 1.
  set (w0 := set_trace _ w).
  assert (during p [QueueGet] w w0) as Hd0.
  { split; simpl; try done.
    - constructor; [right; by left|constructor].
    - intros k0 Hk0 Hat. exists k0. split; [done|]. split; try done.
      split; [by left|]. intros [?|H]; [done|].
      by apply list_elem_of_singleton in H. }
  assert (slot_ok p w0) as Hs0 by by eapply slot_ok_during.
  assert (worker w0 = Some k) as Hk0 by done.
  assert (∀ tr w1, during p tr w0 w1 → during p ([QueueGet] ++ tr) w w1)
    as Hpre by (intros; by eapply during_trans).
  assert (length (script w0) = length (script w)) as Hlen0 by done.
  clearbody w0. rewrite <-Hlen0.
  eapply sat_bind; [by apply (block_for_spec _ p)|..].
  - intros _ w1 (tr & Hd & Hlt).
    destruct (d_worker _ _ _ _ Hd k Hk0 (Hs0 k Hk0)) as (k1 & Hk1 & He).
    rewrite (bind_Ret _ _ _ _ _ (the_worker_eq _ _ Hk1)).
    destruct (files_queue k1) as [|path q]; simpl.
    + eexists. split; [by apply Hpre|done].
    + rewrite (bind_Ret _ _ _ _ _ (update_worker_eq _ _ _ Hk1)). simpl.
      eexists. split; [|done]. apply Hpre.
      eapply during_trans; [done|].
      apply (during_set_worker _ _ k1); [done|].
      apply set_files_queue_evolves. by destruct He.
  - intros e w1 (-> & tr & Hd & _). split; [done|]. eexists. by apply Hpre.
  - intros w1 [-> Hnil]. split; [done|]. eexists. apply Hpre, during_refl.
Qed.

(** The [while] loop of [_run_worker]: it returns, is interrupted, or is
    still polling when the script ends.  When nothing asks it to end at
    its start, it takes at least one tick. *)
Lemma monitor_loop_spec p n w :
  slot_ok p w →
  (∃ k, worker w = Some k ∧ is_Some (pipe k)) →
  is_Some (monitor w) →
  (length (script w) < n)%nat →
  sat (monitor_loop n w)
    (λ _ w', ∃ tr, during p tr w w' ∧
                   (loop_continues w →
                    (length (script w') < length (script w))%nat))
    (λ e w', e = KeyboardInterrupt ∧ ∃ tr, during p tr w w')
    (λ w', script w' = [] ∧ ∃ tr, during p tr w w').
Proof.
  revert w. induction n as [|n IH]; intros w Hs (k & Hk & Hpipe) Hmon Hlen;
    [lia|].
  destruct Hmon as [m Hm]. destruct (Hs k Hk) as [st Hp].
  destruct Hpipe as [c Hc]. simpl.
  rewrite (bind_Ret _ _ _ _ _ (the_monitor_eq _ _ Hm)).
  destruct (is_changed m) eqn:Hch.
  { exists []. split; [apply during_refl|].
    intros (m' & k' & p' & Hm' & Hch' & _). unfold is_changed in Hch.
    congruence. }
  rewrite (bind_Ret _ _ _ _ _ (Worker_is_alive_eq _ _ _ Hk Hp)). simpl.
  destruct st as [|code]; simpl.
  2:{ exists []. split; [apply during_refl|].
      intros (m' & k' & p' & _ & _ & Hk' & Hp' & _). congruence. }
  rewrite (bind_Ret _ _ _ _ _ (pipe_poll_eq _ _ _ Hk Hc)).
  destruct (_ || _) eqn:Hpoll.
  { exists []. split; [apply during_refl|].
    intros (m' & k' & p' & _ & _ & Hk' & _ & Hc').
    rewrite Hk in Hk'. injection Hk' as <-. rewrite Hc in Hc'.
    injection Hc' as ->. done. }
  unfold gets at 1, bind at 1.
  eapply sat_bind; [apply (files_queue_get_spec p); [done|by eexists]|..];
    [|done|done].
  intros got w1 (tr1 & Hd1 & Hlt1).
  assert (∀ w2, during p [] w1 w2 →
    sat (monitor_loop n w2)
      (λ _ w', ∃ tr, during p tr w w' ∧
                   (loop_continues w →
                    (length (script w') < length (script w))%nat))
      (λ e w', e = KeyboardInterrupt ∧ ∃ tr, during p tr w w')
      (λ w', script w' = [] ∧ ∃ tr, during p tr w w')) as Hnext.
  { intros w2 Hd2.
    assert (during p (tr1 ++ []) w w2) as Hd by by eapply during_trans.
    destruct (d_worker _ _ _ _ Hd k Hk (Hs k Hk)) as (k2 & Hk2 & He).
    pose proof (d_script _ _ _ _ Hd2) as Hle2.
    eapply sat_mono; [apply IH|..].
    - by eapply slot_ok_during.
    - exists k2. split; [done|]. apply (we_pipe _ _ _ _ He). by eexists.
    - apply (d_monitor _ _ _ _ Hd). by eexists.
    - lia.
    - intros _ w3 (tr3 & Hd3 & _). eexists.
      split; [by eapply during_trans|]. intros _.
      pose proof (d_script _ _ _ _ Hd3). lia.
    - intros e w3 (-> & tr3 & Hd3). split; [done|].
      eexists. by eapply during_trans.
    - intros w3 (Hnil & tr3 & Hd3). split; [done|].
      eexists. by eapply during_trans. }
  destruct got as [path|].
  - assert (is_Some (monitor w1)) as [m1 Hm1]
      by (apply (d_monitor _ _ _ _ Hd1); by eexists).
    rewrite (bind_Ret _ _ _ _ _ (update_monitor_eq _ _ _ Hm1)).
    apply Hnext. apply during_set_monitor. by eexists.
  - unfold ret at 1, bind at 1. apply Hnext, during_refl.
Qed.
End monitor_loop.

Section traces.
Implicit Types (p : Z) (tr : list Action) (lines : list string).

Lemma lifecycle_app tr1 tr2 :
  lifecycle (tr1 ++ tr2) = lifecycle tr1 ++ lifecycle tr2.
Proof. apply List.filter_app. Qed.

Lemma lifecycle_idle tr :
  Forall (λ a, is_lifecycle a = false) tr → lifecycle tr = [].
Proof.
  induction 1 as [|a tr Ha _ IH]; [done|].
  unfold lifecycle in *. simpl. by rewrite Ha.
Qed.

Lemma quiet_not_lifecycle p a : quiet p a → is_lifecycle a = false.
Proof. by intros [[? ->]|[->| ->]]. Qed.

Lemma lifecycle_quiet p tr : Forall (quiet p) tr → lifecycle tr = [].
Proof.
  intros H. apply lifecycle_idle. eapply Forall_impl; [done|].
  intros a. apply quiet_not_lifecycle.
Qed.

Lemma lifecycle_print lines : lifecycle (Print <$> lines) = [].
Proof. apply (lifecycle_quiet 0), Forall_quiet_print. Qed.

Lemma lifecycle_keep a tr :
  is_lifecycle a = true → lifecycle (a :: tr) = a :: lifecycle tr.
Proof. intros Ha. unfold lifecycle. simpl. by rewrite Ha. Qed.

Lemma lifecycle_skip a tr :
  is_lifecycle a = false → lifecycle (a :: tr) = lifecycle tr.
Proof. intros Ha. unfold lifecycle. simpl. by rewrite Ha. Qed.

Lemma lifecycle_cycle_trace p c tr :
  cycle_trace p c tr →
  lifecycle tr = [Spawn p; ClearChanges; Joined p c; ClearChanges].
Proof.
  intros (fd & tr0 & l1 & tr1 & l2 & -> & Hq0 & Hq1).
  rewrite lifecycle_keep, lifecycle_app, (lifecycle_quiet p tr0 Hq0) by done.
  rewrite lifecycle_skip, lifecycle_app, lifecycle_print by done.
  rewrite lifecycle_keep, lifecycle_app, (lifecycle_quiet p tr1 Hq1) by done.
  by rewrite lifecycle_keep, lifecycle_app, lifecycle_print by done.
Qed.

Lemma terminate_in_print p lines : Terminate p ∈ Print <$> lines ↔ False.
Proof. split; [apply not_terminate_print|done]. Qed.

Lemma lowest_free_fresh (s : gset Z) : lowest_free s ∉ s.
Proof.
  unfold lowest_free.
  destruct (List.find _ _) as [n|] eqn:Hfind; simpl.
  - apply List.find_some in Hfind as [_ Hn].
    by apply bool_decide_eq_true in Hn.
  - exfalso.
    assert (list_to_set (seqZ 0 (Z.of_nat (S (size s)))) ⊆ s) as Hsub.
    { intros n Hn. apply elem_of_list_to_set in Hn.
      apply list_elem_of_In in Hn.
      pose proof (List.find_none _ _ Hfind n Hn) as Hb. simpl in Hb.
      apply bool_decide_eq_false in Hb. by apply dec_stable in Hb. }
    apply subseteq_size in Hsub.
    rewrite size_list_to_set in Hsub by apply NoDup_seqZ.
    rewrite length_seqZ in Hsub. lia.
Qed.
End traces.

Section cycle.
Implicit Types (w : World) (k : Worker) (p : Z) (tr : list Action)
  (lines : list string).

Lemma bind_eq {A B} (c c' : M A) (k : A → M B) w w0 :
  c w = c' w0 → bind c k w = bind c' k w0.
Proof. unfold bind. by intros ->. Qed.

Lemma os_dup_eq fd w :
  fd ∈ open_fds w →
  os_dup fd w
  = Ret (lowest_free (open_fds w))
        (set_open_fds (open_fds w ∪ {[ lowest_free (open_fds w) ]}) w).
Proof.
  intros Hfd. unfold os_dup, bind, gets. by rewrite decide_True.
Qed.

Lemma Process_start_eq w k :
  worker w = Some k →
  Process_start w
  = block (set_trace (trace w ++ [Spawn (next_pid w)])
             (set_worker
                (Some (set_process (Some (mkProcess (next_pid w) Running)) k))
                (set_next_pid (next_pid w + 1) w))).
Proof.
  intros Hk.
  unfold Process_start, bind, gets, modify, update_worker, the_worker, emit,
    modify, bind.
  simpl. by rewrite Hk.
Qed.

(** [os.dup(0)] fails when descriptor 0 is closed, and so does
    [Worker.start], before any process is started. *)
Lemma Worker_start_closed w :
  0 ∉ open_fds w → Worker_start w = Raise OSError w.
Proof.
  intros H. unfold Worker_start, os_dup, bind, gets. by rewrite decide_False.
Qed.

(** [Worker.start] on a fresh [Worker], with descriptor 0 open. *)
Lemma Worker_start_spec w path :
  worker w = Some (Worker_init path) → 0 ∈ open_fds w →
  sat (Worker_start w)
    (λ _ w', ∃ k' fd tr0,
       worker w' = Some k' ∧ attached (next_pid w) k' ∧
       pid k' = Some (next_pid w) ∧ is_Some (pipe k') ∧
       stdin_fd k' = Some fd ∧
       (terminated k' = true ↔ Terminate (next_pid w) ∈ tr0) ∧
       (fd ∉ open_fds w) ∧ open_fds w' = open_fds w ∪ {[ fd ]} ∧
       trace w' = trace w ++ Spawn (next_pid w) :: tr0
                    ++ [SendFd fd (next_pid w)] ∧
       Forall (quiet (next_pid w)) tr0 ∧
       same_config w w' ∧ (is_Some (monitor w') ↔ is_Some (monitor w)) ∧
       (length (script w') < length (script w))%nat ∧
       next_pid w' = next_pid w + 1)
    (λ e w', e = KeyboardInterrupt ∧ ∃ tr0,
       trace w' = trace w ++ Spawn (next_pid w) :: tr0 ∧
       Forall (quiet (next_pid w)) tr0)
    (λ w', script w' = [] ∧ trace w' = trace w ++ [Spawn (next_pid w)]).
Proof.
  intros Hk H0. set (p := next_pid w). unfold Worker_start.
  rewrite (bind_Ret _ _ _ _ _ (os_dup_eq 0 w H0)).
  set (fd := lowest_free (open_fds w)).
  assert (fd ∉ open_fds w) as Hfresh by apply lowest_free_fresh.
  set (w1 := set_open_fds _ w).
  rewrite (bind_Ret _ _ _ _ _ (update_worker_eq _ w1 _ Hk)).
  set (k1 := set_stdin_fd (Some fd) (Worker_init path)).
  set (w2 := set_worker (Some k1) w1).
  rewrite (bind_eq _ _ _ _ _ (Process_start_eq w2 k1 eq_refl)).
  set (k2 := set_process _ k1). set (w3 := set_trace _ _).
  assert (slot_ok p w3) as Hs3.
  { intros k Hk3. injection Hk3 as <-. by exists Running. }
  eapply sat_bind; [apply (block_spec p w3 Hs3)|..].
  - intros _ w4 (tr0 & Hd & Hlt).
    destruct (d_worker _ _ _ _ Hd k2 eq_refl (Hs3 k2 eq_refl))
      as (k4 & Hk4 & He).
    destruct (we_attached _ _ _ _ He) as [st Hp4].
    rewrite (bind_Ret _ _ _ _ _ (the_process_eq _ _ _ Hk4 Hp4)).
    rewrite (bind_Ret _ _ _ _ _ (update_worker_eq _ _ _ Hk4)).
    unfold the_worker at 1, bind at 1. simpl.
    rewrite (we_stdin _ _ _ _ He). simpl.
    exists (set_pid (Some p) k4), fd, tr0. destruct Hd, He.
    split_and!; try done.
    + simpl. apply we_pipe0. by eexists.
    + simpl. rewrite we_terminated0. simpl. split; [|tauto].
      by intros [?|?].
    + rewrite d_trace0. simpl. by rewrite <-!app_assoc.
  - intros e w4 (-> & tr0 & Hd & _). split; [done|]. exists tr0.
    destruct Hd. split; [|done]. rewrite d_trace0. simpl.
    by rewrite <-app_assoc.
  - intros w4 [-> Hnil]. done.
Qed.

Lemma Reloader_out_eq msg w :
  Reloader_out msg w
  = Ret tt (set_trace
              (trace w ++ (Print <$> out (reloader_verbose w) msg)) w).
Proof. done. Qed.

(** The [finally] block of [_run_worker]: a worker that still runs is
    terminated and joined, one that has ended is joined and reported. *)
Lemma reap_worker_spec p w k :
  slot_ok p w → worker w = Some k →
  sat (reap_worker w)
    (λ _ w', ∃ tr1 c l2,
       trace w' = trace w ++ tr1 ++ Joined p c :: (Print <$> l2) ∧
       Forall (quiet p) tr1 ∧
       same_config w w' ∧ next_pid w' = next_pid w ∧
       open_fds w' = open_fds w ∖ held_fd k ∧
       (length (script w') ≤ length (script w))%nat ∧
       (is_Some (monitor w') ↔ is_Some (monitor w)) ∧
       ∃ k', worker w' = Some k' ∧ released p c k' ∧ pid k' = pid k ∧
             (terminated k' = true ↔
              terminated k = true ∨ Terminate p ∈ tr1) ∧
             (worker_alive k → Terminate p ∈ tr1))
    (λ e w', e = KeyboardInterrupt ∧
             ∃ tr1, trace w' = trace w ++ tr1 ∧ Forall (quiet p) tr1)
    (λ w', script w' = [] ∧
           ∃ tr1, trace w' = trace w ++ tr1 ∧ Forall (quiet p) tr1).
Proof.
  intros Hs Hk. destruct (Hs k Hk) as [st Hp]. unfold reap_worker.
  rewrite (bind_Ret _ _ _ _ _ (Worker_is_alive_eq _ _ _ Hk Hp)). simpl.
  destruct st as [|code].
  - rewrite (bind_Ret _ _ _ _ _ (the_worker_eq _ _ Hk)).
    rewrite (bind_Ret _ _ _ _ _ (Reloader_out_eq _ _)).
    set (lines := out _ _).
    pose proof (print_lines_during p lines w Hs) as Hd1.
    set (w1 := set_trace _ w) in *.
    destruct (Worker_terminate_spec p w1 k) as
      (w2 & Hterm & Hd2 & _ & _ & _ & k2 & Hk2 & Ht2 & _ & Hp2);
      [done|by exists Running|].
    rewrite (bind_Ret _ _ _ _ _ Hterm).
    assert (during p ((Print <$> lines) ++ [Terminate p]) w w2) as Hd12
      by by eapply during_trans.
    assert (slot_ok p w2) as Hs2 by by eapply slot_ok_during.
    assert (∀ tr w3, during p tr w2 w3 →
              ∃ tr1, trace w3 = trace w ++ tr1 ∧ Forall (quiet p) tr1)
      as Hcut.
    { intros tr w3 Hd3.
      destruct (during_trans _ _ _ _ _ _ Hd12 Hd3). by eexists. }
    eapply sat_mono;
      [apply (Worker_join_spec p); [done|by eexists]|..];
      [|intros e w3 (-> & tr & Hd3); split; [done|by eapply Hcut]
       |intros w3 (-> & tr & Hd3); split; [done|by eapply Hcut]].
    intros _ w3 (trj & c & Hj). destruct Hj, Hd12.
    destruct (j_worker0 k2 Hk2 (Hs2 k2 Hk2)) as (k3 & Hk3 & Hrel & Hpid & Ht).
    destruct (d_worker0 k Hk (Hs k Hk)) as (k2' & Hk2' & He).
    rewrite Hk2 in Hk2'. injection Hk2' as <-.
    exists (((Print <$> lines) ++ [Terminate p]) ++ trj), c, [].
    split_and!.
    + rewrite j_trace0, d_trace0. by rewrite <-!app_assoc.
    + by apply Forall_app.
    + apply (same_config_trans _ w2); [by split|done].
    + congruence.
    + rewrite (j_fds0 k2 Hk2), d_fds0. unfold held_fd.
      by rewrite (we_stdin _ _ _ _ He).
    + lia.
    + tauto.
    + exists k3. split_and!; try done.
      * by rewrite Hpid, (we_pid _ _ _ _ He).
      * rewrite Ht, (we_terminated _ _ _ _ He), !elem_of_app. tauto.
      * intros _. rewrite !elem_of_app. left. right. by left.
  - eapply sat_bind;
      [apply (Worker_join_spec p); [done|by eexists]|..];
      [|intros e w3 (-> & tr & []); split; [done|by eexists]
       |intros w3 (-> & tr & []); split; [done|by eexists]].
    intros _ w1 (trj & c & Hj). destruct Hj.
    destruct (j_worker0 k Hk (Hs k Hk)) as (k1 & Hk1 & Hrel & Hpid & Ht).
    rewrite (bind_Ret _ _ _ _ _ (the_worker_eq _ _ Hk1)).
    rewrite (rl_exitcode _ _ _ Hrel), Reloader_out_eq. simpl.
    eexists trj, c, _. split_and!.
    + rewrite j_trace0. by rewrite <-!app_assoc.
    + done.
    + destruct j_config0. by split.
    + done.
    + by apply j_fds0.
    + done.
    + done.
    + exists k1. split_and!; try done.
      intros [p' Hrun]. congruence.
Qed.

Lemma sat_try_finally {A} (body : M A) fin w Q1 E1 B1 Q E Bl :
  sat (body w) Q1 E1 B1 →
  (∀ a w1, Q1 a w1 → sat (fin w1) (λ _ w2, Q a w2) E Bl) →
  (∀ e w1, E1 e w1 → sat (fin w1) (λ _ w2, E e w2) E Bl) →
  (∀ w1, B1 w1 → Bl w1) →
  sat (try_finally body fin w) Q E Bl.
Proof.
  unfold try_finally. intros Hb HQ HE HB.
  destruct (body w) as [a w1|e w1|w1|]; simpl in *; [| |by auto|done].
  - specialize (HQ a w1 Hb). by destruct (fin w1).
  - specialize (HE e w1 Hb). by destruct (fin w1).
Qed.

Lemma monitor_clear_changes_eq w m :
  monitor w = Some m →
  monitor_clear_changes w
  = Ret tt (set_trace (trace w ++ [ClearChanges])
              (set_monitor (Some (clear_changes m)) w)).
Proof.
  intros Hm. unfold monitor_clear_changes.
  by rewrite (bind_Ret _ _ _ _ _ (update_monitor_eq _ _ _ Hm)).
Qed.

(** With descriptor 0 closed [_run_worker] fails in [Worker.start()]:
    nothing has been started and nothing done. *)
Lemma _run_worker_closed w :
  0 ∉ open_fds w →
  _run_worker w
  = Raise OSError
      (set_worker (Some (Worker_init (reloader_worker_path w))) w).
Proof.
  intros H. unfold _run_worker.
  unfold gets at 1, bind at 1. unfold modify at 1, bind at 1.
  unfold bind at 1. by rewrite Worker_start_closed.
Qed.

(** The [try] block of [_run_worker] once its first statements have
    run. *)
Lemma try_finally_head w w2 :
  (let* k := the_worker in
   modify (λ w, set_group (group w ++ [pid k]) w) >>
   Reloader_out ("Starting monitor for PID " +:+ str_of_pid (pid k) +:+ ".") >>
   monitor_clear_changes) w = Ret tt w2 →
  try_finally
    (let* k := the_worker in
     modify (λ w, set_group (group w ++ [pid k]) w) >>
     Reloader_out ("Starting monitor for PID " +:+ str_of_pid (pid k) +:+ ".") >>
     monitor_clear_changes >>
     with_fuel monitor_loop) reap_worker w
  = try_finally (with_fuel monitor_loop) reap_worker w2.
Proof.
  intros H. unfold try_finally.
  match goal with |- match ?b w with _ => _ end = _ =>
    assert (b w = with_fuel monitor_loop w2) as ->; [|done] end.
  revert H. unfold bind. destruct (the_worker w) as [k w1| | |]; try done.
  unfold modify. destruct (Reloader_out _ _) as [[] w3| | |]; try done.
  destruct (monitor_clear_changes w3) as [[] w4| | |]; try done.
  by intros [= ->].
Qed.

(** The state in which the [try] block of [_run_worker] is entered for
    the worker [p], and what the block does up to its loop. *)
Lemma cycle_head_spec p w k m :
  worker w = Some k → monitor w = Some m →
  ∃ w2 l1,
    (let* k := the_worker in
     modify (λ w, set_group (group w ++ [pid k]) w) >>
     Reloader_out ("Starting monitor for PID " +:+ str_of_pid (pid k) +:+ ".") >>
     monitor_clear_changes) w = Ret tt w2 ∧
    trace w2 = trace w ++ (Print <$> l1) ++ [ClearChanges] ∧
    same_config w w2 ∧ monitor w2 = Some (clear_changes m) ∧
    script w2 = script w ∧ next_pid w2 = next_pid w ∧ clock w2 = clock w ∧
    worker w2 = Some k ∧ open_fds w2 = open_fds w ∧
    group w2 = group w ++ [pid k].
Proof.
  intros Hk Hm.
  rewrite (bind_Ret _ _ _ _ _ (the_worker_eq _ _ Hk)).
  unfold modify at 1, bind at 1.
  rewrite (bind_Ret _ _ _ _ _ (Reloader_out_eq _ _)).
  match goal with |- context [monitor_clear_changes ?W] =>
    assert (monitor W = Some m) as HmW by done;
    rewrite (monitor_clear_changes_eq W m HmW)
  end.
  eexists _, _. split; [done|]. simpl. split_and!; try done.
  by rewrite <-app_assoc.
Qed.

(** [Reloader._run_worker], started with a monitor in place and
    descriptor 0 open. *)
Lemma _run_worker_spec w :
  is_Some (monitor w) → 0 ∈ open_fds w →
  sat (_run_worker w)
    (λ force w', cycle_done (next_pid w) force w w')
    (λ e w', e = KeyboardInterrupt ∧
             ∃ tr, trace w' = trace w ++ tr ∧ cycle_cut (next_pid w) tr)
    (λ w', script w' = [] ∧
           ∃ tr, trace w' = trace w ++ tr ∧ cycle_cut (next_pid w) tr).
Proof.
  intros [m Hm] H0. unfold _run_worker.
  unfold gets at 1, bind at 1. unfold modify at 1, bind at 1.
  set (p := next_pid w).
  set (w0 := set_worker _ w).
  eapply sat_bind;
    [apply (Worker_start_spec w0 (reloader_worker_path w) eq_refl H0)|..].
  2:{ intros e w1 (-> & tr0 & Htr & Hq). split; [done|].
      eexists. split; [done|]. left.
      by rewrite lifecycle_keep, (lifecycle_quiet p tr0 Hq). }
  2:{ intros w1 [Hnil Htr]. split; [done|]. eexists. split; [done|].
      by left. }
  intros _ w1 (k1 & fd & tr0 & Hk1 & Hat1 & Hpid1 & Hpipe1 & Hfd1 & Hterm1 &
               Hfresh & Hfds1 & Htr1 & Hq0 & Hcfg1 & Hmon1 & Hsc1 & Hnp1).
  change (next_pid w0) with p in *. change (trace w0) with (trace w) in *.
  change (monitor w0) with (monitor w) in *.
  change (script w0) with (script w) in *.
  change (open_fds w0) with (open_fds w) in *.
  assert (same_config w w1) as Hcfg by (destruct Hcfg1; by split).
  clear Hcfg1. clearbody w0.
  assert (is_Some (monitor w1)) as [m1 Hm1] by (apply Hmon1; by eexists).
  destruct (cycle_head_spec p w1 k1 m1 Hk1 Hm1)
    as (w2 & l1 & Hhead & Htr2 & Hcfg2 & Hm2 & Hsc2 & Hnp2 & _ & Hk2 &
        Hfds2 & _).
  assert (slot_ok p w2) as Hs2.
  { intros k Hk. rewrite Hk2 in Hk. by injection Hk as <-. }
  assert (lifecycle (Spawn p :: tr0 ++ [SendFd fd p] ++ (Print <$> l1)
                     ++ [ClearChanges]) = [Spawn p; ClearChanges]) as Hl2.
  { rewrite lifecycle_keep, lifecycle_app, (lifecycle_quiet p tr0 Hq0) by done.
    rewrite lifecycle_app, lifecycle_app, lifecycle_print. done. }
  assert (trace w2 = trace w ++ Spawn p :: tr0 ++ [SendFd fd p]
                       ++ (Print <$> l1) ++ [ClearChanges]) as Htr2'.
  { rewrite Htr2, Htr1. rewrite <-!app_assoc. simpl.
    by rewrite <-!app_assoc. }
  assert (∀ tr w3, during p tr w2 w3 →
            ∃ tr', trace w3 = trace w ++ tr' ∧
                   lifecycle tr' = [Spawn p; ClearChanges]) as Hcut.
  { intros tr w3 Hd. eexists. split.
    - rewrite (d_trace _ _ _ _ Hd), Htr2', <-app_assoc. reflexivity.
    - rewrite lifecycle_app, Hl2, (lifecycle_quiet p tr); [done|].
      by destruct Hd. }
  assert (∀ tr w3 tr1 w4,
            during p tr w2 w3 → trace w4 = trace w3 ++ tr1 →
            Forall (quiet p) tr1 →
            ∃ tr', trace w4 = trace w ++ tr' ∧
                   lifecycle tr' = [Spawn p; ClearChanges]) as Hcut'.
  { intros tr w3 tr1 w4 Hd Htr4 Hq1. eexists. split.
    - rewrite Htr4, (d_trace _ _ _ _ Hd), Htr2', <-!app_assoc. reflexivity.
    - rewrite lifecycle_app, Hl2, lifecycle_app, (lifecycle_quiet p tr),
        (lifecycle_quiet p tr1); [done|done|by destruct Hd]. }
  eapply sat_bind with
    (Q1 := λ _ w4, ∃ tr trr c l2 k4,
       trace w4 = trace w2 ++ tr ++ trr ++ Joined p c :: (Print <$> l2) ∧
       Forall (quiet p) tr ∧ Forall (quiet p) trr ∧ same_config w2 w4 ∧
       is_Some (monitor w4) ∧
       (length (script w4) ≤ length (script w2))%nat ∧
       next_pid w4 = next_pid w2 ∧
       worker w4 = Some k4 ∧
       (terminated k4 = true ↔
        terminated k1 = true ∨ Terminate p ∈ tr ++ trr) ∧
       open_fds w4 = open_fds w2 ∖ {[ fd ]})
    (E1 := λ e w', e = KeyboardInterrupt ∧
             ∃ tr, trace w' = trace w ++ tr ∧ cycle_cut p tr)
    (B1 := λ w', script w' = [] ∧
             ∃ tr, trace w' = trace w ++ tr ∧ cycle_cut p tr);
    [|..|done|done].
  - (* the try/finally *)
    rewrite (try_finally_head _ _ Hhead).
    eapply sat_try_finally with
      (Q1 := λ _ w3, ∃ tr, during p tr w2 w3)
      (E1 := λ e w3, e = KeyboardInterrupt ∧ ∃ tr, during p tr w2 w3)
      (B1 := λ w3, script w3 = [] ∧ ∃ tr, during p tr w2 w3).
    + unfold with_fuel.
      eapply sat_mono; [apply (monitor_loop_spec p)|..].
      * done.
      * exists k1. by split.
      * by eexists.
      * lia.
      * intros _ w3 (tr & Hd & _). by exists tr.
      * done.
      * done.
    + intros _ w3 (tr & Hd).
      destruct (d_worker _ _ _ _ Hd k1 Hk2 (Hs2 k1 Hk2)) as (k3 & Hk3 & He).
      eapply sat_mono;
        [apply (reap_worker_spec p w3 k3); [by eapply slot_ok_during|done]|..].
      * intros _ w4 (trr & c & l2 & Htr4 & Hq4 & Hcfg4 & Hnp4 & Hfds4 & Hsc4 &
                     Hmon4 & k4 & Hk4 & Hrel & Hpid4 & Ht4 & _).
        exists tr, trr, c, l2, k4. destruct Hd. split_and!.
        -- rewrite Htr4, d_trace0. by rewrite <-!app_assoc.
        -- done.
        -- done.
        -- apply (same_config_trans _ w3); [by split|done].
        -- apply Hmon4, d_monitor0. by eexists.
        -- lia.
        -- congruence.
        -- done.
        -- rewrite Ht4, (we_terminated _ _ _ _ He), elem_of_app. tauto.
        -- rewrite Hfds4, d_fds0. unfold held_fd.
           by rewrite (we_stdin _ _ _ _ He), Hfd1.
      * intros e w4 (-> & tr1 & Htr4 & Hq4). split; [done|].
        destruct (Hcut' _ _ _ _ Hd Htr4 Hq4) as (tr' & ? & ?).
        exists tr'. split; [done|]. right. by left.
      * intros w4 (Hnil & tr1 & Htr4 & Hq4). split; [done|].
        destruct (Hcut' _ _ _ _ Hd Htr4 Hq4) as (tr' & ? & ?).
        exists tr'. split; [done|]. right. by left.
    + intros e w3 (-> & tr & Hd).
      destruct (d_worker _ _ _ _ Hd k1 Hk2 (Hs2 k1 Hk2)) as (k3 & Hk3 & He).
      eapply sat_mono;
        [apply (reap_worker_spec p w3 k3); [by eapply slot_ok_during|done]|..].
      * intros _ w4 (trr & c & l2 & Htr4 & Hq4 & _). split; [done|].
        eexists. split.
        -- rewrite Htr4, (d_trace _ _ _ _ Hd), Htr2', <-!app_assoc.
           reflexivity.
        -- right. right. exists c.
           rewrite lifecycle_app, Hl2, lifecycle_app,
             (lifecycle_quiet p tr) by (by destruct Hd).
           rewrite lifecycle_app, (lifecycle_quiet p trr Hq4).
           by rewrite lifecycle_keep, lifecycle_print.
      * intros e w4 (-> & tr1 & Htr4 & Hq4). split; [done|].
        destruct (Hcut' _ _ _ _ Hd Htr4 Hq4) as (tr' & ? & ?).
        exists tr'. split; [done|]. right. by left.
      * intros w4 (Hnil & tr1 & Htr4 & Hq4). split; [done|].
        destruct (Hcut' _ _ _ _ Hd Htr4 Hq4) as (tr' & ? & ?).
        exists tr'. split; [done|]. right. by left.
    + intros w3 (Hnil & tr & Hd). split; [done|].
      destruct (Hcut _ _ Hd) as (tr' & ? & ?).
      exists tr'. split; [done|]. right. by left.
  - (* after the cycle *)
    intros _ w4 (tr & trr & c & l2 & k4 & Htr4 & Hq & Hqr & Hcfg4 & [m4 Hm4] &
                 Hlen4 & Hnp4 & Hk4 & Ht4 & Hfds4).
    rewrite (bind_Ret _ _ _ _ _ (monitor_clear_changes_eq _ _ Hm4)).
    match goal with |- context [bind the_worker _ ?W] =>
      rewrite (bind_Ret _ _ _ _ _ (the_worker_eq W k4 Hk4)) end.
    unfold modify, bind, ret. simpl.
    split; simpl.
    + eexists _, c. split_and!.
      * rewrite Htr4, Htr2'. rewrite <-!app_assoc. simpl.
        rewrite <-!app_assoc. simpl. reflexivity.
      * eexists fd, tr0, l1, (tr ++ trr), l2. split_and!; [|done|].
        -- by rewrite <-!app_assoc.
        -- by apply Forall_app.
      * rewrite Ht4, Hterm1.
        repeat (rewrite elem_of_app || rewrite elem_of_cons ||
                rewrite elem_of_nil || rewrite terminate_in_print).
        intuition discriminate.
    + apply (same_config_trans _ w1); [done|].
      apply (same_config_trans _ w2); [done|]. destruct Hcfg4. by split.
    + done.
    + done.
    + rewrite Hsc2 in Hlen4. lia.
    + rewrite Hnp4, Hnp2. done.
    + rewrite Hfds4, Hfds2, Hfds1. set_solver.
    + exists fd. eexists. split_and!; [| |exact Hfresh].
      * rewrite Htr4, Htr2'. rewrite <-!app_assoc. reflexivity.
      * repeat (rewrite elem_of_app || rewrite elem_of_cons). tauto.
Qed.
End cycle.

(** ** Worker.join *)

Section worker_join.
Implicit Types (w : World) (k : Worker) (p : Z).

(** [self.process.join()] on a child that has ended returns at once. *)
Lemma Process_join_exited p c timeout w k :
  worker w = Some k → process k = Some (mkProcess p (Exited c)) →
  Process_join timeout w = Ret tt w.
Proof.
  intros Hk Hp. unfold Process_join, with_fuel.
  cbn [Process_join_loop].
  by rewrite (bind_Ret _ _ _ _ _ (the_process_eq _ _ _ Hk Hp)).
Qed.

(** Joining a worker that has been joined already. *)
Lemma Worker_join_again p c timeout w k :
  worker w = Some k → released p c k →
  Worker_join timeout w
  = Ret tt (set_trace (trace w ++ [Joined p c])
              (set_worker (Some (set_exitcode (Some c) k)) w)).
Proof.
  intros Hk [Hfd Hpipe Hcode Hp].
  unfold Worker_join.
  rewrite (bind_Ret _ _ _ _ _ (Process_join_exited _ _ _ _ _ Hk Hp)).
  rewrite (bind_Ret _ _ _ _ _ (the_process_eq _ _ _ Hk Hp)). simpl.
  rewrite (bind_Ret _ _ _ _ _ (update_worker_eq _ _ _ Hk)).
  unfold emit, modify, bind, the_worker, ret. simpl.
  rewrite Hfd. simpl. by rewrite Hpipe.
Qed.

(** C7: when [Worker.join] returns, the child having ended, [stdin_fd]
    and [pipe] are both [None]; a further call of [join] returns at once
    and leaves the [Worker] object and the open descriptors as they
    are. *)
Theorem Worker_join_releases p k timeout w w' :
  worker w = Some k → attached p k →
  Worker_join timeout w = Ret tt w' →
  ∃ k', worker w' = Some k' ∧ stdin_fd k' = None ∧ pipe k' = None ∧
        ∀ timeout', ∃ w'',
          Worker_join timeout' w' = Ret tt w'' ∧
          worker w'' = Some k' ∧ open_fds w'' = open_fds w' ∧
          script w'' = script w'.
Proof.
  intros Hk Hat Hjoin.
  assert (slot_ok p w) as Hs.
  { intros k0 Hk0. rewrite Hk in Hk0. by injection Hk0 as <-. }
  pose proof (Worker_join_spec p timeout w Hs (ex_intro _ k Hk)) as Hspec.
  rewrite Hjoin in Hspec. simpl in Hspec.
  destruct Hspec as (tr & c & Hj).
  destruct (j_worker _ _ _ _ _ Hj k Hk Hat) as (k' & Hk' & Hrel & _).
  exists k'. split_and!; [done|by destruct Hrel..|].
  intros timeout'. eexists.
  split; [by apply (Worker_join_again p c)|]. simpl.
  split_and!; [|done|done].
  destruct Hrel, k'; simpl in *. by subst.
Qed.

(** C10: [Worker.join] does not look at its timeout: with any timeout it
    does what it does with none, and when it returns the child has ended,
    its exit code is recorded and [is_alive()] is false.  Otherwise it is
    interrupted or still waiting at the end of the script. *)
Theorem Worker_join_ignores_timeout p k timeout w :
  worker w = Some k → attached p k →
  Worker_join timeout w = Worker_join None w ∧
  sat (Worker_join timeout w)
    (λ _ w', ∃ k' c,
       worker w' = Some k' ∧
       process k' = Some (mkProcess p (Exited c)) ∧
       exitcode k' = Some c ∧
       Worker_is_alive w' = Ret false w')
    (λ e _, e = KeyboardInterrupt)
    (λ w', script w' = []).
Proof.
  intros Hk Hat. split; [done|].
  assert (slot_ok p w) as Hs.
  { intros k0 Hk0. rewrite Hk in Hk0. by injection Hk0 as <-. }
  eapply sat_mono;
    [apply (Worker_join_spec p timeout w Hs (ex_intro _ k Hk))|..];
    [|by intros e w' [-> _]|by intros w' [-> _]].
  intros _ w' (tr & c & Hj).
  destruct (j_worker _ _ _ _ _ Hj k Hk Hat) as (k' & Hk' & Hrel & _).
  exists k', c. destruct Hrel. split_and!; try done.
  by rewrite (Worker_is_alive_eq _ _ _ Hk' rl_process0).
Qed.
End worker_join.

Lemma Worker_join_releases_witness :
  ∃ k', worker (world_after (Worker_join None)
                  (example_started [example_tick [WorkerExits 3]]))
        = Some k' ∧ stdin_fd k' = None ∧ pipe k' = None.
Proof.
  destruct (Worker_join_releases 100
              (mkWorker "app.main" [] (Some (mkConnection 0 false)) false
                 (Some 100) None (Some 3) (Some (mkProcess 100 Running)))
              None
              (example_started [example_tick [WorkerExits 3]])
              (world_after (Worker_join None)
                 (example_started [example_tick [WorkerExits 3]])))
    as (k' & Hk' & Hfd & Hpipe & _).
  - vm_compute. reflexivity.
  - exists Running. reflexivity.
  - vm_compute. reflexivity.
  - exists k'. by split_and!.
Defined.

Lemma Worker_join_ignores_timeout_witness :
  Worker_join (Some 1%Qc) (example_started [example_tick [WorkerExits 3]])
  = Worker_join None (example_started [example_tick [WorkerExits 3]]).
Proof.
  refine (proj1 (Worker_join_ignores_timeout 100
              (mkWorker "app.main" [] (Some (mkConnection 0 false)) false
                 (Some 100) None (Some 3) (Some (mkProcess 100 Running)))
              (Some 1%Qc)
              (example_started [example_tick [WorkerExits 3]]) _ _)).
  - vm_compute. reflexivity.
  - exists Running. reflexivity.
Defined.

(** ** Waiting for changes and the loop of run *)

Section run.
Implicit Types (w : World) (k : Worker) (p q : Z) (tr : list Action)
  (lines : list string).

Lemma idle_refl w : idle [] w w.
Proof. split; try done. by rewrite app_nil_r. Qed.

Lemma idle_trans tr1 tr2 w w1 w2 :
  idle tr1 w w1 → idle tr2 w1 w2 → idle (tr1 ++ tr2) w w2.
Proof.
  intros [] []. split.
  - rewrite i_trace1, i_trace0. by rewrite app_assoc.
  - by apply Forall_app.
  - by eapply same_config_trans.
  - congruence.
  - congruence.
  - lia.
  - tauto.
  - auto.
Qed.

Lemma during_idle p tr w w' : during p tr w w' → idle tr w w'.
Proof.
  intros Hd. pose proof (during_same_config _ _ _ _ Hd). destruct Hd.
  split; try done.
  eapply Forall_impl; [done|]. intros a. apply quiet_not_lifecycle.
Qed.

Lemma idle_emit a w :
  is_lifecycle a = false → idle [a] w (set_trace (trace w ++ [a]) w).
Proof. intros Ha. split; try done. by constructor. Qed.

Lemma slot_ok_None p w : worker w = None → slot_ok p w.
Proof. intros Hw k Hk. congruence. Qed.

Lemma emit_eq a w : emit a w = Ret tt (set_trace (trace w ++ [a]) w).
Proof. done. Qed.

Lemma resting_not_lifecycle q a : resting q a → is_lifecycle a = false.
Proof.
  intros [Ha|[->|[d ->]]]; [|done..]. by eapply quiet_not_lifecycle.
Qed.

Lemma lifecycle_resting q tr : Forall (resting q) tr → lifecycle tr = [].
Proof.
  intros H. apply lifecycle_idle. eapply Forall_impl; [done|].
  intros a. apply resting_not_lifecycle.
Qed.

Lemma resting_quiet q tr : Forall (quiet q) tr → Forall (resting q) tr.
Proof. intros H. eapply Forall_impl; [done|]. intros a Ha. by left. Qed.

Lemma resting_print q lines : Forall (resting q) (Print <$> lines).
Proof. apply resting_quiet, Forall_quiet_print. Qed.

(** While the supervisor rests for [q], [terminate()] is not called on
    any other worker. *)
Lemma resting_not_terminate p q tr :
  p ≠ q → Forall (resting q) tr → Terminate p ∉ tr.
Proof.
  intros Hne Hall Hin. rewrite Forall_forall in Hall.
  destruct (Hall _ Hin) as [[[? ?]|[?|?]]|[?|[? ?]]]; try done.
  congruence.
Qed.

Lemma quiet_not_wait p tr : Forall (quiet p) tr → WaitForChange ∉ tr.
Proof.
  intros Hall Hin. rewrite Forall_forall in Hall.
  by destruct (Hall _ Hin) as [[? ?]|[?|?]].
Qed.

(** [self.monitor.wait_for_change(timeout)] with no worker in place. *)
Lemma monitor_wait_for_change_spec q timeout w :
  is_Some (monitor w) → worker w = None →
  sat (monitor_wait_for_change timeout w)
    (λ changed w', ∃ tr,
       idle tr w w' ∧ Forall (resting q) tr ∧ WaitForChange ∈ tr ∧
       (changed = false →
        (length (script w') < length (script w))%nat))
    (λ e w', e = KeyboardInterrupt ∧
             ∃ tr, idle tr w w' ∧ Forall (resting q) tr)
    (λ w', script w' = [] ∧ ∃ tr, idle tr w w' ∧ Forall (resting q) tr).
Proof.
  intros [m Hm] Hw. unfold monitor_wait_for_change.
  rewrite (bind_Ret _ _ _ _ _ (emit_eq _ _)).
  pose proof (idle_emit WaitForChange w eq_refl) as Hi0.
  set (w0 := set_trace _ w) in *.
  assert (monitor w0 = Some m) as Hm0 by done.
  assert (worker w0 = None) as Hw0 by done.
  assert (length (script w0) = length (script w)) as Hlen0 by done.
  assert (script w0 = script w) as Hsc0 by done.
  clearbody w0.
  assert (Forall (resting q) [WaitForChange]) as Hr0.
  { constructor; [right; by left|constructor]. }
  rewrite (bind_Ret _ _ _ _ _ (the_monitor_eq _ _ Hm0)).
  destruct (change_event m).
  { unfold ret. simpl. exists [WaitForChange]. split_and!; try done.
    by left. }
  assert (∀ tr w1, during q tr w0 w1 →
            idle ([WaitForChange] ++ tr) w w1 ∧
            Forall (resting q) ([WaitForChange] ++ tr)) as Hstep.
  { intros tr w1 Hd. split.
    - eapply idle_trans; [done|]. by eapply during_idle.
    - apply Forall_app. split; [done|]. apply resting_quiet. by destruct Hd. }
  eapply sat_bind; [apply (block_for_spec _ q w0 (slot_ok_None _ _ Hw0))|..].
  - intros _ w1 (tr & Hd & Hlt).
    assert (is_Some (monitor w1)) as [m1 Hm1]
      by (apply (d_monitor _ _ _ _ Hd); by eexists).
    rewrite (bind_Ret _ _ _ _ _ (the_monitor_eq _ _ Hm1)).
    unfold ret. simpl. exists ([WaitForChange] ++ tr).
    destruct (Hstep _ _ Hd). split_and!; try done.
    + by left.
    + intros _. lia.
  - intros e w1 (-> & tr & Hd & _). split; [done|].
    exists ([WaitForChange] ++ tr). by apply Hstep.
  - intros w1 [-> Hnil]. split; [congruence|].
    exists [WaitForChange]. done.
Qed.

(** The [while] loop of [_wait_for_changes]. *)
Lemma wait_loop_spec q n w :
  is_Some (monitor w) → worker w = None →
  (length (script w) < n)%nat →
  sat (wait_loop n w)
    (λ _ w', ∃ tr, idle tr w w' ∧ Forall (resting q) tr ∧
                   WaitForChange ∈ tr)
    (λ e w', e = KeyboardInterrupt ∧
             ∃ tr, idle tr w w' ∧ Forall (resting q) tr)
    (λ w', script w' = [] ∧ ∃ tr, idle tr w w' ∧ Forall (resting q) tr).
Proof.
  revert w. induction n as [|n IH]; intros w Hm Hw Hlen; [lia|].
  simpl. unfold gets at 1, bind at 1.
  eapply sat_bind; [by apply (monitor_wait_for_change_spec q)|..];
    [|done|done].
  intros changed w1 (tr & Hi & Hr & Hin & Hlt). destruct changed.
  { unfold ret. simpl. by exists tr. }
  specialize (Hlt eq_refl).
  eapply sat_mono; [apply IH|..].
  - by apply (i_monitor _ _ _ Hi).
  - by apply (i_worker _ _ _ Hi).
  - lia.
  - intros _ w2 (tr2 & Hi2 & Hr2 & _). exists (tr ++ tr2). split_and!.
    + by eapply idle_trans.
    + by apply Forall_app.
    + apply elem_of_app. by left.
  - intros e w2 (-> & tr2 & Hi2 & Hr2). split; [done|].
    exists (tr ++ tr2). split; [by eapply idle_trans|by apply Forall_app].
  - intros w2 (Hnil & tr2 & Hi2 & Hr2). split; [done|].
    exists (tr ++ tr2). split; [by eapply idle_trans|by apply Forall_app].
Qed.

(** [Reloader._wait_for_changes], with no worker in place. *)
Lemma _wait_for_changes_spec q w :
  is_Some (monitor w) → worker w = None →
  sat (_wait_for_changes w)
    (λ _ w', ∃ tr,
       trace w' = trace w ++ tr ++ [ClearChanges] ∧
       Forall (resting q) tr ∧ WaitForChange ∈ tr ∧
       same_config w w' ∧ next_pid w' = next_pid w ∧
       open_fds w' = open_fds w ∧
       (length (script w') ≤ length (script w))%nat ∧
       is_Some (monitor w') ∧ worker w' = None)
    (λ e w', e = KeyboardInterrupt ∧
             ∃ tr, trace w' = trace w ++ tr ∧ Forall (resting q) tr)
    (λ w', script w' = [] ∧
           ∃ tr, trace w' = trace w ++ tr ∧ Forall (resting q) tr).
Proof.
  intros Hm Hw. unfold _wait_for_changes.
  rewrite (bind_Ret _ _ _ _ _ (Reloader_out_eq _ _)).
  set (lines := out _ _).
  assert (idle (Print <$> lines) w
            (set_trace (trace w ++ (Print <$> lines)) w)) as Hi0.
  { split; try done. apply Forall_fmap, Forall_forall. by intros. }
  set (w0 := set_trace _ w) in *.
  assert (is_Some (monitor w0)) as Hm0 by done.
  assert (worker w0 = None) as Hw0 by done.
  clearbody w0.
  assert (∀ tr w1, idle tr w0 w1 → Forall (resting q) tr →
            idle ((Print <$> lines) ++ tr) w w1 ∧
            Forall (resting q) ((Print <$> lines) ++ tr)) as Hstep.
  { intros tr w1 Hi1 Hr1. split; [by eapply idle_trans|].
    apply Forall_app. split; [apply resting_print|done]. }
  eapply sat_bind; [apply (wait_loop_spec q); [done|done|lia]|..].
  - intros _ w1 (tr & Hi1 & Hr1 & Hin).
    destruct (Hstep _ _ Hi1 Hr1) as [Hi Hr].
    destruct Hi. destruct (proj2 i_monitor0 Hm) as [m1 Hm1].
    rewrite (monitor_clear_changes_eq _ _ Hm1). simpl.
    eexists. split_and!; try done.
    + rewrite i_trace0. by rewrite <-app_assoc.
    + apply elem_of_app. by right.
    + destruct i_config0. by split.
    + auto.
  - intros e w1 (-> & tr & Hi1 & Hr1). split; [done|].
    destruct (Hstep _ _ Hi1 Hr1) as [[] Hr]. by eexists.
  - intros w1 (Hnil & tr & Hi1 & Hr1). split; [done|].
    destruct (Hstep _ _ Hi1 Hr1) as [[] Hr]. by eexists.
Qed.

(** [time.sleep(seconds)] *)
Lemma time_sleep_spec q d w :
  worker w = None →
  sat (time_sleep d w)
    (λ _ w', ∃ tr, idle (Sleep d :: tr) w w' ∧ Forall (quiet q) tr ∧
                   (length (script w') < length (script w))%nat)
    (λ e w', e = KeyboardInterrupt ∧
             ∃ tr, trace w' = trace w ++ Sleep d :: tr ∧ Forall (quiet q) tr)
    (λ w', script w' = [] ∧
           ∃ tr, trace w' = trace w ++ Sleep d :: tr ∧ Forall (quiet q) tr).
Proof.
  intros Hw. unfold time_sleep, emit, modify. unfold bind at 1.
  pose proof (idle_emit (Sleep d) w eq_refl) as Hi0.
  set (w0 := set_trace _ w) in *.
  assert (worker w0 = None) as Hw0 by done.
  assert (length (script w0) = length (script w)) as Hlen0 by done.
  assert (script w0 = script w) as Hsc0 by done.
  assert (trace w0 = trace w ++ [Sleep d]) as Htr0 by done.
  clearbody w0.
  eapply sat_mono; [apply (block_spec q w0 (slot_ok_None _ _ Hw0))|..].
  - intros _ w1 (tr & Hd & Hlt). exists tr. split_and!.
    + apply (idle_trans [Sleep d] tr w w0 w1); [done|].
      by eapply during_idle.
    + by destruct Hd.
    + lia.
  - intros e w1 (-> & tr & Hd & _). split; [done|]. exists tr.
    destruct Hd. split; [|done]. rewrite d_trace0, Htr0.
    by rewrite <-app_assoc.
  - intros w1 [-> Hnil]. split; [congruence|]. exists []. done.
Qed.

Lemma wait_in_print lines : WaitForChange ∈ Print <$> lines ↔ False.
Proof.
  split; [|done]. intros H. by apply list_elem_of_fmap in H as (? & ? & _).
Qed.

Lemma cycle_trace_no_wait p c tr : cycle_trace p c tr → WaitForChange ∉ tr.
Proof.
  intros (fd & tr0 & l1 & tr1 & l2 & -> & Hq0 & Hq1).
  pose proof (quiet_not_wait _ _ Hq0). pose proof (quiet_not_wait _ _ Hq1).
  repeat (rewrite elem_of_app || rewrite elem_of_cons ||
          rewrite elem_of_nil || rewrite wait_in_print).
  intuition discriminate.
Qed.

Lemma cycle_trace_started p c tr : cycle_trace p c tr → started p tr.
Proof.
  intros H. apply lifecycle_cycle_trace in H. by eexists.
Qed.

Lemma cycle_cut_started p tr : cycle_cut p tr → started p tr.
Proof. intros [H|[H|[c H]]]; by eexists. Qed.

Lemma started_app p tr1 tr2 : started p tr1 → started p (tr1 ++ tr2).
Proof.
  intros [tr' H]. exists (tr' ++ lifecycle tr2).
  by rewrite lifecycle_app, H.
Qed.

Lemma turn_trace_started p c tr : turn_trace p c tr → started p tr.
Proof. intros [(_ & H & _)|(_ & H & _)]; by eexists. Qed.

(** The trace of a turn, from those of its parts: the cycle, the wait
    when the flag is false, and what follows. *)
Lemma turn_trace_intro p c (force : bool) trc tr2 tr3 :
  cycle_trace p c trc → (force = true ↔ Terminate p ∈ trc) →
  (if force then tr2 = []
   else ∃ tr2', tr2 = tr2' ++ [ClearChanges] ∧
                Forall (resting (p + 1)) tr2' ∧ WaitForChange ∈ tr2') →
  Forall (resting (p + 1)) tr3 → WaitForChange ∉ tr3 →
  turn_trace p c (trc ++ tr2 ++ tr3).
Proof.
  intros Hct Hf H2 Hr3 Hw3.
  pose proof (lifecycle_cycle_trace _ _ _ Hct) as Hl.
  pose proof (cycle_trace_no_wait _ _ _ Hct) as Hnw.
  pose proof (resting_not_terminate p (p + 1) tr3 ltac:(lia) Hr3) as Hnt3.
  destruct force.
  - subst tr2. left. split_and!.
    + apply elem_of_app. left. by apply Hf.
    + by rewrite !lifecycle_app, Hl, (lifecycle_resting _ _ Hr3).
    + rewrite !elem_of_app, elem_of_nil. tauto.
  - destruct H2 as (tr2' & -> & Hr2 & Hin2).
    pose proof (resting_not_terminate p (p + 1) tr2' ltac:(lia) Hr2) as Hnt2.
    right. split_and!.
    + rewrite !elem_of_app, elem_of_cons, elem_of_nil.
      intros [H|[[H|[H|[]]]|H]]; try done. by apply Hf in H.
    + rewrite !lifecycle_app, Hl, (lifecycle_resting _ _ Hr2),
        (lifecycle_resting _ _ Hr3). done.
    + rewrite !elem_of_app. right. left. by left.
Qed.

(** One turn of the loop of [run]. *)
Lemma run_cycle_spec w :
  is_Some (monitor w) → 0 ∈ open_fds w →
  sat (run_cycle w)
    (λ _ w', turn_done w w')
    (λ e w', e = KeyboardInterrupt ∧
             ∃ tr, trace w' = trace w ++ tr ∧ started (next_pid w) tr)
    (λ w', script w' = [] ∧
           ∃ tr, trace w' = trace w ++ tr ∧ started (next_pid w) tr).
Proof.
  intros Hm H0. unfold run_cycle. unfold time_time at 1, gets at 1, bind at 1.
  set (p := next_pid w).
  eapply sat_bind; [by apply _run_worker_spec|..].
  2:{ intros e w1 (-> & tr & Htr & Hcut). split; [done|].
      exists tr. split; [done|]. by apply cycle_cut_started. }
  2:{ intros w1 (Hnil & tr & Htr & Hcut). split; [done|].
      exists tr. split; [done|]. by apply cycle_cut_started. }
  intros force w1 [(trc & c & Htr1 & Hct & Hf) Hcfg1 Hm1 Hw1 Hlt1 Hnp1 Hfds1].
  fold p in Hct, Hf, Hnp1.
  pose proof (cycle_trace_started _ _ _ Hct) as Hst.
  eapply sat_bind with
    (Q1 := λ _ w2, ∃ tr2,
       trace w2 = trace w1 ++ tr2 ∧
       (if force then tr2 = []
        else ∃ tr2', tr2 = tr2' ++ [ClearChanges] ∧
                     Forall (resting (p + 1)) tr2' ∧ WaitForChange ∈ tr2') ∧
       same_config w1 w2 ∧ next_pid w2 = next_pid w1 ∧
       open_fds w2 = open_fds w1 ∧
       (length (script w2) ≤ length (script w1))%nat ∧
       is_Some (monitor w2) ∧ worker w2 = None)
    (E1 := λ e w2, e = KeyboardInterrupt ∧
                   ∃ tr2, trace w2 = trace w1 ++ tr2)
    (B1 := λ w2, script w2 = [] ∧ ∃ tr2, trace w2 = trace w1 ++ tr2).
  - destruct force; simpl.
    + exists []. split_and!; try done. by rewrite app_nil_r.
    + eapply sat_mono; [by apply (_wait_for_changes_spec (p + 1))|..].
      * intros _ w2 (tr & Htr2 & Hall & Hin & Hcfg2 & Hnp2 & Hfds2 & Hlen2 &
                     Hm2 & Hw2).
        eexists. split_and!; try done. by exists tr.
      * intros e w2 (-> & tr & Htr2 & _). split; [done|]. by exists tr.
      * intros w2 (Hnil & tr & Htr2 & _). split; [done|]. by exists tr.
  - intros _ w2 (tr2 & Htr2 & Hshape & Hcfg2 & Hnp2 & Hfds2 & Hlen2 & Hm2 &
                 Hw2).
    unfold gets at 1, bind at 1. unfold time_time, gets at 1, bind at 1.
    assert (∀ tr3 w3, trace w3 = trace w2 ++ tr3 →
              Forall (resting (p + 1)) tr3 → WaitForChange ∉ tr3 →
              ∃ tr c, trace w3 = trace w ++ tr ∧ turn_trace p c tr) as Htt.
    { intros tr3 w3 Htr3 Hr3 Hw3. exists (trc ++ tr2 ++ tr3), c. split.
      - rewrite Htr3, Htr2, Htr1. by rewrite <-!app_assoc.
      - by apply (turn_trace_intro p c force). }
    case_bool_decide.
    + eapply sat_mono; [by apply (time_sleep_spec (p + 1))|..].
      * intros _ w3 (tr3 & Hi & Hq3 & Hlt3). destruct Hi. split.
        -- eapply Htt; [done| |].
           ++ constructor; [right; right; by eexists|by apply resting_quiet].
           ++ apply not_elem_of_cons. split; [done|].
              by eapply quiet_not_wait.
        -- apply (same_config_trans _ w1); [done|].
           by apply (same_config_trans _ w2).
        -- tauto.
        -- auto.
        -- lia.
        -- unfold p in *. congruence.
        -- congruence.
      * intros e w3 (-> & tr3 & Htr3 & _). split; [done|].
        eexists. split.
        -- rewrite Htr3, Htr2, Htr1, <-!app_assoc. reflexivity.
        -- by apply started_app.
      * intros w3 (Hnil & tr3 & Htr3 & _). split; [done|].
        eexists. split.
        -- rewrite Htr3, Htr2, Htr1, <-!app_assoc. reflexivity.
        -- by apply started_app.
    + unfold ret. simpl. split.
      * apply (Htt []); [by rewrite app_nil_r|constructor|].
        apply not_elem_of_nil.
      * by apply (same_config_trans _ w1).
      * done.
      * done.
      * lia.
      * unfold p in *. congruence.
      * congruence.
  - intros e w2 (-> & tr2 & Htr2). split; [done|]. eexists. split.
    + rewrite Htr2, Htr1, <-app_assoc. reflexivity.
    + by apply started_app.
  - intros w2 (Hnil & tr2 & Htr2). split; [done|]. eexists. split.
    + rewrite Htr2, Htr1, <-app_assoc. reflexivity.
    + by apply started_app.
Qed.

(** The loop of [run] never ends by itself. *)
Lemma run_loop_spec n w :
  is_Some (monitor w) → 0 ∈ open_fds w → (length (script w) < n)%nat →
  sat (run_loop n w)
    (λ _ _, False)
    (λ e w', e = KeyboardInterrupt ∧
             ∃ tr, trace w' = trace w ++ tr ∧ started (next_pid w) tr)
    (λ w', script w' = [] ∧
           ∃ tr, trace w' = trace w ++ tr ∧ started (next_pid w) tr).
Proof.
  revert w. induction n as [|n IH]; intros w Hm H0 Hlen; [lia|]. simpl.
  eapply sat_bind; [by apply run_cycle_spec|..]; [|done|done].
  intros _ w1 [(tr1 & c & Htr1 & Htt) ? ? ? ? ? Hfds].
  apply turn_trace_started in Htt.
  eapply sat_mono; [apply IH; [done|by rewrite Hfds|lia]|..]; [done|..].
  - intros e w2 (-> & tr2 & Htr2 & _). split; [done|]. eexists. split.
    + rewrite Htr2, Htr1, <-app_assoc. reflexivity.
    + by apply started_app.
  - intros w2 (Hnil & tr2 & Htr2 & _). split; [done|]. eexists. split.
    + rewrite Htr2, Htr1, <-app_assoc. reflexivity.
    + by apply started_app.
Qed.
End run.

(** ** The restart cycle *)

Section restart_cycle.
Implicit Types (w : World) (p : Z) (tr : list Action).

Lemma clear_calls_lifecycle tr : clear_calls tr = clear_calls (lifecycle tr).
Proof.
  unfold clear_calls, lifecycle.
  induction tr as [|a tr IH]; [done|].
  destruct a; simpl; congruence.
Qed.

Lemma cycle_trace_joined p c tr : cycle_trace p c tr → Joined p c ∈ tr.
Proof.
  intros (fd & tr0 & l1 & tr1 & l2 & -> & _).
  repeat (rewrite elem_of_app || rewrite elem_of_cons). tauto.
Qed.

Lemma cycle_cut_clears p tr : cycle_cut p tr → (clear_calls tr ≤ 1)%nat.
Proof.
  intros H. rewrite clear_calls_lifecycle.
  destruct H as [->|[->|[c ->]]]; unfold clear_calls; simpl; lia.
Qed.

(** The calls that close [run] and [run_once]. *)
Lemma stop_and_restore w :
  ∃ w', (_stop_monitor >> _restore_signals) w = Ret tt w' ∧
        monitor w' = None ∧ trace w' = trace w ∧ script w' = script w ∧
        sighup_handler w'
        = (if has_sighup w then false else sighup_handler w).
Proof.
  unfold _stop_monitor, _restore_signals, bind, gets, update_monitor,
    the_monitor, modify, ret, bind.
  destruct (monitor w) eqn:Hm; simpl; rewrite ?Hm; simpl;
    destruct (has_sighup w) eqn:Hs; simpl; eexists; split_and!; try done;
    simpl; by rewrite ?Hs.
Qed.

(** The calls that open [run] and [run_once]. *)
Lemma capture_and_start w :
  ∃ w', (_capture_signals >> _start_monitor) w = Ret tt w' ∧
        monitor w'
        = Some (monitor_set_running true
                  (FileMonitorProxy_init (reloader_verbose w))) ∧
        script w' = script w ∧ trace w' = trace w ∧
        open_fds w' = open_fds w ∧ next_pid w' = next_pid w ∧
        has_sighup w' = has_sighup w ∧
        sighup_handler w'
        = (if has_sighup w then true else sighup_handler w).
Proof.
  unfold _capture_signals, _start_monitor, bind, gets, update_monitor,
    the_monitor, modify, ret, bind.
  destruct (has_sighup w) eqn:Hs; simpl; eexists; split_and!; try done;
    simpl; by rewrite ?Hs.
Qed.

Lemma bind_assoc {A B C} (c : M A) (k : A → M B) (h : B → M C) w :
  bind (bind c k) h w = bind c (λ a, bind (k a) h) w.
Proof. unfold bind. by destruct (c w). Qed.

(** The shape of [run]: the two calls before the loop, the loop under the
    handler of [KeyboardInterrupt], the two calls of [finally], and
    [sys.exit(1)]. *)
Lemma run_eq w w1 :
  (_capture_signals >> _start_monitor) w = Ret tt w1 →
  run w
  = (try_finally
       (try_except is_KeyboardInterrupt (with_fuel run_loop) (ret tt))
       (_stop_monitor >> _restore_signals) >>
     sys_exit 1) w1.
Proof.
  intros Hcs. unfold run.
  change (_capture_signals >> _start_monitor >> ?k)
    with (bind _capture_signals (λ _, bind _start_monitor (λ _, k))).
  rewrite <-(bind_assoc _capture_signals (λ _, _start_monitor)).
  by rewrite (bind_Ret _ _ _ _ _ Hcs).
Qed.

Lemma run_once_eq w w1 :
  (_capture_signals >> _start_monitor) w = Ret tt w1 →
  run_once w
  = try_finally
      (try_except is_KeyboardInterrupt
         (let* _ := _run_worker in ret tt) (ret tt))
      (_stop_monitor >> _restore_signals) w1.
Proof.
  intros Hcs. unfold run_once.
  change (_capture_signals >> _start_monitor >> ?k)
    with (bind _capture_signals (λ _, bind _start_monitor (λ _, k))).
  rewrite <-(bind_assoc _capture_signals (λ _, _start_monitor)).
  by rewrite (bind_Ret _ _ _ _ _ Hcs).
Qed.

(** With descriptor 0 closed the first turn of the loop fails at once. *)
Lemma run_loop_closed n w :
  0 ∉ open_fds w →
  run_loop (S n) w
  = Raise OSError
      (set_worker (Some (Worker_init (reloader_worker_path w))) w).
Proof.
  intros H. cbn [run_loop]. unfold bind at 1, run_cycle.
  unfold time_time at 1, gets at 1, bind at 1. unfold bind at 1.
  by rewrite (_run_worker_closed w H).
Qed.

(** C5, as the code has it: [run] never returns to its caller.  When its
    loop is left by [KeyboardInterrupt] it stops the monitor, restores
    the handler and calls [sys.exit(1)]; until then it is in a blocking
    call.  When the loop is left by another exception, which is
    [OSError] from [os.dup] in [Worker.start()] when descriptor 0 is
    closed, the same two calls are made and the exception goes on to
    the caller: there is no [sys.exit(1)].  [run_once] returns normally
    after its one cycle, or when [KeyboardInterrupt] cuts that cycle
    short; the other exception leaves it as it leaves [run]. *)
Theorem run_exits_run_once_returns w :
  sat (run w)
    (λ _ _, False)
    (λ e w', monitor w' = None ∧
       ∃ w1 w2,
         (_capture_signals >> _start_monitor) w = Ret tt w1 ∧
         (_stop_monitor >> _restore_signals) w2 = Ret tt w' ∧
         ((e = SystemExit 1 ∧ 0 ∈ open_fds w ∧
           with_fuel run_loop w1 = Raise KeyboardInterrupt w2 ∧
           ∃ tr, trace w' = trace w ++ tr ∧ started (next_pid w) tr) ∨
          (e = OSError ∧ (0 ∉ open_fds w) ∧
           with_fuel run_loop w1 = Raise OSError w2 ∧
           trace w' = trace w)))
    (λ w', script w' = []) ∧
  sat (run_once w)
    (λ _ w', monitor w' = None ∧ 0 ∈ open_fds w ∧
       ∃ w1 w2,
         (_capture_signals >> _start_monitor) w = Ret tt w1 ∧
         (_stop_monitor >> _restore_signals) w2 = Ret tt w' ∧
         ∃ tr, trace w' = trace w ++ tr ∧
           ((∃ force c, _run_worker w1 = Ret force w2 ∧
                        cycle_trace (next_pid w) c tr) ∨
            (_run_worker w1 = Raise KeyboardInterrupt w2 ∧
             cycle_cut (next_pid w) tr)))
    (λ e w', e = OSError ∧ (0 ∉ open_fds w) ∧ monitor w' = None ∧
             trace w' = trace w)
    (λ w', script w' = []).
Proof.
  destruct (capture_and_start w)
    as (w1 & Hcs & Hm1 & Hsc1 & Htr1 & Hfds1 & Hnp1 & _).
  assert (is_Some (monitor w1)) as Hmon1 by by eexists.
  split.
  - rewrite (run_eq w w1 Hcs).
    unfold bind at 1, try_finally, try_except, with_fuel.
    destruct (decide (0 ∈ open_fds w)) as [H0|H0].
    + pose proof (run_loop_spec (S (length (script w1))) w1 Hmon1
                    ltac:(by rewrite Hfds1) (Nat.lt_succ_diag_r _)) as Hspec.
      destruct (run_loop _ w1) as [[] w2|e w2|w2|] eqn:Hloop;
        simpl in Hspec; try done.
      * destruct Hspec as (-> & tr & Htr2 & Hst).
        cbn [is_KeyboardInterrupt]. unfold ret at 1.
        destruct (stop_and_restore w2) as (w3 & Hsr & Hnone & Htr3 & _).
        rewrite Hsr. unfold sys_exit, raise. simpl.
        split; [done|]. exists w1, w2. split_and!; try done.
        left. split_and!; try done. exists tr.
        split; [congruence|by rewrite <-Hnp1].
      * by destruct Hspec.
    + rewrite run_loop_closed by by rewrite Hfds1.
      cbn [is_KeyboardInterrupt].
      match goal with |- context [(_stop_monitor >> _restore_signals) ?W] =>
        destruct (stop_and_restore W) as (w3 & Hsr & Hnone & Htr3 & _) end.
      rewrite Hsr. simpl.
      split; [done|]. eexists w1, _. split_and!; try done.
      right. split_and!; try done.
      * unfold with_fuel. apply run_loop_closed. by rewrite Hfds1.
      * rewrite Htr3. simpl. done.
  - rewrite (run_once_eq w w1 Hcs).
    unfold try_finally, try_except, bind at 1.
    destruct (decide (0 ∈ open_fds w)) as [H0|H0].
    + pose proof (_run_worker_spec w1 Hmon1 ltac:(by rewrite Hfds1))
        as Hspec.
      destruct (_run_worker w1) as [force w2|e w2|w2|] eqn:Hrun;
        simpl in Hspec; try done.
      * unfold ret at 1.
        destruct (stop_and_restore w2) as (w3 & Hsr & Hnone & Htr3 & _).
        rewrite Hsr. simpl. destruct Hspec as [(tr & c & Htr2 & Hct & _)].
        split_and!; try done. exists w1, w2. split_and!; try done.
        exists tr. split; [congruence|]. left. exists force, c.
        by rewrite <-Hnp1.
      * destruct Hspec as (-> & tr & Htr2 & Hcut).
        cbn [is_KeyboardInterrupt]. unfold ret at 1.
        destruct (stop_and_restore w2) as (w3 & Hsr & Hnone & Htr3 & _).
        rewrite Hsr. simpl.
        split_and!; try done. exists w1, w2. split_and!; try done.
        exists tr. split; [congruence|]. right. by rewrite <-Hnp1.
      * by destruct Hspec.
    + rewrite _run_worker_closed by by rewrite Hfds1.
      cbn [is_KeyboardInterrupt].
      match goal with |- context [(_stop_monitor >> _restore_signals) ?W] =>
        destruct (stop_and_restore W) as (w3 & Hsr & Hnone & Htr3 & _) end.
      rewrite Hsr. simpl. split_and!; try done. by rewrite Htr3.
Qed.

(** C9: after a cycle (the worker, then the wait for changes if the
    worker was not terminated), [run] computes [reload_interval − elapsed]
    with [elapsed] the time the cycle took; when that is positive it
    calls [time.sleep] with exactly that value, once, and when it is zero
    or negative the turn ends there, without any sleep. *)
Theorem run_cycle_debounce w forced w1 w2 :
  is_Some (monitor w) →
  _run_worker w = Ret forced w1 →
  (if negb forced then _wait_for_changes else ret tt) w1 = Ret tt w2 →
  let elapsed := (clock w2 - clock w)%Qc in
  let debounce := (reload_interval w - elapsed)%Qc in
  ((0 < debounce)%Qc →
   run_cycle w = time_sleep debounce w2 ∧
   sat (run_cycle w)
     (λ _ w3, ∃ tr, trace w3 = trace w2 ++ Sleep debounce :: tr ∧
                    Forall (quiet 0) tr)
     (λ e _, e = KeyboardInterrupt)
     (λ w', script w' = [])) ∧
  (¬ (0 < debounce)%Qc → run_cycle w = Ret tt w2).
Proof.
  intros Hm Hrun Hwait elapsed debounce.
  assert (0 ∈ open_fds w) as H0.
  { destruct (decide (0 ∈ open_fds w)) as [|H0]; [done|].
    by rewrite (_run_worker_closed w H0) in Hrun. }
  pose proof (_run_worker_spec w Hm H0) as Hspec. rewrite Hrun in Hspec.
  simpl in Hspec. destruct Hspec as [_ Hcfg1 Hm1 Hw1 _ _ _].
  assert (reload_interval w2 = reload_interval w ∧ worker w2 = None)
    as [Hint Hw2].
  { destruct forced; simpl in Hwait.
    - injection Hwait as <-. by destruct Hcfg1.
    - pose proof (_wait_for_changes_spec 0 w1 Hm1 Hw1) as Hs.
      rewrite Hwait in Hs. simpl in Hs.
      destruct Hs as (tr & _ & _ & _ & [] & _ & _ & _ & _ & ?).
      destruct Hcfg1. split; [congruence|done]. }
  assert (run_cycle w
          = (if bool_decide (0 < debounce)%Qc
             then time_sleep debounce w2 else Ret tt w2)) as Heq.
  { unfold run_cycle. unfold time_time at 1, gets at 1, bind at 1.
    rewrite (bind_Ret _ _ _ _ _ Hrun), (bind_Ret _ _ _ _ _ Hwait).
    unfold gets at 1, bind at 1. unfold time_time, gets at 1, bind at 1.
    rewrite Hint. fold elapsed. fold debounce.
    by destruct (bool_decide _). }
  split; intros Hd.
  - rewrite Heq, bool_decide_true by done. split; [done|].
    eapply sat_mono; [by apply (time_sleep_spec 0)|..];
      [|by intros e w3 [-> _]|by intros w3 [-> _]].
    intros _ w3 (tr & Hi & Hq & _). exists tr. split; [|done].
    by destruct Hi.
  - by rewrite Heq, bool_decide_false.
Qed.

(** C2, as the code has it: a cycle started with the monitor in place
    returns, is interrupted by [KeyboardInterrupt], or is in a blocking
    call when the script ends; with descriptor 0 closed it fails in
    [Worker.start()] before anything is done.  When it returns, [join]
    has recorded the exit code of its worker, and the flag it returns is
    true exactly when [terminate()] was called on that worker during the
    cycle: a forced termination gives both an exit code and the flag. *)
Theorem run_worker_outcome w :
  is_Some (monitor w) →
  sat (_run_worker w)
    (λ force w', ∃ tr c,
       trace w' = trace w ++ tr ∧
       Joined (next_pid w) c ∈ tr ∧
       (force = true ↔ Terminate (next_pid w) ∈ tr))
    (λ e w', e = KeyboardInterrupt ∨
             (e = OSError ∧ (0 ∉ open_fds w) ∧ trace w' = trace w))
    (λ w', script w' = []).
Proof.
  intros Hm. destruct (decide (0 ∈ open_fds w)) as [H0|H0].
  - eapply sat_mono; [by apply _run_worker_spec|..];
      [|by intros e w' [-> _]; left|by intros w' [-> _]].
    intros force w' [(tr & c & Htr & Hct & Hf) _ _ _ _ _].
    exists tr, c. split_and!; [done| |done]. by apply cycle_trace_joined.
  - rewrite (_run_worker_closed w H0). simpl. right. by split_and!.
Qed.

(** C4, as the code has it: a call of [_run_worker] that returns has
    called [clear_changes()] twice, once after the new worker has been
    started and once after it has been joined; a call that is cut short
    has called it at most once.  A turn of the loop of [run] adds a third
    call, made by [_wait_for_changes], exactly when [terminate()] was not
    called on the worker. *)
Theorem clear_changes_calls w :
  is_Some (monitor w) →
  sat (_run_worker w)
    (λ force w', ∃ tr c,
       trace w' = trace w ++ tr ∧
       lifecycle tr = [Spawn (next_pid w); ClearChanges;
                       Joined (next_pid w) c; ClearChanges] ∧
       clear_calls tr = 2%nat ∧
       (force = true ↔ Terminate (next_pid w) ∈ tr))
    (λ e w', ∃ tr,
       trace w' = trace w ++ tr ∧ (clear_calls tr ≤ 1)%nat ∧
       ((e = KeyboardInterrupt ∧ cycle_cut (next_pid w) tr) ∨
        (e = OSError ∧ (0 ∉ open_fds w) ∧ tr = [])))
    (λ w', script w' = [] ∧ ∃ tr,
       trace w' = trace w ++ tr ∧ (clear_calls tr ≤ 1)%nat ∧
       cycle_cut (next_pid w) tr) ∧
  sat (run_cycle w)
    (λ _ w', ∃ tr c,
       trace w' = trace w ++ tr ∧
       ((Terminate (next_pid w) ∈ tr ∧ clear_calls tr = 2%nat ∧
         (WaitForChange ∉ tr) ∧
         lifecycle tr = [Spawn (next_pid w); ClearChanges;
                         Joined (next_pid w) c; ClearChanges]) ∨
        ((Terminate (next_pid w) ∉ tr) ∧ clear_calls tr = 3%nat ∧
         WaitForChange ∈ tr ∧
         lifecycle tr = [Spawn (next_pid w); ClearChanges;
                         Joined (next_pid w) c; ClearChanges;
                         ClearChanges])))
    (λ e _, e = KeyboardInterrupt ∨ (e = OSError ∧ 0 ∉ open_fds w))
    (λ w', script w' = []).
Proof.
  intros Hm. destruct (decide (0 ∈ open_fds w)) as [H0|H0].
  - split.
    + eapply sat_mono; [by apply _run_worker_spec|..].
      * intros force w' [(tr & c & Htr & Hct & Hf) _ _ _ _ _].
        apply lifecycle_cycle_trace in Hct.
        exists tr, c. split_and!; [done|done| |done].
        by rewrite clear_calls_lifecycle, Hct.
      * intros e w' (-> & tr & Htr & Hcut). exists tr.
        split_and!; [done|by eapply cycle_cut_clears|by left].
      * intros w' (Hnil & tr & Htr & Hcut). split; [done|]. exists tr.
        split_and!; [done|by eapply cycle_cut_clears|done].
    + eapply sat_mono; [by apply run_cycle_spec|..];
        [|by intros e w' [-> _]; left|by intros w' [-> _]].
      intros _ w' [(tr & c & Htr & Htt) _ _ _ _ _ _].
      exists tr, c. split; [done|].
      destruct Htt as [(Ht & Hl & Hnw)|(Ht & Hl & Hin)]; [left|right];
        (split_and!; [done| |done|done]);
        by rewrite clear_calls_lifecycle, Hl.
  - split.
    + rewrite (_run_worker_closed w H0). simpl. exists [].
      split_and!; [by rewrite app_nil_r|unfold clear_calls; simpl; lia|by right].
    + unfold run_cycle. unfold time_time at 1, gets at 1, bind at 1.
      unfold bind at 1. rewrite (_run_worker_closed w H0). simpl.
      right. by split.
Qed.
End restart_cycle.

(** ** The cycle on concrete scripts *)

Lemma example_monitoring_monitor script :
  is_Some (monitor (example_monitoring script)).
Proof. by eexists. Qed.

(** A change while the worker runs: the worker is terminated, joined with
    exit code -15, and [_run_worker] returns [True]. *)
Lemma run_worker_on_change :
  outcome_value (_run_worker (example_monitoring script_change)) = Some true ∧
  trace <$> outcome_world (_run_worker (example_monitoring script_change))
  = Some [Spawn 100; SendFd 3 100; Print "Starting monitor for PID 100.";
          ClearChanges; QueueGet; Print "a.py changed; reloading ...";
          Print "Killing server with PID 100."; Terminate 100;
          Joined 100 (-15); ClearChanges].
Proof. split; vm_compute; reflexivity. Qed.

(** The worker ends by itself: it is joined, reported, and [_run_worker]
    returns [False]. *)
Lemma run_worker_on_exit :
  outcome_value (_run_worker (example_monitoring script_exit)) = Some false ∧
  trace <$> outcome_world (_run_worker (example_monitoring script_exit))
  = Some [Spawn 100; SendFd 3 100; Print "Starting monitor for PID 100.";
          ClearChanges; QueueGet; Joined 100 3;
          Print "Server with PID 100 exited with code 3."; ClearChanges].
Proof. split; vm_compute; reflexivity. Qed.

(** C2, counterexample: after a change the cycle yields both a recorded
    exit code and [terminated=True]. *)
Lemma run_worker_exit_code_and_terminated :
  ¬ exit_code_xor_terminated (_run_worker (example_monitoring script_change)).
Proof.
  destruct run_worker_on_change as [Hv Htr].
  destruct (_run_worker (example_monitoring script_change)) as [force w'| | |];
    simpl in *; try discriminate.
  injection Hv as ->. injection Htr as Htr.
  intros [_ H]. apply H. split; [|done].
  exists 100, (-15). rewrite Htr. do 8 right. by left.
Qed.

(** C4, counterexample: in a cycle in which the worker ends by itself
    [clear_changes()] is called twice, the first time after the start of
    the worker. *)
Lemma run_worker_clears_twice :
  ¬ clears_once (_run_worker (example_monitoring script_exit)).
Proof.
  destruct run_worker_on_exit as [Hv Htr].
  destruct (_run_worker (example_monitoring script_exit)) as [force w'| | |];
    simpl in *; try discriminate.
  injection Htr as Htr. rewrite Htr. vm_compute. discriminate.
Qed.

Lemma run_worker_outcome_witness :
  sat (_run_worker (example_monitoring script_change))
    (λ force w', ∃ tr c,
       trace w' = trace (example_monitoring script_change) ++ tr ∧
       Joined (next_pid (example_monitoring script_change)) c ∈ tr ∧
       (force = true ↔
        Terminate (next_pid (example_monitoring script_change)) ∈ tr))
    (λ e w', e = KeyboardInterrupt ∨
             (e = OSError ∧ (0 ∉ open_fds (example_monitoring script_change)) ∧
              trace w' = trace (example_monitoring script_change)))
    (λ w', script w' = []).
Proof.
  refine (run_worker_outcome (example_monitoring script_change) _).
  eexists. vm_compute. reflexivity.
Defined.

Lemma clear_changes_calls_witness :
  sat (run_cycle (example_monitoring script_wait))
    (λ _ w', ∃ tr c,
       trace w' = trace (example_monitoring script_wait) ++ tr ∧
       ((Terminate (next_pid (example_monitoring script_wait)) ∈ tr ∧
         clear_calls tr = 2%nat ∧ (WaitForChange ∉ tr) ∧
         lifecycle tr = [Spawn (next_pid (example_monitoring script_wait));
                         ClearChanges;
                         Joined (next_pid (example_monitoring script_wait)) c;
                         ClearChanges]) ∨
        ((Terminate (next_pid (example_monitoring script_wait)) ∉ tr) ∧
         clear_calls tr = 3%nat ∧ WaitForChange ∈ tr ∧
         lifecycle tr = [Spawn (next_pid (example_monitoring script_wait));
                         ClearChanges;
                         Joined (next_pid (example_monitoring script_wait)) c;
                         ClearChanges; ClearChanges])))
    (λ e _, e = KeyboardInterrupt ∨
            (e = OSError ∧ (0 ∉ open_fds (example_monitoring script_wait))))
    (λ w', script w' = []).
Proof.
  refine (proj2 (clear_changes_calls (example_monitoring script_wait) _)).
  eexists. vm_compute. reflexivity.
Defined.

(** The same turn, run: the worker ends by itself, so [terminate()] is
    not called, and [clear_changes()] is called three times, the third
    time after [wait_for_change]. *)
Lemma run_cycle_on_wait :
  outcome_value (run_cycle (example_monitoring script_wait)) = Some tt ∧
  trace <$> outcome_world (run_cycle (example_monitoring script_wait))
  = Some [Spawn 100; SendFd 3 100; Print "Starting monitor for PID 100.";
          ClearChanges; Joined 100 3;
          Print "Server with PID 100 exited with code 3."; ClearChanges;
          Print "Waiting for changes before reloading."; WaitForChange;
          Print "a.py changed; reloading ..."; ClearChanges;
          Sleep (Q2Qc (3 # 5))].
Proof. split; vm_compute; reflexivity. Qed.

(** A cycle cut short by Ctrl-C during the first poll of the queue: the
    worker is terminated and joined, and [clear_changes()] has been
    called once. *)
Lemma run_worker_on_interrupt :
  (match _run_worker (example_monitoring
                        [example_tick []; example_interrupt;
                         example_tick [WorkerExits 0]]) with
   | Raise e w' => Some (e, trace w')
   | _ => None
   end)
  = Some (KeyboardInterrupt,
          [Spawn 100; SendFd 3 100; Print "Starting monitor for PID 100.";
           ClearChanges; QueueGet; Print "Killing server with PID 100.";
           Terminate 100; Joined 100 0]).
Proof. vm_compute. reflexivity. Qed.

(** A whole session: [run] ends with [sys.exit(1)] after Ctrl-C, and
    [run_once] returns after the first cycle. *)
Lemma run_on_session :
  (match run (example_reloader script_session) with
   | Raise e _ => Some e
   | _ => None
   end) = Some (SystemExit 1) ∧
  lifecycle <$> (trace <$> outcome_world (run (example_reloader script_session)))
  = Some [Spawn 100; ClearChanges; Joined 100 3; ClearChanges; ClearChanges;
          Spawn 101; ClearChanges; Joined 101 0] ∧
  outcome_value (run_once (example_reloader script_session)) = Some tt ∧
  outcome_value
    (run_once (example_reloader [example_tick []; example_interrupt])) = None ∧
  outcome_value
    (run_once (example_reloader
                 [example_tick []; example_interrupt;
                  example_tick [WorkerExits 0]]))
  = Some tt.
Proof. split_and!; vm_compute; reflexivity. Qed.

(** With standard input closed [os.dup] fails in [Worker.start()]: [run]
    and [run_once] raise [OSError], having started nothing. *)
Lemma run_on_closed_stdin :
  (match run (example_closed_stdin script_exit) with
   | Raise e w' => Some (e, trace w')
   | _ => None
   end) = Some (OSError, []) ∧
  (match run_once (example_closed_stdin script_exit) with
   | Raise e w' => Some (e, trace w')
   | _ => None
   end) = Some (OSError, []).
Proof. split; vm_compute; reflexivity. Qed.

(** C5, counterexample: with standard input closed the loop of [run]
    ends, by [OSError] from [Worker.start()], and [run] does not end with
    [sys.exit(1)]: the exception goes on to the caller. *)
Lemma run_propagates_start_failure :
  ¬ exits_with_status_1 (run (example_closed_stdin script_exit)).
Proof.
  destruct run_on_closed_stdin as [Hrun _].
  destruct (run (example_closed_stdin script_exit)) as [|e w'| |];
    simpl in *; try discriminate.
  injection Hrun as -> _. discriminate.
Qed.

Lemma run_cycle_debounce_witness :
  run_cycle (example_monitoring script_wait)
  = time_sleep (Q2Qc (3 # 5))
      (world_after _wait_for_changes
         (world_after _run_worker (example_monitoring script_wait))).
Proof.
  assert (is_Some (monitor (example_monitoring script_wait))) as Hm
    by (eexists; vm_compute; reflexivity).
  assert (_run_worker (example_monitoring script_wait)
          = Ret false (world_after _run_worker
                         (example_monitoring script_wait))) as Hrun
    by (vm_compute; reflexivity).
  assert ((if negb false then _wait_for_changes else ret tt)
            (world_after _run_worker (example_monitoring script_wait))
          = Ret tt (world_after _wait_for_changes
                      (world_after _run_worker
                         (example_monitoring script_wait)))) as Hwait
    by (vm_compute; reflexivity).
  pose proof (run_cycle_debounce _ _ _ _ Hm Hrun Hwait) as Hdeb.
  cbv zeta in Hdeb. destruct Hdeb as [Hpos _].
  assert ((reload_interval (example_monitoring script_wait)
           - (clock (world_after _wait_for_changes
                       (world_after _run_worker
                          (example_monitoring script_wait)))
              - clock (example_monitoring script_wait)))%Qc
          = Q2Qc (3 # 5)) as Hd
    by (apply Qc_is_canon; vm_compute; reflexivity).
  rewrite Hd in Hpos.
  assert (0 < Q2Qc (3 # 5))%Qc as Hlt by (vm_compute; reflexivity).
  exact (proj1 (Hpos Hlt)).
Defined.

(** ** What a computation may add to the trace *)

Section only.
Context (Q : Action → Prop).

Lemma only_ret {A} (a : A) : only Q (ret a).
Proof.
  intros w w' [= <-]. exists []. split; [by rewrite app_nil_r|constructor].
Qed.

Lemma only_raise {A} e : only Q (raise (A:=A) e).
Proof.
  intros w w' [= <-]. exists []. split; [by rewrite app_nil_r|constructor].
Qed.

Lemma only_gets {A} (f : World → A) : only Q (gets f).
Proof.
  intros w w' [= <-]. exists []. split; [by rewrite app_nil_r|constructor].
Qed.

Lemma only_modify f : (∀ w, trace (f w) = trace w) → only Q (modify f).
Proof.
  intros Hf w w' [= <-]. exists [].
  split; [by rewrite Hf, app_nil_r|constructor].
Qed.

Lemma only_emit a : Q a → only Q (emit a).
Proof. intros Ha w w' [= <-]. exists [a]. split; [done|by constructor]. Qed.

Lemma only_print_lines lines :
  (∀ l, Q (Print l)) → only Q (print_lines lines).
Proof.
  intros HQ w w' [= <-]. eexists. split; [done|].
  apply Forall_fmap, Forall_forall. intros l _. apply HQ.
Qed.

Lemma only_bind {A B} (c : M A) (k : A → M B) :
  only Q c → (∀ a, only Q (k a)) → only Q (bind c k).
Proof.
  intros Hc Hk w w' Hw. unfold bind in Hw.
  destruct (c w) as [a w1|e w1|w1|] eqn:Hcw; simpl in Hw.
  - destruct (Hc w w1) as (tr1 & Htr1 & HQ1); [by rewrite Hcw|].
    destruct (Hk a w1 w' Hw) as (tr2 & Htr2 & HQ2).
    exists (tr1 ++ tr2). split; [|by apply Forall_app].
    by rewrite Htr2, Htr1, app_assoc.
  - apply (Hc w w'). by rewrite Hcw.
  - apply (Hc w w'). by rewrite Hcw.
  - done.
Qed.

Lemma only_try_finally {A} (body : M A) fin :
  only Q body → only Q fin → only Q (try_finally body fin).
Proof.
  intros Hb Hf w w' Hw. unfold try_finally in Hw.
  destruct (body w) as [a w1|e w1|w1|] eqn:Hbw; simpl in Hw.
  - destruct (Hb w w1) as (tr1 & Htr1 & HQ1); [by rewrite Hbw|].
    destruct (Hf w1 w') as (tr2 & Htr2 & HQ2); [by destruct (fin w1)|].
    exists (tr1 ++ tr2). split; [|by apply Forall_app].
    by rewrite Htr2, Htr1, app_assoc.
  - destruct (Hb w w1) as (tr1 & Htr1 & HQ1); [by rewrite Hbw|].
    destruct (Hf w1 w') as (tr2 & Htr2 & HQ2); [by destruct (fin w1)|].
    exists (tr1 ++ tr2). split; [|by apply Forall_app].
    by rewrite Htr2, Htr1, app_assoc.
  - apply (Hb w w'). by rewrite Hbw.
  - done.
Qed.

Lemma only_try_except {A} handled (body handler : M A) :
  only Q body → only Q handler → only Q (try_except handled body handler).
Proof.
  intros Hb Hh w w' Hw. unfold try_except in Hw.
  destruct (body w) as [a w1|e w1|w1|] eqn:Hbw; simpl in Hw.
  - apply (Hb w w'). by rewrite Hbw.
  - destruct (handled e).
    + destruct (Hb w w1) as (tr1 & Htr1 & HQ1); [by rewrite Hbw|].
      destruct (Hh w1 w' Hw) as (tr2 & Htr2 & HQ2).
      exists (tr1 ++ tr2). split; [|by apply Forall_app].
      by rewrite Htr2, Htr1, app_assoc.
    + apply (Hb w w'). by rewrite Hbw.
  - apply (Hb w w'). by rewrite Hbw.
  - done.
Qed.

Lemma only_the_worker : only Q the_worker.
Proof.
  intros w w' Hw. unfold the_worker in Hw.
  exists []. rewrite app_nil_r. split; [|constructor].
  destruct (worker w); by injection Hw as <-.
Qed.

Lemma only_the_monitor : only Q the_monitor.
Proof.
  intros w w' Hw. unfold the_monitor in Hw.
  exists []. rewrite app_nil_r. split; [|constructor].
  destruct (monitor w); by injection Hw as <-.
Qed.

Lemma only_the_process : only Q the_process.
Proof.
  apply only_bind; [apply only_the_worker|].
  intros k. destruct (process k); [apply only_ret|apply only_raise].
Qed.

Lemma only_update_worker f : only Q (update_worker f).
Proof.
  apply only_bind; [apply only_the_worker|]. intros k. by apply only_modify.
Qed.

Lemma only_update_monitor f : only Q (update_monitor f).
Proof.
  apply only_bind; [apply only_the_monitor|]. intros m. by apply only_modify.
Qed.

Lemma only_child_does f : only Q (child_does f).
Proof.
  intros w w' Hw. unfold child_does in Hw.
  exists []. rewrite app_nil_r. split; [|constructor].
  destruct (worker w) as [k|]; [|by injection Hw as <-].
  destruct (process k) as [[? []]|]; by injection Hw as <-.
Qed.

Hypothesis Q_print : ∀ l, Q (Print l).
Hypothesis Q_terminate : ∀ p, Q (Terminate p).

Lemma only_Reloader_out msg : only Q (Reloader_out msg).
Proof.
  apply only_bind; [apply only_gets|]. intros v. by apply only_print_lines.
Qed.

Lemma only_Worker_terminate : only Q Worker_terminate.
Proof.
  apply only_bind; [apply only_update_worker|]. intros _.
  apply only_bind; [apply only_the_process|]. intros p. by apply only_emit.
Qed.

Lemma only_deliver e : only Q (deliver e).
Proof.
  destruct e as [paths|code| |path|]; simpl;
    try apply only_child_does.
  - intros w w' Hw. destruct (monitor w) as [m|].
    + injection Hw as <-. eexists. split; [done|].
      apply Forall_fmap, Forall_forall. intros l _. apply Q_print.
    + injection Hw as <-. exists []. by rewrite app_nil_r.
  - apply only_bind; [apply only_gets|]. intros [|]; [|apply only_ret].
    apply only_bind; [apply only_gets|]. intros [k|]; [|apply only_ret].
    apply only_bind; [apply only_Reloader_out|]. intros _.
    apply only_Worker_terminate.
Qed.

Lemma only_deliver_all es : only Q (deliver_all es).
Proof.
  induction es as [|e es IH]; simpl; [apply only_ret|].
  apply only_bind; [apply only_deliver|]. by intros _.
Qed.

Lemma only_block_for timeout : only Q (block_for timeout).
Proof.
  intros w w' Hw. unfold block_for in Hw.
  destruct (script w) as [|t rest].
  { injection Hw as <-. exists []. by rewrite app_nil_r. }
  match type of Hw with outcome_world (?c ?w0) = _ =>
    destruct (only_bind (deliver_all (tick_events t))
                (λ _, if tick_interrupt t then raise KeyboardInterrupt
                      else ret tt)
                (only_deliver_all _)
                (λ _, ltac:(destruct (tick_interrupt t);
                            [apply only_raise|apply only_ret]))
                w0 w' Hw) as (tr & Htr & HQ) end.
  by exists tr.
Qed.

Lemma only_block : only Q block.
Proof. apply only_block_for. Qed.

Lemma only_Process_join_loop n timeout :
  only Q (Process_join_loop n timeout).
Proof.
  revert timeout. induction n as [|n IH]; intros timeout; simpl.
  { by intros w w' Hw. }
  apply only_bind; [apply only_the_process|]. intros p.
  destruct (proc_state p); [|apply only_ret].
  destruct (timed_out timeout); [apply only_ret|].
  apply only_bind; [apply only_gets|]. intros t0.
  apply only_bind; [apply only_block|]. intros _.
  apply only_bind; [apply only_gets|]. intros t1. apply IH.
Qed.

Lemma only_with_fuel {A} (loop : nat → M A) :
  (∀ n, only Q (loop n)) → only Q (with_fuel loop).
Proof. intros H w w'. apply H. Qed.

Lemma only_os_close fd : only Q (os_close fd).
Proof.
  apply only_bind; [apply only_gets|]. intros fds.
  case_decide; [by apply only_modify|apply only_raise].
Qed.

Hypothesis Q_joined : ∀ p c, Q (Joined p c).

Lemma only_Worker_join timeout : only Q (Worker_join timeout).
Proof.
  apply only_bind.
  { apply only_with_fuel. intros n. apply only_Process_join_loop. }
  intros _. apply only_bind; [apply only_the_process|]. intros p.
  destruct (proc_state p); [apply only_ret|].
  apply only_bind; [apply only_update_worker|]. intros _.
  apply only_bind; [by apply only_emit|]. intros _.
  apply only_bind; [apply only_the_worker|]. intros k.
  apply only_bind.
  { destruct (stdin_fd k); [|apply only_ret].
    apply only_try_finally; [|apply only_update_worker].
    apply only_try_except; [apply only_os_close|apply only_ret]. }
  intros _. apply only_bind; [apply only_the_worker|]. intros k'.
  destruct (pipe k'); [apply only_update_worker|apply only_ret].
Qed.

Lemma only_Worker_is_alive : only Q Worker_is_alive.
Proof.
  apply only_bind; [apply only_the_worker|]. intros k.
  destruct (process k) as [[? []]|]; apply only_ret.
Qed.

Lemma only_reap_worker : only Q reap_worker.
Proof.
  apply only_bind; [apply only_Worker_is_alive|]. intros [|].
  - apply only_bind; [apply only_the_worker|]. intros k.
    apply only_bind; [apply only_Reloader_out|]. intros _.
    apply only_bind; [apply only_Worker_terminate|]. intros _.
    apply only_Worker_join.
  - apply only_bind; [apply only_Worker_join|]. intros _.
    apply only_bind; [apply only_the_worker|]. intros k.
    destruct (exitcode k); [apply only_Reloader_out|apply only_raise].
Qed.
End only.

(** ** A reload asked for by the worker *)

Section reload.
Implicit Types (w : World) (k : Worker) (p : Z) (tr : list Action)
  (t : Tick).

Lemma block_for_eq timeout w t rest w1 :
  script w = t :: rest → tick_interrupt t = false →
  deliver_all (tick_events t)
    (set_clock (clock w + call_time timeout t)%Qc (set_script rest w))
  = Ret tt w1 →
  block_for timeout w = Ret tt w1.
Proof.
  intros Hsc Hint Hd. unfold block_for. rewrite Hsc.
  rewrite (bind_Ret _ _ _ _ _ Hd). by rewrite Hint.
Qed.

(** A timeout that is not negative bounds the time of the call. *)
Lemma call_time_le d t :
  (0 ≤ d)%Qc → (call_time (Some d) t ≤ d)%Qc.
Proof.
  intros Hd. unfold call_time. cbv zeta.
  rewrite (bool_decide_true (0 ≤ d)%Qc) by done.
  case_bool_decide; [done|]. apply Qcle_refl.
Qed.

(** Paths reported by the child only grow the queue. *)
Lemma deliver_all_quiet p es w :
  Forall (λ e, ∃ path, e = WorkerWatchFile path) es → fresh p w →
  ∃ w', deliver_all es w = Ret tt w' ∧ fresh p w' ∧
        monitor w' = monitor w ∧
        trace w' = trace w ∧ script w' = script w ∧
        reload_interval w' = reload_interval w ∧ clock w' = clock w.
Proof.
  intros Hes. revert w. induction Hes as [|e es [path ->] _ IH]; intros w Hp.
  { by exists w. }
  destruct Hp as (k & Hk & Hpr & Hpipe).
  simpl. unfold child_does at 1. unfold bind at 1. rewrite Hk, Hpr.
  destruct (IH (set_worker (Some (child_watches path k)) w))
    as (w' & Hd & Hp' & Hm & Htr & Hsc & Hint & Hcl).
  { exists (child_watches path k). by split_and!. }
  exists w'. by split_and!.
Qed.

(** A tick of reported paths: the loop polls once and goes on. *)
Lemma monitor_loop_quiet_tick p n w t rest :
  polling p w → script w = t :: rest → quiet_tick t →
  ∃ w1, monitor_loop (S n) w = monitor_loop n w1 ∧ polling p w1 ∧
        script w1 = rest ∧ trace w1 = trace w ++ [QueueGet] ∧
        reload_interval w1 = reload_interval w ∧
        clock w1 = (clock w + call_time (Some (reload_interval w)) t)%Qc.
Proof.
  intros (m & k & Hm & Hch & Hk & Hpr & Hpipe) Hsc [Hint Hes].
  cbn [monitor_loop].
  rewrite (bind_Ret _ _ _ _ _ (the_monitor_eq _ _ Hm)).
  unfold is_changed. rewrite Hch.
  rewrite (bind_Ret _ _ _ _ _ (Worker_is_alive_eq _ _ _ Hk Hpr)). simpl.
  rewrite (bind_Ret _ _ _ _ _ (pipe_poll_eq _ _ _ Hk Hpipe)). simpl.
  unfold gets at 1, bind at 1. unfold files_queue_get.
  rewrite !bind_assoc. rewrite (bind_Ret _ _ _ _ _ (emit_eq _ _)).
  set (w0 := set_trace _ w).
  destruct (deliver_all_quiet p (tick_events t)
              (set_clock (clock w0 + call_time (Some (reload_interval w)) t)%Qc
                 (set_script rest w0)))
    as (w1 & Hd & (k1 & Hk1 & Hpr1 & Hpipe1) & Hm1 & Htr1 & Hsc1 & Hint1 &
        Hcl1); [done|by exists k|].
  cbn [monitor trace script reload_interval clock set_clock set_script
       set_trace w0] in Hm1, Htr1, Hsc1, Hint1, Hcl1.
  rewrite !bind_assoc.
  rewrite (bind_Ret _ _ _ _ _ (block_for_eq _ w0 t rest w1 Hsc Hint Hd)).
  cbv beta. rewrite ?bind_assoc.
  rewrite (bind_Ret _ _ _ _ _ (the_worker_eq _ _ Hk1)).
  destruct (files_queue k1) as [|path q].
  - exists w1. split; [done|]. split_and!; try done.
    exists m, k1. split_and!; try done. congruence.
  - rewrite !bind_assoc.
    rewrite (bind_Ret _ _ _ _ _ (update_worker_eq _ _ _ Hk1)).
    cbv beta. unfold ret at 1, bind at 1.
    set (w2 := set_worker _ w1).
    assert (monitor w2 = Some m) as Hm2 by (simpl; congruence).
    rewrite (bind_Ret _ _ _ _ _ (update_monitor_eq _ _ m Hm2)).
    eexists. split; [done|]. split_and!; try done.
    by eexists _, _.
Qed.

(** Whatever else happens, a child that does not end still runs, and the
    bytes it wrote stay in the pipe. *)
Lemma deliver_running p n e w :
  (∀ code, e ≠ WorkerExits code) → running p n w →
  ∃ w', deliver e w = Ret tt w' ∧
        running p (if e is WorkerTriggerReload then S n else n) w' ∧
        script w' = script w ∧ clock w' = clock w ∧
        (is_Some (monitor w) → is_Some (monitor w')).
Proof.
  intros Hne (k & c & Hk & Hpr & Hpipe & Hn).
  destruct e as [paths|code| |path|]; simpl.
  - destruct (monitor w) as [m|]; eexists; split_and!; try done.
    + by exists k, c.
    + by exists k, c.
  - by destruct (Hne code).
  - unfold child_does. rewrite Hk, Hpr. eexists. split_and!; try done.
    eexists _, _. unfold child_triggers_reload. simpl.
    rewrite Hpipe. split_and!; try done. simpl. lia.
  - unfold child_does. rewrite Hk, Hpr. eexists. split_and!; try done.
    by exists (child_watches path k), c.
  - unfold bind, gets. destruct (sighup_handler w).
    2:{ exists w. split_and!; try done. by exists k, c. }
    unfold _signal_sighup, bind, gets. rewrite Hk.
    unfold Reloader_out, Worker_terminate, bind, gets, print_lines, modify,
      update_worker, the_process, the_worker, bind, emit, modify, ret, bind.
    simpl. rewrite Hk. simpl. rewrite Hpr. simpl.
    eexists. split_and!; try done.
    eexists _, c. split_and!; try done.
Qed.

Lemma deliver_all_running p n es w :
  (∀ code, WorkerExits code ∉ es) → running p n w →
  ∃ w', deliver_all es w = Ret tt w' ∧
        running p (if bool_decide (WorkerTriggerReload ∈ es) then S n else n)
          w' ∧
        script w' = script w ∧ clock w' = clock w ∧
        (is_Some (monitor w) → is_Some (monitor w')).
Proof.
  revert n w. induction es as [|e es IH]; intros n w Hne Hr.
  { exists w. by split_and!. }
  destruct (deliver_running p n e w) as (w1 & He & Hr1 & Hsc1 & Hcl1 & Hm1);
    [|done|].
  { intros code ->. apply (Hne code). by left. }
  destruct (IH (if e is WorkerTriggerReload then S n else n) w1)
    as (w2 & Hes & Hr2 & Hsc2 & Hcl2 & Hm2); [|done|].
  { intros code Hin. apply (Hne code). by right. }
  exists w2. simpl. rewrite (bind_Ret _ _ _ _ _ He).
  split_and!; [done| |congruence|congruence|tauto].
  destruct Hr2 as (k & c & Hk & Hpr & Hpipe & Hn).
  exists k, c. split_and!; try done.
  repeat case_bool_decide; destruct e; try lia;
    try (exfalso; set_solver).
Qed.
End reload.

Section reload_cycle.
Implicit Types (w : World) (k : Worker) (p : Z) (tr : list Action)
  (t : Tick).

Lemma polls_app tr1 tr2 : polls (tr1 ++ tr2) = (polls tr1 + polls tr2)%nat.
Proof. unfold polls. by rewrite List.filter_app, length_app. Qed.

Lemma polls_unpolled tr : Forall unpolled tr → polls tr = 0%nat.
Proof.
  induction 1 as [|a tr Ha _ IH]; [done|].
  unfold polls in *. by destruct a.
Qed.

Lemma polls_print (lines : list string) : polls (Print <$> lines) = 0%nat.
Proof. apply polls_unpolled, Forall_fmap, Forall_forall. by intros. Qed.

(** With a byte in the pipe the loop ends at its first [pipe.poll(0)],
    if not before: it does not poll the queue and takes no time. *)
Lemma monitor_loop_pending p n w :
  running p 1 w → is_Some (monitor w) → monitor_loop (S n) w = Ret tt w.
Proof.
  intros (k & c & Hk & Hpr & Hpipe & Hn) [m Hm]. cbn [monitor_loop].
  rewrite (bind_Ret _ _ _ _ _ (the_monitor_eq _ _ Hm)).
  destruct (is_changed m); [done|].
  rewrite (bind_Ret _ _ _ _ _ (Worker_is_alive_eq _ _ _ Hk Hpr)). simpl.
  rewrite (bind_Ret _ _ _ _ _ (pipe_poll_eq _ _ _ Hk Hpipe)).
  rewrite bool_decide_true by lia. done.
Qed.

(** The tick in which the child asks for a reload: the loop polls once
    and ends when the poll returns, with the child still running. *)
Lemma monitor_loop_reload_tick p n w t rest :
  polling p w → script w = t :: rest → reload_tick t →
  ∃ w1 tr, monitor_loop (S (S n)) w = Ret tt w1 ∧ running p 1 w1 ∧
           script w1 = rest ∧ trace w1 = trace w ++ QueueGet :: tr ∧
           polls tr = 0%nat ∧ is_Some (monitor w1) ∧
           clock w1
           = (clock w + call_time (Some (reload_interval w)) t)%Qc.
Proof.
  intros (m & k & Hm & Hch & Hk & Hpr & Hpipe) Hsc (Hint & Htrig & Hne).
  cbn [monitor_loop].
  rewrite (bind_Ret _ _ _ _ _ (the_monitor_eq _ _ Hm)).
  unfold is_changed at 1. rewrite Hch.
  rewrite (bind_Ret _ _ _ _ _ (Worker_is_alive_eq _ _ _ Hk Hpr)). simpl.
  rewrite (bind_Ret _ _ _ _ _ (pipe_poll_eq _ _ _ Hk Hpipe)). simpl.
  unfold gets at 1, bind at 1. unfold files_queue_get.
  rewrite !bind_assoc. rewrite (bind_Ret _ _ _ _ _ (emit_eq _ _)).
  set (w0 := set_trace _ w).
  set (w0' := set_clock (clock w0 + call_time (Some (reload_interval w)) t)%Qc
                (set_script rest w0)).
  destruct (deliver_all_running p 0 (tick_events t) w0')
    as (w1 & Hd & Hr1 & Hsc1 & Hcl1 & Hm1);
    [done|by exists k, (mkConnection 0 false)|].
  rewrite bool_decide_true in Hr1 by done.
  destruct (only_deliver_all unpolled (λ _, I) (λ _, I) (tick_events t)
              w0' w1) as (tr & Htr & Hun); [by rewrite Hd|].
  rewrite !bind_assoc.
  rewrite (bind_Ret _ _ _ _ _ (block_for_eq _ w0 t rest w1 Hsc Hint Hd)).
  cbv beta. rewrite ?bind_assoc.
  pose proof Hr1 as (k1 & c1 & Hk1 & Hpr1 & Hpipe1 & Hn1).
  destruct (Hm1 (ex_intro _ m Hm)) as [m1 Hmon1].
  rewrite (bind_Ret _ _ _ _ _ (the_worker_eq _ _ Hk1)).
  destruct (files_queue k1) as [|path q].
  - unfold ret at 1, bind at 1. unfold ret at 1, bind at 1.
    exists w1, tr. split_and!.
    + apply (monitor_loop_pending p); [done|by eexists].
    + done.
    + done.
    + rewrite Htr. simpl. by rewrite <-app_assoc.
    + by apply polls_unpolled.
    + by eexists.
    + done.
  - rewrite !bind_assoc.
    rewrite (bind_Ret _ _ _ _ _ (update_worker_eq _ _ _ Hk1)).
    cbv beta. unfold ret at 1, bind at 1.
    set (w2 := set_worker _ w1).
    assert (monitor w2 = Some m1) as Hm2 by done.
    rewrite (bind_Ret _ _ _ _ _ (update_monitor_eq _ _ m1 Hm2)).
    assert (running p 1 (set_monitor (Some (add_path path m1)) w2)) as Hr2
      by by exists (set_files_queue q k1), c1.
    eexists _, tr. split_and!.
    + apply (monitor_loop_pending p); [done|by eexists].
    + done.
    + done.
    + simpl. rewrite Htr. simpl. by rewrite <-app_assoc.
    + by apply polls_unpolled.
    + by eexists.
    + done.
Qed.

(** Ticks of reported paths, then the tick of the reload: the loop polls
    once per tick and ends with the last one. *)
Lemma monitor_loop_reload p pre n w t rest :
  polling p w → script w = pre ++ t :: rest →
  Forall quiet_tick pre → reload_tick t →
  (length pre + 2 ≤ n)%nat →
  ∃ w1 tr, monitor_loop n w = Ret tt w1 ∧ running p 1 w1 ∧
           script w1 = rest ∧ trace w1 = trace w ++ tr ∧
           polls tr = S (length pre) ∧ is_Some (monitor w1) ∧
           clock w1
           = (clock w + (polls_time (reload_interval w) pre
                         + call_time (Some (reload_interval w)) t))%Qc.
Proof.
  revert n w. induction pre as [|t0 pre IH]; intros n w Hp Hsc Hq Ht Hn.
  - destruct n as [|[|n]]; [simpl in Hn; lia..|].
    destruct (monitor_loop_reload_tick p n w t rest Hp Hsc Ht)
      as (w1 & tr & Hl & Hr & Hsc1 & Htr & Hpolls & Hm1 & Hcl1).
    exists w1, (QueueGet :: tr). split_and!; try done.
    + change (QueueGet :: tr) with ([QueueGet] ++ tr).
      by rewrite polls_app, Hpolls.
    + rewrite Hcl1. simpl. ring.
  - destruct n as [|n]; [simpl in Hn; lia|].
    apply Forall_cons in Hq as [Hq0 Hq].
    destruct (monitor_loop_quiet_tick p n w t0 (pre ++ t :: rest) Hp Hsc Hq0)
      as (w1 & Hl & Hp1 & Hsc1 & Htr1 & Hint1 & Hcl1).
    destruct (IH n w1 Hp1 Hsc1 Hq Ht)
      as (w2 & tr & Hl2 & Hr & Hsc2 & Htr2 & Hpolls & Hm2 & Hcl2);
      [simpl in Hn; lia|].
    exists w2, ([QueueGet] ++ tr). split_and!; try done.
    + by rewrite Hl.
    + by rewrite Htr2, Htr1, <-app_assoc.
    + rewrite polls_app, Hpolls. done.
    + rewrite Hcl2, Hcl1, Hint1. simpl. ring.
Qed.

(** [Worker.start] when its tick is not cut short: [w0] is the world in
    which the tick begins, [w4] the one in which it ends. *)
Lemma Worker_start_tick w path t rest :
  worker w = Some (Worker_init path) → 0 ∈ open_fds w →
  script w = t :: rest → tick_interrupt t = false →
  ∃ w0 w4 k4 tr0 fd,
    fresh (next_pid w) w0 ∧ monitor w0 = monitor w ∧
    script w0 = rest ∧ trace w0 = trace w ++ [Spawn (next_pid w)] ∧
    reload_interval w0 = reload_interval w ∧
    clock w0 = (clock w + tick_elapsed t)%Qc ∧
    deliver_all (tick_events t) w0 = Ret tt w4 ∧
    during (next_pid w) tr0 w0 w4 ∧ Forall unpolled tr0 ∧
    worker w4 = Some k4 ∧
    Worker_start w
    = Ret tt (set_trace (trace w4 ++ [SendFd fd (next_pid w)])
                (set_worker (Some (set_pid (Some (next_pid w)) k4)) w4)).
Proof.
  intros Hk H0 Hsc Hint. set (p := next_pid w). unfold Worker_start.
  rewrite (bind_Ret _ _ _ _ _ (os_dup_eq 0 w H0)).
  set (fd := lowest_free (open_fds w)).
  set (w1 := set_open_fds _ w).
  rewrite (bind_Ret _ _ _ _ _ (update_worker_eq _ w1 _ Hk)).
  set (k1 := set_stdin_fd (Some fd) (Worker_init path)).
  set (w2 := set_worker (Some k1) w1).
  rewrite (bind_eq _ _ _ _ _ (Process_start_eq w2 k1 eq_refl)).
  set (k2 := set_process _ k1). set (w3 := set_trace _ _).
  set (w0 := set_clock (clock w3 + call_time None t)%Qc (set_script rest w3)).
  assert (slot_ok p w0) as Hs0.
  { intros k Hk0. injection Hk0 as <-. by exists Running. }
  destruct (deliver_all_spec p (tick_events t) w0 Hs0)
    as (tr0 & w4 & Hd & Hdur & _ & _).
  destruct (only_deliver_all unpolled (λ _, I) (λ _, I) (tick_events t)
              w0 w4) as (tr0' & Htr0' & Hun); [by rewrite Hd|].
  assert (tr0' = tr0) as ->.
  { rewrite (d_trace _ _ _ _ Hdur) in Htr0'. by apply app_inv_head in Htr0'. }
  destruct (d_worker _ _ _ _ Hdur k2 eq_refl (Hs0 k2 eq_refl))
    as (k4 & Hk4 & He).
  destruct (we_attached _ _ _ _ He) as [st Hp4].
  exists w0, w4, k4, tr0, fd. split_and!; try done.
  { by exists k2. }
  unfold block.
  rewrite (bind_Ret _ _ _ _ _ (block_for_eq None w3 t rest w4 Hsc Hint Hd)).
  rewrite (bind_Ret _ _ _ _ _ (the_process_eq _ _ _ Hk4 Hp4)).
  rewrite (bind_Ret _ _ _ _ _ (update_worker_eq _ _ _ Hk4)).
  unfold the_worker at 1, bind at 1. simpl.
  by rewrite (we_stdin _ _ _ _ He).
Qed.

Lemma cycle_tail_eq w1 w2 :
  (let* k := the_worker in
   modify (λ w, set_group (group w ++ [pid k]) w) >>
   Reloader_out ("Starting monitor for PID " +:+ str_of_pid (pid k) +:+ ".") >>
   monitor_clear_changes) w1 = Ret tt w2 →
  (try_finally
     (let* k := the_worker in
      modify (λ w, set_group (group w ++ [pid k]) w) >>
      Reloader_out ("Starting monitor for PID " +:+ str_of_pid (pid k)
                    +:+ ".") >>
      monitor_clear_changes >>
      with_fuel monitor_loop)
     reap_worker >>
   monitor_clear_changes >>
   let* k := the_worker in
   let force_exit := terminated k in
   modify (set_worker None) >>
   ret force_exit) w1
  = cycle_tail w2.
Proof.
  intros Hhead. unfold cycle_tail, bind at 1.
  rewrite (try_finally_head _ _ Hhead). done.
Qed.

(** [_run_worker] up to its loop, when the tick of [Worker.start()] is
    not cut short: [w0] is the world in which that tick begins, [w4] the
    one in which it ends, and [w2] the one in which the loop is entered. *)
Lemma _run_worker_unfold w m t rest :
  monitor w = Some m → 0 ∈ open_fds w →
  script w = t :: rest → tick_interrupt t = false →
  ∃ w0 w4 w2 k4 tr0 fd l1,
    fresh (next_pid w) w0 ∧ script w0 = rest ∧
    reload_interval w0 = reload_interval w ∧
    clock w0 = (clock w + tick_elapsed t)%Qc ∧
    deliver_all (tick_events t) w0 = Ret tt w4 ∧
    trace w0 = trace w ++ [Spawn (next_pid w)] ∧
    trace w4 = trace w ++ Spawn (next_pid w) :: tr0 ∧
    worker w4 = Some k4 ∧ is_Some (monitor w4) ∧
    _run_worker w = cycle_tail w2 ∧
    worker w2 = Some (set_pid (Some (next_pid w)) k4) ∧
    (∃ m2, monitor w2 = Some m2 ∧ change_event m2 = false) ∧
    script w2 = script w4 ∧ clock w2 = clock w4 ∧
    reload_interval w2 = reload_interval w4 ∧
    trace w2 = trace w ++ Spawn (next_pid w) :: tr0
                 ++ SendFd fd (next_pid w) :: (Print <$> l1)
                 ++ [ClearChanges] ∧
    Forall unpolled tr0.
Proof.
  intros Hm H0 Hsc Hint. unfold _run_worker.
  unfold gets at 1, bind at 1. unfold modify at 1, bind at 1.
  set (p := next_pid w).
  set (wi := set_worker _ w).
  destruct (Worker_start_tick wi (reloader_worker_path w) t rest
              eq_refl H0 Hsc Hint)
    as (w0 & w4 & k4 & tr0 & fd & Hfresh & Hm0 & Hsc0 & Htr0 & Hint0 & Hcl0 &
        Hd & Hdur & Hun & Hk4 & Hstart).
  change (next_pid wi) with p in *.
  rewrite (bind_Ret _ _ _ _ _ Hstart).
  set (w1 := set_trace _ _) in *.
  assert (is_Some (monitor w4)) as [m4 Hm4].
  { apply (d_monitor _ _ _ _ Hdur). rewrite Hm0. by eexists. }
  destruct (cycle_head_spec p w1 (set_pid (Some p) k4) m4 eq_refl Hm4)
    as (w2 & l1 & Hhead & Htr2 & Hcfg2 & Hm2 & Hsc2 & _ & Hcl2 & Hk2 & _).
  exists w0, w4, w2, k4, tr0, fd, l1. split_and!; try done.
  - rewrite (d_trace _ _ _ _ Hdur), Htr0. by rewrite <-app_assoc.
  - apply (cycle_tail_eq _ _ Hhead).
  - by eexists.
  - by destruct Hcfg2.
  - rewrite Htr2. simpl. rewrite (d_trace _ _ _ _ Hdur), Htr0.
    rewrite <-!app_assoc. simpl. by rewrite <-?app_assoc.
Qed.
End reload_cycle.

(** C3, as the code has it: the worker, still alive, calls
    [trigger_reload()], after any number of blocking calls of the
    supervisor during which it only reported paths.  The loop of
    [_run_worker] ends with the blocking call during which the byte was
    written.  When that call is [Worker.start()] the loop ends at its
    first [pipe.poll(0)], without a poll of the queue; otherwise it is a
    poll of the queue, which lasts no longer than [reload_interval], and
    the loop ends when this poll returns.  The supervisor then terminates
    the worker, so that the terminated flag is TRUE; and, the flag being
    true, the turn of [run] ends without a call of [wait_for_change] and
    the next turn starts the next worker. *)
Theorem trigger_reload_restarts w pre t rest :
  is_Some (monitor w) → 0 ∈ open_fds w →
  script w = pre ++ t :: rest →
  Forall quiet_tick pre → reload_tick t →
  (∃ w1 w2 tr,
     _run_worker w = cycle_tail w1 ∧
     with_fuel monitor_loop w1 = Ret tt w2 ∧
     running (next_pid w) 1 w2 ∧ script w2 = rest ∧
     trace w2 = trace w1 ++ tr ∧ polls tr = length pre ∧
     match pre with
     | [] => w2 = w1
     | _ :: pre' =>
         clock w2
         = (clock w1 + (polls_time (reload_interval w) pre'
                        + call_time (Some (reload_interval w)) t))%Qc ∧
         ((0 ≤ reload_interval w)%Qc →
          (call_time (Some (reload_interval w)) t ≤ reload_interval w)%Qc)
     end) ∧
  sat (_run_worker w)
    (λ force w', force = true ∧
       ∃ tr, trace w' = trace w ++ tr ∧ polls tr = length pre ∧
             Terminate (next_pid w) ∈ tr)
    (λ e _, e = KeyboardInterrupt)
    (λ w', script w' = []) ∧
  sat (run_cycle w)
    (λ _ w', ∃ tr c,
       trace w' = trace w ++ tr ∧ (WaitForChange ∉ tr) ∧
       lifecycle tr = [Spawn (next_pid w); ClearChanges;
                       Joined (next_pid w) c; ClearChanges])
    (λ e _, e = KeyboardInterrupt)
    (λ w', script w' = []) ∧
  ∀ w', run_cycle w = Ret tt w' →
    sat (run_cycle w')
      (λ _ w'', ∃ tr, trace w'' = trace w' ++ tr ∧
                      started (next_pid w + 1) tr)
      (λ e w'', e = KeyboardInterrupt ∧
                ∃ tr, trace w'' = trace w' ++ tr ∧
                      started (next_pid w + 1) tr)
      (λ w'', script w'' = [] ∧
              ∃ tr, trace w'' = trace w' ++ tr ∧
                    started (next_pid w + 1) tr).
Proof.
  intros Hmon H0 Hsc Hq Ht. set (p := next_pid w).
  assert (∃ w1 w2 tr tr1,
     _run_worker w = cycle_tail w1 ∧
     with_fuel monitor_loop w1 = Ret tt w2 ∧
     running p 1 w2 ∧ script w2 = rest ∧
     trace w2 = trace w1 ++ tr ∧ polls tr = length pre ∧
     match pre with
     | [] => w2 = w1
     | _ :: pre' =>
         clock w2
         = (clock w1 + (polls_time (reload_interval w) pre'
                        + call_time (Some (reload_interval w)) t))%Qc ∧
         ((0 ≤ reload_interval w)%Qc →
          (call_time (Some (reload_interval w)) t ≤ reload_interval w)%Qc)
     end ∧
     trace w1 = trace w ++ tr1 ∧ polls tr1 = 0%nat ∧
     is_Some (monitor w2)) as Hloop.
  { destruct Hmon as [m Hm]. pose proof Ht as (Hint & Htrig & Hne).
    assert (∀ tr0 fd l1, Forall unpolled tr0 →
              polls (Spawn p :: tr0 ++ SendFd fd p :: (Print <$> l1)
                     ++ [ClearChanges]) = 0%nat) as Hhead.
    { intros tr0 fd l1 Hun.
      change (Spawn p :: ?l) with ([Spawn p] ++ l).
      change (SendFd fd p :: ?l) with ([SendFd fd p] ++ l).
      by rewrite !polls_app, polls_print, (polls_unpolled _ Hun). }
    destruct pre as [|t0 pre'].
    - destruct (_run_worker_unfold w m t rest Hm H0 Hsc Hint)
        as (w0 & w4 & w2 & k4 & tr0 & fd & l1 & (k0 & Hk0 & Hpr0 & Hpipe0) &
            Hsc0 & _ & _ & Hd & _ & _ & Hk4 & _ & Hrun & Hk2 &
            (m2 & Hm2 & _) & Hsc2 & _ & _ & Htr2 & Hun).
      destruct (deliver_all_running p 0 (tick_events t) w0)
        as (w4' & Hd' & Hr4 & Hsc4 & _ & _);
        [done|by exists k0, (mkConnection 0 false)|].
      rewrite Hd in Hd'. injection Hd' as <-.
      rewrite bool_decide_true in Hr4 by done.
      destruct Hr4 as (k4' & c4 & Hk4' & Hpr4 & Hpipe4 & Hn4).
      rewrite Hk4 in Hk4'. injection Hk4' as <-.
      assert (running p 1 w2) as Hr2.
      { exists (set_pid (Some p) k4), c4. by split_and!. }
      eexists w2, w2, [], _. split_and!; try done.
      + unfold with_fuel. apply (monitor_loop_pending p); [done|by eexists].
      + congruence.
      + by rewrite app_nil_r.
      + by apply Hhead.
    - apply Forall_cons in Hq as [[Hint0 Hq0] Hq].
      destruct (_run_worker_unfold w m t0 (pre' ++ t :: rest) Hm H0 Hsc Hint0)
        as (w0 & w4 & w2 & k4 & tr0 & fd & l1 & Hfresh & Hsc0 & Hi0 & _ & Hd &
            _ & _ & Hk4 & _ & Hrun & Hk2 & (m2 & Hm2 & Hch2) & Hsc2 & _ & Hi2 &
            Htr2 & Hun).
      destruct (deliver_all_quiet p (tick_events t0) w0 Hq0 Hfresh)
        as (w4' & Hd' & (k4' & Hk4' & Hpr4 & Hpipe4) & _ & _ & Hsc4 & Hi4 & _).
      rewrite Hd in Hd'. injection Hd' as <-.
      rewrite Hk4 in Hk4'. injection Hk4' as <-.
      assert (polling p w2) as Hp2.
      { exists m2, (set_pid (Some p) k4). by split_and!. }
      assert (script w2 = pre' ++ t :: rest) as Hsc2' by congruence.
      assert (reload_interval w2 = reload_interval w) as Hi2' by congruence.
      destruct (monitor_loop_reload p pre' (S (length (script w2))) w2 t rest)
        as (w3 & trl & Hloop & Hr3 & Hsc3 & Htr3 & Hpolls & Hm3 & Hcl3);
        [done|done|done|done|..].
      { rewrite Hsc2', length_app. simpl. lia. }
      eexists w2, w3, trl, _. split_and!; try done.
      + by rewrite <-Hi2'.
      + by apply call_time_le.
      + by apply Hhead. }
  destruct Hloop as (w1 & w2 & trl & tr1 & Hrun & Hloop & Hr2 & Hsc2 & Htr2 &
                     Hpolls & Htime & Htr1 & Hpolls1 & Hm2).
  assert (sat (_run_worker w)
    (λ force w', force = true ∧
       ∃ tr, trace w' = trace w ++ tr ∧ polls tr = length pre ∧
             Terminate p ∈ tr)
    (λ e _, e = KeyboardInterrupt)
    (λ w', script w' = [])) as Hfirst.
  { rewrite Hrun.
    pose proof Hr2 as (k2 & c2 & Hk2 & Hpr2 & _).
    assert (slot_ok p w2) as Hs2.
    { intros k Hk. rewrite Hk2 in Hk. injection Hk as <-. by exists Running. }
    pose proof (reap_worker_spec p w2 k2 Hs2 Hk2) as Hreap.
    pose proof (only_reap_worker unpolled (λ _, I) (λ _, I) (λ _ _, I) w2)
      as Honly.
    unfold cycle_tail, bind at 1, try_finally. rewrite Hloop.
    destruct (reap_worker w2) as [[] w4|e w4|w4|]; simpl in Hreap;
      [|by destruct Hreap..|done].
    destruct Hreap as (trr' & c & l2 & Htr4' & _ & _ & _ & _ & _ & Hm4 & k4 &
                       Hk4 & _ & _ & Hterm & Halive).
    destruct (Honly w4 eq_refl) as (trr & Htr4 & Hun).
    assert (Terminate p ∈ trr') as Hin by (apply Halive; by exists p).
    assert (Terminate p ∈ trr) as Hin'.
    { rewrite Htr4 in Htr4'. apply app_inv_head in Htr4'. subst trr.
      apply elem_of_app. by left. }
    assert (is_Some (monitor w4)) as [m4 Hmon4] by by apply Hm4.
    rewrite (bind_Ret _ _ _ _ _ (monitor_clear_changes_eq _ _ Hmon4)).
    match goal with |- context [bind the_worker _ ?W] =>
      rewrite (bind_Ret _ _ _ _ _ (the_worker_eq W k4 Hk4)) end.
    unfold modify, bind, ret. simpl. split; [tauto|].
    exists (tr1 ++ trl ++ trr ++ [ClearChanges]). split_and!.
    - rewrite Htr4, Htr2, Htr1. by rewrite <-!app_assoc.
    - rewrite !polls_app, Hpolls1, Hpolls, (polls_unpolled _ Hun).
      unfold polls. simpl. lia.
    - rewrite !elem_of_app. tauto. }
  split_and!.
  - by exists w1, w2, trl.
  - done.
  - pose proof (_run_worker_spec w Hmon H0) as Hspec.
    unfold run_cycle. unfold time_time at 1, gets at 1, bind at 1.
    destruct (_run_worker w) as [force w3|e w3|w3|] eqn:Hrun3;
      simpl in Hfirst, Hspec;
      [|by unfold bind; rewrite Hrun3..|done].
    destruct Hfirst as [-> _].
    destruct Hspec as [(trc & c & Htr3 & Hct & _) _ _ Hw3 _ _ _].
    pose proof (cycle_trace_no_wait _ _ _ Hct) as Hnw.
    pose proof (lifecycle_cycle_trace _ _ _ Hct) as Hl.
    rewrite (bind_Ret _ _ _ _ _ Hrun3). simpl.
    unfold ret at 1, bind at 1. unfold gets at 1, bind at 1.
    unfold time_time, gets at 1, bind at 1.
    case_bool_decide.
    + eapply sat_mono; [by apply (time_sleep_spec 0)|..];
        [|by intros e w4 [-> _]|by intros w4 [-> _]].
      intros _ w4 (tr4 & Hi & Hq4 & _). destruct Hi.
      eexists (trc ++ _), c. split_and!.
      * rewrite i_trace0, Htr3. by rewrite <-app_assoc.
      * rewrite elem_of_app, elem_of_cons.
        pose proof (quiet_not_wait _ _ Hq4). intuition discriminate.
      * rewrite lifecycle_app, Hl.
        by rewrite (lifecycle_idle _ i_actions0).
    + unfold ret. simpl. by exists trc, c.
  - intros w' Hret.
    pose proof (run_cycle_spec w Hmon H0) as Hs. rewrite Hret in Hs.
    simpl in Hs. destruct Hs as [_ _ Hm' _ _ Hnp' Hfds'].
    unfold p in *. rewrite <-Hnp'.
    eapply sat_mono; [apply run_cycle_spec; [done|by rewrite Hfds']|..];
      [|done|done].
    intros _ w'' [(tr & c & Htr & Htt) _ _ _ _ _ _]. exists tr.
    split; [done|]. by eapply turn_trace_started.
Qed.

(** The worker asks for a reload during the first poll of the queue, and
    while it is being started: the loop polls the queue once, and not at
    all. *)
Lemma run_worker_on_reload :
  outcome_value (_run_worker (example_monitoring script_reload)) = Some true ∧
  trace <$> outcome_world (_run_worker (example_monitoring script_reload))
  = Some [Spawn 100; SendFd 3 100; Print "Starting monitor for PID 100.";
          ClearChanges; QueueGet; Print "Killing server with PID 100.";
          Terminate 100; Joined 100 (-15); ClearChanges] ∧
  outcome_value (_run_worker (example_monitoring script_reload_early))
  = Some true ∧
  trace <$> outcome_world (_run_worker (example_monitoring script_reload_early))
  = Some [Spawn 100; SendFd 3 100; Print "Starting monitor for PID 100.";
          ClearChanges; Print "Killing server with PID 100.";
          Terminate 100; Joined 100 (-15); ClearChanges].
Proof. split_and!; vm_compute; reflexivity. Qed.

(** C3, counterexample: the worker asks for a reload during the first
    poll; [_run_worker] returns [True], the terminated flag. *)
Lemma reload_sets_terminated :
  ¬ reload_leaves_terminated_false
      (_run_worker (example_monitoring script_reload)).
Proof.
  destruct run_worker_on_reload as (Hv & _).
  destruct (_run_worker (example_monitoring script_reload)); simpl in *;
    try discriminate.
  injection Hv as ->. discriminate.
Qed.

Lemma trigger_reload_restarts_witness :
  sat (_run_worker (example_monitoring script_reload))
    (λ force w', force = true ∧
       ∃ tr, trace w' = trace (example_monitoring script_reload) ++ tr ∧
             polls tr = length [example_tick []] ∧
             Terminate (next_pid (example_monitoring script_reload)) ∈ tr)
    (λ e _, e = KeyboardInterrupt)
    (λ w', script w' = []).
Proof.
  refine (proj1 (proj2 (trigger_reload_restarts
                          (example_monitoring script_reload)
                          [example_tick []]
                          (example_tick [WorkerTriggerReload])
                          [example_tick [WorkerExits (-15)]; example_tick []]
                          _ _ _ _ _))).
  - eexists. vm_compute. reflexivity.
  - vm_compute. set_solver.
  - vm_compute. reflexivity.
  - constructor; [|constructor]. split; [reflexivity|constructor].
  - split_and!.
    + reflexivity.
    + by left.
    + intros code Hin. apply list_elem_of_singleton in Hin. discriminate.
Defined.

(** ** More on the change signal *)

Section change_signal_output.
Implicit Types (m : FileMonitorProxy) (paths : list string).

Lemma ascii_compare_trans_le a b c :
  Ascii.compare a b ≠ Gt → Ascii.compare b c ≠ Gt → Ascii.compare a c ≠ Gt.
Proof.
  unfold Ascii.compare. rewrite !N.compare_gt_iff. lia.
Qed.

Lemma ascii_compare_eq a b : Ascii.compare a b = Eq → a = b.
Proof. apply Ascii.compare_eq_iff. Qed.

Lemma ascii_compare_refl a : Ascii.compare a a = Eq.
Proof. unfold Ascii.compare. apply N.compare_refl. Qed.

Lemma ascii_compare_lt_trans a b c :
  Ascii.compare a b = Lt → Ascii.compare b c = Lt → Ascii.compare a c = Lt.
Proof.
  unfold Ascii.compare. rewrite !N.compare_lt_iff. lia.
Qed.

#[local] Instance str_le_trans : Transitive str_le.
Proof.
  unfold str_le, String.leb. intros s1.
  induction s1 as [|a s1 IH]; intros [|b s2] [|c s3]; simpl; try done.
  destruct (Ascii.compare a b) eqn:Hab; [|clear IH|done].
  - apply ascii_compare_eq in Hab as ->.
    destruct (Ascii.compare b c) eqn:Hbc; [|done|done].
    apply IH.
  - destruct (Ascii.compare b c) eqn:Hbc; [| |done].
    + apply ascii_compare_eq in Hbc as ->. by rewrite Hab.
    + by rewrite (ascii_compare_lt_trans a b c Hab Hbc).
Qed.

#[local] Instance str_le_total : Total str_le.
Proof. intros a b. apply String.leb_total. Qed.

#[local] Instance str_le_antisym : AntiSymm (=) str_le.
Proof. intros a b. apply String.leb_antisym. Qed.





End change_signal_output.

(** ** What a computation keeps *)

Section preserves.
Context (P : World → Prop).












Hypothesis P_trace : ∀ tr w, P w → P (set_trace tr w).
Hypothesis P_worker : ∀ k w, P w → P (set_worker k w).
Hypothesis P_script : ∀ s w, P w → P (set_script s w).
Hypothesis P_clock : ∀ t w, P w → P (set_clock t w).
Hypothesis P_file_changed : ∀ paths m w,
  monitor w = Some m → P w → P (set_monitor (Some (file_changed paths m).1) w).



















Hypothesis P_update_monitor : ∀ f m w,
  (f = clear_changes ∨ ∃ path, f = add_path path) →
  monitor w = Some m → P w → P (set_monitor (Some (f m)) w).





Hypothesis P_open_fds : ∀ s w, P w → P (set_open_fds s w).
Hypothesis P_next_pid : ∀ p w, P w → P (set_next_pid p w).
Hypothesis P_group : ∀ g w, P w → P (set_group g w).







End preserves.

(** ** Invariants of a session *)

Section session.
Implicit Types (w : World) (m : FileMonitorProxy).















End session.

(** ** Descriptors, and a worker that stays *)

Section resources.
Implicit Types (w : World) (k : Worker) (p : Z) (tr : list Action)
  (t : Tick).





End resources.

(** ** The worker's side *)

Section worker_side.
Implicit Types (l : list string) (s : gset string).





End worker_side.

(** ** start_reloader *)

Section entry_point.
Implicit Types (w : World) (proxy : ReloaderProxy).

End entry_point.
